(** * SqlAlchemyStore: a shallow embedding of mlflow/store/sqlalchemy_store.py

    The tracking store keeps experiments, runs, metrics, params and tags in
    a relational database and reaches it through SQLAlchemy sessions.  The
    embedding has three layers:

    - the tables, as lists of rows, and the unit of work of a session
      (pending writes, flush, commit, rollback, close);
    - a state-and-exception monad in which a Python [raise] keeps the state
      reached so far, as it does in the interpreter;
    - the store's methods, written in that monad line by line.

    Definitions come first; the properties follow. *)

From Stdlib Require Import ZArith List String Ascii Bool Lia.
From Stdlib Require Import SpecFloat DecimalString DecimalZ DecimalPos.
From Stdlib Require Import Permutation.
Import ListNotations.

Local Open Scope Z_scope.
Local Infix "+++" := String.append (at level 60, right associativity).

(* ===================================================================== *)
(** ** Entities and error codes *)
(* ===================================================================== *)

(** mlflow.entities.lifecycle_stage.LifecycleStage *)
Inductive LifecycleStage := ACTIVE | DELETED.

(** mlflow.entities.ViewType *)
Inductive ViewType := ACTIVE_ONLY | DELETED_ONLY | ALL.

(** mlflow.entities.RunStatus *)
Inductive RunStatus := RUNNING | SCHEDULED | FINISHED | FAILED | KILLED.

(** The error codes of mlflow.protos.databricks_pb2 the store imports. *)
Inductive ErrorCode :=
| INVALID_PARAMETER_VALUE
| RESOURCE_ALREADY_EXISTS
| INVALID_STATE
| RESOURCE_DOES_NOT_EXIST
| INTERNAL_ERROR.

Definition LifecycleStage_eqb (a b : LifecycleStage) : bool :=
  match a, b with
  | ACTIVE, ACTIVE | DELETED, DELETED => true
  | _, _ => false
  end.

Definition ErrorCode_eqb (a b : ErrorCode) : bool :=
  match a, b with
  | INVALID_PARAMETER_VALUE, INVALID_PARAMETER_VALUE
  | RESOURCE_ALREADY_EXISTS, RESOURCE_ALREADY_EXISTS
  | INVALID_STATE, INVALID_STATE
  | RESOURCE_DOES_NOT_EXIST, RESOURCE_DOES_NOT_EXIST
  | INTERNAL_ERROR, INTERNAL_ERROR => true
  | _, _ => false
  end.

(** Modelled from the spec: [LifecycleStage.view_type_to_stages] is not
    among the sources; the three views are Active-only, Deleted-only and
    All. *)
Definition view_type_to_stages (v : ViewType) : list LifecycleStage :=
  match v with
  | ACTIVE_ONLY => [ACTIVE]
  | DELETED_ONLY => [DELETED]
  | ALL => [ACTIVE; DELETED]
  end.

(** The text a lifecycle stage formats to in a message. *)
Definition stage_name (s : LifecycleStage) : string :=
  match s with ACTIVE => "active" | DELETED => "deleted" end.

(** Python's [str] on an integer, and [int] on a decimal string ([None]
    where the string is not one). *)
Definition str (z : Z) : string := NilZero.string_of_int (Z.to_int z).
Definition int (s : string) : option Z :=
  option_map Z.of_int (NilZero.int_of_string s).

(** ** Exceptions *)

(** Exceptions that are not [MlflowException]: the two SQLAlchemy raises
    and any other subclass of [Exception]. *)
Inductive PyException :=
| IntegrityError (detail : string)
| MultipleResultsFound
| PyError (detail : string).

(** The [message] of an [MlflowException] is a text or, where the session
    manager wraps a foreign exception, that exception itself. *)
Inductive Message :=
| Text (s : string)
| Cause (e : PyException).

Record MlflowException := mkMlflowException {
  message : Message;
  error_code : ErrorCode
}.

Inductive Exn :=
| Mlflow (e : MlflowException)
| Other (e : PyException).

Inductive Result (A : Type) :=
| Ok (a : A)
| Raise (e : Exn).
Arguments Ok {A} a.
Arguments Raise {A} e.

Definition exc_text (e : PyException) : string :=
  match e with
  | IntegrityError d => d
  | MultipleResultsFound => "Multiple rows were found for one_or_none()"
  | PyError d => d
  end.

(** ** Metric values: IEEE 754 binary64 *)

Definition float := spec_float.

(** 1.7976931348623157e308, the largest finite binary64 value,
    (2^53 - 1) * 2^971, and its opposite. *)
Definition max_float64 : float := S754_finite false 9007199254740991 971.
Definition min_float64 : float := S754_finite true 9007199254740991 971.
Definition zero_float : float := S754_zero false.

(** [math.isnan], [math.isinf] *)
Definition isnan (v : float) : bool :=
  match v with S754_nan => true | _ => false end.
Definition isinf (v : float) : bool :=
  match v with S754_infinity _ => true | _ => false end.
(** [a > b] and [a == b] on floats; both are false when a side is NaN. *)
Definition float_gt (a b : float) : bool := SFltb b a.
Definition float_eq (a b : float) : bool := SFeqb a b.

(** ** Rows of the tables and the entities the callers pass *)

Module Metric.
Record t := mk { key : string; value : float; timestamp : Z; step : Z }.
End Metric.

Module Param.
Record t := mk { key : string; value : string }.
End Param.

Module RunTag.
Record t := mk { key : string; value : string }.
End RunTag.

Module SqlExperiment.
Record t := mk {
  experiment_id : Z;
  name : string;
  artifact_location : option string;
  lifecycle_stage : LifecycleStage
}.
End SqlExperiment.

Module SqlRun.
Record t := mk {
  run_uuid : string;
  experiment_id : Z;
  status : RunStatus;
  start_time : Z;
  end_time : option Z;
  artifact_uri : string;
  lifecycle_stage : LifecycleStage
}.
End SqlRun.

Module SqlMetric.
Record t := mk {
  run_uuid : string;
  key : string;
  value : float;
  timestamp : Z;
  step : Z;
  is_nan : bool
}.
End SqlMetric.

Module SqlLatestMetric.
Record t := mk {
  run_uuid : string;
  key : string;
  value : float;
  timestamp : Z;
  step : Z;
  is_nan : bool
}.
End SqlLatestMetric.

Module SqlParam.
Record t := mk { run_uuid : string; key : string; value : string }.
End SqlParam.

Module SqlTag.
Record t := mk { run_uuid : string; key : string; value : string }.
End SqlTag.

Module SqlExperimentTag.
Record t := mk { experiment_id : Z; key : string; value : string }.
End SqlExperimentTag.

(** The database: one list of rows per table, in insertion order. *)
Record DB := mkDB {
  experiments : list SqlExperiment.t;
  runs : list SqlRun.t;
  metrics : list SqlMetric.t;
  latest_metrics : list SqlLatestMetric.t;
  params : list SqlParam.t;
  tags : list SqlTag.t;
  experiment_tags : list SqlExperimentTag.t
}.

Definition with_experiments (f : list SqlExperiment.t -> list SqlExperiment.t)
  (db : DB) : DB :=
  mkDB (f (experiments db)) (runs db) (metrics db) (latest_metrics db)
       (params db) (tags db) (experiment_tags db).
Definition with_runs (f : list SqlRun.t -> list SqlRun.t) (db : DB) : DB :=
  mkDB (experiments db) (f (runs db)) (metrics db) (latest_metrics db)
       (params db) (tags db) (experiment_tags db).
Definition with_metrics (f : list SqlMetric.t -> list SqlMetric.t)
  (db : DB) : DB :=
  mkDB (experiments db) (runs db) (f (metrics db)) (latest_metrics db)
       (params db) (tags db) (experiment_tags db).
Definition with_latest_metrics
  (f : list SqlLatestMetric.t -> list SqlLatestMetric.t) (db : DB) : DB :=
  mkDB (experiments db) (runs db) (metrics db) (f (latest_metrics db))
       (params db) (tags db) (experiment_tags db).
Definition with_params (f : list SqlParam.t -> list SqlParam.t)
  (db : DB) : DB :=
  mkDB (experiments db) (runs db) (metrics db) (latest_metrics db)
       (f (params db)) (tags db) (experiment_tags db).
Definition with_tags (f : list SqlTag.t -> list SqlTag.t) (db : DB) : DB :=
  mkDB (experiments db) (runs db) (metrics db) (latest_metrics db)
       (params db) (f (tags db)) (experiment_tags db).
Definition with_experiment_tags
  (f : list SqlExperimentTag.t -> list SqlExperimentTag.t) (db : DB) : DB :=
  mkDB (experiments db) (runs db) (metrics db) (latest_metrics db)
       (params db) (tags db) (f (experiment_tags db)).

(* ===================================================================== *)
(** ** The unit of work of a session *)
(* ===================================================================== *)

(** What a session holds back until it flushes: the INSERT of an object
    given to [session.add], the UPDATE of an attribute assigned on a loaded
    object, the upsert of [session.merge], the DELETE of [session.delete]. *)
Inductive Write :=
| InsertExperiment (name : string) (stage : LifecycleStage)
                   (location : option string)
| SetExperimentStage (id : Z) (stage : LifecycleStage)
| SetExperimentName (id : Z) (name : string)
| SetExperimentLocation (id : Z) (location : string)
| SetRunStage (run_uuid : string) (stage : LifecycleStage)
| SetRunInfo (run_uuid : string) (status : RunStatus) (end_time : option Z)
| InsertMetric (m : SqlMetric.t)
| InsertParam (p : SqlParam.t)
| MergeLatestMetric (l : SqlLatestMetric.t)
| MergeTag (t : SqlTag.t)
| MergeExperimentTag (t : SqlExperimentTag.t)
| DeleteTag (run_uuid key : string).

(** The calls the store makes on a session object. *)
Inductive SessionCall := Commit | Rollback | Close.

Definition SessionCall_eqb (a b : SessionCall) : bool :=
  match a, b with
  | Commit, Commit | Rollback, Rollback | Close, Close => true
  | _, _ => false
  end.

(** The autoincrement of [experiments.experiment_id]: an id greater than
    every id of the table. *)
Definition next_experiment_id (rows : list SqlExperiment.t) : Z :=
  1 + fold_right Z.max 0 (map SqlExperiment.experiment_id rows).

Definition same_param_key (p q : SqlParam.t) : bool :=
  (SqlParam.run_uuid p =? SqlParam.run_uuid q)%string
  && (SqlParam.key p =? SqlParam.key q)%string.

Definition same_latest_key (p q : SqlLatestMetric.t) : bool :=
  (SqlLatestMetric.run_uuid p =? SqlLatestMetric.run_uuid q)%string
  && (SqlLatestMetric.key p =? SqlLatestMetric.key q)%string.

Definition same_tag_key (p q : SqlTag.t) : bool :=
  (SqlTag.run_uuid p =? SqlTag.run_uuid q)%string
  && (SqlTag.key p =? SqlTag.key q)%string.

Definition same_experiment_tag_key (p q : SqlExperimentTag.t) : bool :=
  (SqlExperimentTag.experiment_id p =? SqlExperimentTag.experiment_id q)
  && (SqlExperimentTag.key p =? SqlExperimentTag.key q)%string.

(** [session.merge]: the row of the same primary key is overwritten in
    place; without one the row is inserted. *)
Definition upsert {A} (same : A -> A -> bool) (x : A) (rows : list A)
  : list A :=
  if existsb (same x) rows
  then map (fun y => if same x y then x else y) rows
  else rows ++ [x].

Definition update_where {A} (p : A -> bool) (f : A -> A) (rows : list A)
  : list A :=
  map (fun y => if p y then f y else y) rows.

Definition set_experiment_stage (st : LifecycleStage) (e : SqlExperiment.t) :=
  SqlExperiment.mk (SqlExperiment.experiment_id e) (SqlExperiment.name e)
    (SqlExperiment.artifact_location e) st.
Definition set_experiment_name (nm : string) (e : SqlExperiment.t) :=
  SqlExperiment.mk (SqlExperiment.experiment_id e) nm
    (SqlExperiment.artifact_location e) (SqlExperiment.lifecycle_stage e).
Definition set_experiment_location (loc : string) (e : SqlExperiment.t) :=
  SqlExperiment.mk (SqlExperiment.experiment_id e) (SqlExperiment.name e)
    (Some loc) (SqlExperiment.lifecycle_stage e).
Definition set_run_stage (st : LifecycleStage) (r : SqlRun.t) :=
  SqlRun.mk (SqlRun.run_uuid r) (SqlRun.experiment_id r) (SqlRun.status r)
    (SqlRun.start_time r) (SqlRun.end_time r) (SqlRun.artifact_uri r) st.
Definition set_run_info (status : RunStatus) (end_time : option Z)
  (r : SqlRun.t) :=
  SqlRun.mk (SqlRun.run_uuid r) (SqlRun.experiment_id r) status
    (SqlRun.start_time r) end_time (SqlRun.artifact_uri r)
    (SqlRun.lifecycle_stage r).

(** Modelled from the spec: the table declarations
    (mlflow.store.dbmodels.models) are not among the sources.  The
    constraints the database enforces are the uniqueness invariants the spec
    lists: an experiment name is unique, [(run_id, key)] is unique within
    Param, and Tag, ExperimentTag and LatestMetric hold one row per owner
    and key (their writes are merges, which cannot conflict).
    [get_experiment_by_name] treats two rows of one name, in whatever stage,
    as an invalid state, so the name constraint spans the whole table.

    One write against the database of the transaction.  The second
    component is the primary key an INSERT into [experiments] generated. *)
Definition apply_write (w : Write) (db : DB)
  : PyException + (DB * option Z) :=
  match w with
  | InsertExperiment nm st loc =>
      if existsb (fun e => (SqlExperiment.name e =? nm)%string)
                 (experiments db)
      then inl (IntegrityError "UNIQUE constraint failed: experiments.name")
      else
        let id := next_experiment_id (experiments db) in
        inr (with_experiments
               (fun rows => rows ++ [SqlExperiment.mk id nm loc st]) db,
             Some id)
  | SetExperimentStage id st =>
      inr (with_experiments
             (update_where (fun e => SqlExperiment.experiment_id e =? id)
                           (set_experiment_stage st)) db, None)
  | SetExperimentName id nm =>
      if existsb (fun e => (SqlExperiment.name e =? nm)%string
                           && negb (SqlExperiment.experiment_id e =? id))
                 (experiments db)
      then inl (IntegrityError "UNIQUE constraint failed: experiments.name")
      else inr (with_experiments
                  (update_where (fun e => SqlExperiment.experiment_id e =? id)
                                (set_experiment_name nm)) db, None)
  | SetExperimentLocation id loc =>
      inr (with_experiments
             (update_where (fun e => SqlExperiment.experiment_id e =? id)
                           (set_experiment_location loc)) db, None)
  | SetRunStage id st =>
      inr (with_runs
             (update_where (fun r => (SqlRun.run_uuid r =? id)%string)
                           (set_run_stage st)) db, None)
  | SetRunInfo id status end_time =>
      inr (with_runs
             (update_where (fun r => (SqlRun.run_uuid r =? id)%string)
                           (set_run_info status end_time)) db, None)
  | InsertMetric m =>
      inr (with_metrics (fun rows => rows ++ [m]) db, None)
  | InsertParam p =>
      if existsb (same_param_key p) (params db)
      then inl (IntegrityError
                  "UNIQUE constraint failed: params.key, params.run_uuid")
      else inr (with_params (fun rows => rows ++ [p]) db, None)
  | MergeLatestMetric l =>
      inr (with_latest_metrics (upsert same_latest_key l) db, None)
  | MergeTag t =>
      inr (with_tags (upsert same_tag_key t) db, None)
  | MergeExperimentTag t =>
      inr (with_experiment_tags (upsert same_experiment_tag_key t) db, None)
  | DeleteTag id key =>
      inr (with_tags
             (filter (fun t => negb ((SqlTag.run_uuid t =? id)%string
                                     && (SqlTag.key t =? key)%string))) db,
           None)
  end.

(** The pending writes, in the order they were registered.  [new_pk] is the
    key generated so far for the experiment this session added. *)
Fixpoint apply_writes (ws : list Write) (db : DB) (new_pk : option Z)
  : PyException + (DB * option Z) :=
  match ws with
  | [] => inr (db, new_pk)
  | w :: ws' =>
      match apply_write w db with
      | inl e => inl e
      | inr (db', None) => apply_writes ws' db' new_pk
      | inr (db', Some id) => apply_writes ws' db' (Some id)
      end
  end.

(** A session: the committed database, the database as the open transaction
    sees it, the writes not yet flushed, the primary key of the experiment
    object added in this session once a flush has generated it, and the
    calls made on the session so far. *)
Record Session := mkSession {
  committed : DB;
  txn : DB;
  pending : list Write;
  new_pk : option Z;
  calls : list SessionCall
}.

(** [SessionMaker()] *)
Definition SessionMaker (db : DB) : Session := mkSession db db [] None [].

(* ===================================================================== *)
(** ** State and exceptions *)
(* ===================================================================== *)

(** A computation over a state [S] that returns or raises; the state it
    reached is kept in both cases. *)
Definition Eff (S A : Type) : Type := S -> Result A * S.

Definition ret {S A} (a : A) : Eff S A := fun s => (Ok a, s).
Definition raise {S A} (e : Exn) : Eff S A := fun s => (Raise e, s).
Definition bind {S A B} (m : Eff S A) (k : A -> Eff S B) : Eff S B :=
  fun s =>
    match m s with
    | (Ok a, s') => k a s'
    | (Raise e, s') => (Raise e, s')
    end.

Declare Scope eff_scope.
Delimit Scope eff_scope with eff.
Notation "x <- m ;; k" := (bind m (fun x => k))
  (at level 61, m at next level, right associativity) : eff_scope.
Notation "m ;; k" := (bind m (fun _ => k))
  (at level 61, right associativity) : eff_scope.
Local Open Scope eff_scope.

(** [raise MlflowException(text, code)] *)
Definition raise_mlflow {S A} (text : string) (code : ErrorCode) : Eff S A :=
  raise (Mlflow (mkMlflowException (Text text) code)).

(** [try: body  except sqlalchemy.exc.IntegrityError as e: handler] *)
Definition try_except_IntegrityError {S A} (body : Eff S A)
  (handler : string -> Eff S A) : Eff S A :=
  fun s =>
    match body s with
    | (Raise (Other (IntegrityError d)), s') => handler d s'
    | r => r
    end.

(** [for x in xs: f(x)] *)
Fixpoint for_each {S A} (xs : list A) (f : A -> Eff S unit) : Eff S unit :=
  match xs with
  | [] => ret tt
  | x :: xs' => f x ;; for_each xs' f
  end.

(** A validator of mlflow.utils.validation returns [None] when it accepts
    and the exception it raises otherwise. *)
Definition check {S} (v : option Exn) : Eff S unit :=
  match v with
  | None => ret tt
  | Some e => raise e
  end.

Definition M (A : Type) : Type := Eff Session A.
Definition Store (A : Type) : Type := Eff DB A.

(** *** The methods of a session *)

(** [session.flush()]: the pending writes reach the transaction.  A
    constraint violation raises and the transaction is rolled back. *)
Definition flush : M unit := fun s =>
  match apply_writes (pending s) (txn s) (new_pk s) with
  | inr (db', pk) =>
      (Ok tt, mkSession (committed s) db' [] pk (calls s))
  | inl e =>
      (Raise (Other e),
       mkSession (committed s) (committed s) [] (new_pk s) (calls s))
  end.

Definition record_call (c : SessionCall) : M unit := fun s =>
  (Ok tt, mkSession (committed s) (txn s) (pending s) (new_pk s)
                    (calls s ++ [c])).

(** [session.commit()] flushes and makes the transaction durable. *)
Definition commit : M unit :=
  record_call Commit ;;
  flush ;;
  fun s => (Ok tt, mkSession (txn s) (txn s) [] (new_pk s) (calls s)).

(** [session.rollback()] *)
Definition rollback : M unit :=
  record_call Rollback ;;
  fun s => (Ok tt, mkSession (committed s) (committed s) [] (new_pk s)
                             (calls s)).

(** [session.close()] *)
Definition close : M unit :=
  record_call Close ;;
  fun s => (Ok tt, mkSession (committed s) (committed s) [] (new_pk s)
                             (calls s)).

(** [session.add(obj)], [session.merge(obj)], [session.delete(obj)] and an
    attribute assignment on a loaded object register a write. *)
Definition register (w : Write) : M unit := fun s =>
  (Ok tt, mkSession (committed s) (txn s) (pending s ++ [w]) (new_pk s)
                    (calls s)).

(** [session.query(...)]: the session flushes first (autoflush), then the
    rows are read from the transaction. *)
Definition query {A} (read : DB -> A) : M A :=
  flush ;; fun s => (Ok (read (txn s)), s).

(** [MlflowException(message=e, error_code=INTERNAL_ERROR)] *)
Definition internal_error (e : PyException) : MlflowException :=
  mkMlflowException (Cause e) INTERNAL_ERROR.

(** [_get_managed_session_maker]: the context manager around [body].

    <<
      session = SessionMaker()
      try:
          yield session
          session.commit()
      except MlflowException:
          session.rollback(); raise
      except Exception as e:
          session.rollback()
          raise MlflowException(message=e, error_code=INTERNAL_ERROR)
      finally:
          session.close()
    >> *)
Definition make_managed_session {A} (body : M A) (db : DB)
  : Result A * Session :=
  let session := SessionMaker db in
  let '(r, s1) := (a <- body ;; commit ;; ret a) session in
  match r with
  | Ok a =>
      let '(_, s2) := close s1 in (Ok a, s2)
  | Raise (Mlflow e) =>
      let '(_, s2) := (rollback ;; close) s1 in (Raise (Mlflow e), s2)
  | Raise (Other e) =>
      let '(_, s2) := (rollback ;; close) s1 in
      (Raise (Mlflow (internal_error e)), s2)
  end.

(** [with self.ManagedSessionMaker() as session: body], as an operation of
    the store: what remains is the committed database. *)
Definition ManagedSessionMaker {A} (body : M A) : Store A := fun db =>
  let '(r, s) := make_managed_session body db in (r, committed s).

(* ===================================================================== *)
(** ** Helpers of the Python runtime *)
(* ===================================================================== *)

Definition startswith_sep (s : string) : bool :=
  match s with
  | String c _ => Ascii.eqb c "/"
  | EmptyString => false
  end.

Fixpoint endswith_sep (s : string) : bool :=
  match s with
  | EmptyString => false
  | String c EmptyString => Ascii.eqb c "/"
  | String _ rest => endswith_sep rest
  end.

(** [posixpath.join(a, b)] *)
Definition posixpath_join (a b : string) : string :=
  if startswith_sep b then b
  else if (a =? "")%string || endswith_sep a then a +++ b
  else a +++ "/" +++ b.

(** [not s] on an optional string: [None] and the empty string are falsy. *)
Definition falsy (s : option string) : bool :=
  match s with
  | None => true
  | Some s => (s =? "")%string
  end.

(** [x in xs] *)
Definition mem_Z (x : Z) (xs : list Z) : bool := existsb (Z.eqb x) xs.
Definition mem_string (x : string) (xs : list string) : bool :=
  existsb (String.eqb x) xs.
Definition mem_stage (x : LifecycleStage) (xs : list LifecycleStage) : bool :=
  existsb (LifecycleStage_eqb x) xs.

(** Python's comparison [a > b] of two [(step, timestamp, value)] tuples:
    the first position whose elements are not equal decides. *)
Definition tuple_gt (a b : Z * Z * float) : bool :=
  let '(s1, t1, v1) := a in
  let '(s2, t2, v2) := b in
  if negb (s1 =? s2) then s1 >? s2
  else if negb (t1 =? t2) then t1 >? t2
  else if negb (float_eq v1 v2) then float_gt v1 v2
  else false.

(** [Query.one_or_none()] *)
Definition one_or_none {A} (rows : list A) : M (option A) :=
  match rows with
  | [] => ret None
  | [x] => ret (Some x)
  | _ => raise (Other MultipleResultsFound)
  end.

(** Modelled from the spec: [to_mlflow_entity] (mlflow.store.dbmodels.models)
    is not among the sources; it is the pure conversion of a row to a value
    of the same attributes, for which the row itself stands. *)
Definition to_mlflow_entity {A} (row : A) : A := row.

(** An object handed to the session: one the code has just constructed,
    with the INSERT it stands for, or one a query loaded. *)
Inductive Obj :=
| New (w : Write)
| Loaded.

(** The argument of [_save_to_db]: a list of objects or a single one. *)
Inductive Objs :=
| Many (objs : list Obj)
| Single (obj : Obj).

(** A mapped class, as [_get_or_create] uses it: its table, the row test of
    [filter_by] on the keyword arguments and the INSERT of a new instance. *)
Class Model (row : Type) := {
  table : DB -> list row;
  filter_by : row -> row -> bool;
  insert : row -> Write
}.

#[global] Instance SqlMetric_Model : Model SqlMetric.t := {
  table := metrics;
  filter_by kw m :=
    (SqlMetric.run_uuid m =? SqlMetric.run_uuid kw)%string
    && (SqlMetric.key m =? SqlMetric.key kw)%string
    && float_eq (SqlMetric.value m) (SqlMetric.value kw)
    && (SqlMetric.timestamp m =? SqlMetric.timestamp kw)
    && (SqlMetric.step m =? SqlMetric.step kw)
    && Bool.eqb (SqlMetric.is_nan m) (SqlMetric.is_nan kw);
  insert := InsertMetric
}.

#[global] Instance SqlParam_Model : Model SqlParam.t := {
  table := params;
  filter_by kw p :=
    (SqlParam.run_uuid p =? SqlParam.run_uuid kw)%string
    && (SqlParam.key p =? SqlParam.key kw)%string
    && (SqlParam.value p =? SqlParam.value kw)%string;
  insert := InsertParam
}.

(** [session.merge(obj)] flushes what is pending and registers the upsert. *)
Definition merge (w : Write) : M unit := flush ;; register w.

(** [try: body  except MlflowException as e: raise e
     except Exception as e: raise MlflowException(e, INTERNAL_ERROR)] *)
Definition try_reraise {S A} (body : Eff S A) : Eff S A := fun s =>
  match body s with
  | (Raise (Other e), s') => (Raise (Mlflow (internal_error e)), s')
  | r => r
  end.

(* ===================================================================== *)
(** ** class SqlAlchemyStore *)
(* ===================================================================== *)

Section SqlAlchemyStore.

(** [self.artifact_root_uri] *)
Variable artifact_root_uri : string.

(** The validators of mlflow.utils.validation, which are not among the
    sources: each accepts ([None]) or raises. *)
Variable _validate_metric : string -> float -> Z -> Z -> option Exn.
Variable _validate_tag : string -> string -> option Exn.
Variable _validate_experiment_tag : string -> string -> option Exn.
Variable _validate_run_id : string -> option Exn.
Variable _validate_batch_log_data :
  list Metric.t -> list Param.t -> list RunTag.t -> option Exn.
Variable _validate_batch_log_limits :
  list Metric.t -> list Param.t -> list RunTag.t -> option Exn.

Definition DEFAULT_EXPERIMENT_ID : Z := 0.

(** [session.add(obj)]: a new object is pending until the flush; a loaded
    one is in the session already. *)
Definition add (obj : Obj) : M unit :=
  match obj with
  | New w => register w
  | Loaded => ret tt
  end.

(** [session.add_all(objs)] *)
Definition add_all (objs : list Obj) : M unit := for_each objs add.

Definition _save_to_db (objs : Objs) : M unit :=
  match objs with
  | Many objs => add_all objs
  | Single obj => add obj
  end.

Definition _get_or_create {row} `{Model row} (kwargs : row)
  : M (row * bool) :=
  instance <- query (fun db => hd_error (filter (filter_by kwargs)
                                                (table db))) ;;
  match instance with
  | Some instance => ret (instance, false)
  | None =>
      _save_to_db (Single (New (insert kwargs))) ;;
      ret (kwargs, true)
  end.

Definition _get_artifact_location (experiment_id : Z) : string :=
  posixpath_join artifact_root_uri (str experiment_id).

(** [experiment.artifact_location = location] on the experiment object
    this session added: an UPDATE of its row once it has a primary key,
    a change of its pending INSERT before. *)
Definition set_new_experiment_location (location : string) : M unit :=
  fun s =>
    match new_pk s with
    | Some id => register (SetExperimentLocation id location) s
    | None =>
        (Ok tt,
         mkSession (committed s) (txn s)
           (map (fun w => match w with
                          | InsertExperiment nm st _ =>
                              InsertExperiment nm st (Some location)
                          | _ => w
                          end) (pending s))
           (new_pk s) (calls s))
    end.

(** [str(experiment.experiment_id)] of that object. *)
Definition new_experiment_id : M string := fun s =>
  (Ok match new_pk s with
      | Some id => str id
      | None => "None"%string
      end, s).

Definition create_experiment (name : option string)
  (artifact_location : option string) : Store string :=
  if falsy name
  then raise_mlflow "Invalid experiment name" INVALID_PARAMETER_VALUE
  else
    let name := match name with Some n => n | None => ""%string end in
    ManagedSessionMaker (
      try_except_IntegrityError
        (register (InsertExperiment name ACTIVE artifact_location) ;;
         if falsy artifact_location then
           (* this requires a double write. The first one to generate an
              autoincrement-ed ID *)
           rows <- query (fun db =>
                     filter (fun e => (SqlExperiment.name e =? name)%string)
                            (experiments db)) ;;
           match rows with
           | first :: _ =>
               let eid := SqlExperiment.experiment_id first in
               set_new_experiment_location (_get_artifact_location eid)
           | [] =>
               raise (Other (PyError
                 "'NoneType' object has no attribute 'experiment_id'"))
           end
         else ret tt)
        (fun e =>
           raise_mlflow ("Experiment(name=" +++ name
                         +++ ") already exists. Error: " +++ e)
                        RESOURCE_ALREADY_EXISTS) ;;
      flush ;;
      new_experiment_id).

(** The query [_list_experiments] builds; [.all()] runs it.  Experiment
    ids are integers here, the primary keys themselves, on which
    [int(eid)] is the identity; [create_experiment] returns their decimal
    string. *)
Definition _list_experiments (ids : list Z) (names : list string)
  (view_type : ViewType) (db : DB) : list SqlExperiment.t :=
  let stages := view_type_to_stages view_type in
  filter (fun e =>
            mem_stage (SqlExperiment.lifecycle_stage e) stages
            && (match ids with
                | [] => true
                | _ => mem_Z (SqlExperiment.experiment_id e) ids
                end)
            && (match names with
                | [] => true
                | _ => mem_string (SqlExperiment.name e) names
                end))
         (experiments db).

Definition list_experiments (view_type : ViewType)
  : Store (list SqlExperiment.t) :=
  ManagedSessionMaker (
    rows <- query (_list_experiments [] [] view_type) ;;
    ret (map to_mlflow_entity rows)).

Definition _get_experiment (experiment_id : Z) (view_type : ViewType)
  : M SqlExperiment.t :=
  (* experiment_id or DEFAULT_EXPERIMENT_ID: zero is the falsy id *)
  let experiment_id :=
    if experiment_id =? 0 then DEFAULT_EXPERIMENT_ID else experiment_id in
  experiments <- query (_list_experiments [experiment_id] [] view_type) ;;
  match experiments with
  | [] =>
      raise_mlflow ("No Experiment with id=" +++ str experiment_id
                    +++ " exists") RESOURCE_DOES_NOT_EXIST
  | [experiment] => ret experiment
  | _ =>
      raise_mlflow ("Expected only 1 experiment with id="
                    +++ str experiment_id +++ ". Found "
                    +++ str (Z.of_nat (List.length experiments)) +++ ".")
                   INVALID_STATE
  end.

Definition get_experiment (experiment_id : Z) : Store SqlExperiment.t :=
  ManagedSessionMaker (
    experiment <- _get_experiment experiment_id ALL ;;
    ret (to_mlflow_entity experiment)).

Definition get_experiment_by_name (experiment_name : string)
  : Store (option SqlExperiment.t) :=
  ManagedSessionMaker (
    experiments <- query (_list_experiments [] [experiment_name] ALL) ;;
    match experiments with
    | [] => ret None
    | [experiment] => ret (Some (to_mlflow_entity experiment))
    | _ =>
        raise_mlflow ("Expected only 1 experiment with name="
                      +++ experiment_name +++ ". Found "
                      +++ str (Z.of_nat (List.length experiments)) +++ ".")
                     INVALID_STATE
    end).

Definition delete_experiment (experiment_id : Z) : Store unit :=
  ManagedSessionMaker (
    experiment <- _get_experiment experiment_id ACTIVE_ONLY ;;
    register (SetExperimentStage
                (SqlExperiment.experiment_id experiment) DELETED) ;;
    _save_to_db (Single Loaded)).

Definition restore_experiment (experiment_id : Z) : Store unit :=
  ManagedSessionMaker (
    experiment <- _get_experiment experiment_id DELETED_ONLY ;;
    register (SetExperimentStage
                (SqlExperiment.experiment_id experiment) ACTIVE) ;;
    _save_to_db (Single Loaded)).

Definition rename_experiment (experiment_id : Z) (new_name : string)
  : Store unit :=
  ManagedSessionMaker (
    experiment <- _get_experiment experiment_id ALL ;;
    if negb (LifecycleStage_eqb (SqlExperiment.lifecycle_stage experiment)
                                ACTIVE)
    then raise_mlflow "Cannot rename a non-active experiment."
                      INVALID_STATE
    else
      register (SetExperimentName
                  (SqlExperiment.experiment_id experiment) new_name) ;;
      _save_to_db (Single Loaded)).

Definition _get_run (run_uuid : string) : M SqlRun.t :=
  runs <- query (fun db =>
            filter (fun r => (SqlRun.run_uuid r =? run_uuid)%string)
                   (runs db)) ;;
  match runs with
  | [] =>
      raise_mlflow ("Run with id=" +++ run_uuid +++ " not found")
                   RESOURCE_DOES_NOT_EXIST
  | [run] => ret run
  | _ =>
      raise_mlflow ("Expected only 1 run with id=" +++ run_uuid
                    +++ ". Found " +++ str (Z.of_nat (List.length runs))
                    +++ ".") INVALID_STATE
  end.

Definition _check_run_is_active {S} (run : SqlRun.t) : Eff S unit :=
  if negb (LifecycleStage_eqb (SqlRun.lifecycle_stage run) ACTIVE)
  then raise_mlflow ("The run " +++ SqlRun.run_uuid run
                     +++ " must be in the 'active' state. Current state is "
                     +++ stage_name (SqlRun.lifecycle_stage run) +++ ".")
                    INVALID_PARAMETER_VALUE
  else ret tt.

Definition _check_experiment_is_active {S} (experiment : SqlExperiment.t)
  : Eff S unit :=
  if negb (LifecycleStage_eqb (SqlExperiment.lifecycle_stage experiment)
                              ACTIVE)
  then raise_mlflow ("The experiment "
                     +++ str (SqlExperiment.experiment_id experiment)
                     +++ " must be in the 'active' state. "
                     +++ "Current state is "
                     +++ stage_name (SqlExperiment.lifecycle_stage experiment)
                     +++ ".")
                    INVALID_PARAMETER_VALUE
  else ret tt.

Definition _check_run_is_deleted {S} (run : SqlRun.t) : Eff S unit :=
  if negb (LifecycleStage_eqb (SqlRun.lifecycle_stage run) DELETED)
  then raise_mlflow ("The run " +++ SqlRun.run_uuid run
                     +++ " must be in the 'deleted' state. Current state is "
                     +++ stage_name (SqlRun.lifecycle_stage run) +++ ".")
                    INVALID_PARAMETER_VALUE
  else ret tt.

Definition update_run_info (run_id : string) (run_status : RunStatus)
  (end_time : option Z) : Store SqlRun.t :=
  ManagedSessionMaker (
    run <- _get_run run_id ;;
    _check_run_is_active run ;;
    register (SetRunInfo (SqlRun.run_uuid run) run_status end_time) ;;
    _save_to_db (Single Loaded) ;;
    ret (to_mlflow_entity (set_run_info run_status end_time run))).

Definition restore_run (run_id : string) : Store unit :=
  ManagedSessionMaker (
    run <- _get_run run_id ;;
    _check_run_is_deleted run ;;
    register (SetRunStage (SqlRun.run_uuid run) ACTIVE) ;;
    _save_to_db (Single Loaded)).

Definition delete_run (run_id : string) : Store unit :=
  ManagedSessionMaker (
    run <- _get_run run_id ;;
    _check_run_is_active run ;;
    register (SetRunStage (SqlRun.run_uuid run) DELETED) ;;
    _save_to_db (Single Loaded)).

Definition _compare_metrics (metric_a : SqlMetric.t)
  (metric_b : SqlLatestMetric.t) : bool :=
  tuple_gt (SqlMetric.step metric_a, SqlMetric.timestamp metric_a,
            SqlMetric.value metric_a)
           (SqlLatestMetric.step metric_b, SqlLatestMetric.timestamp metric_b,
            SqlLatestMetric.value metric_b).

(** The [SqlLatestMetric] built from the logged metric. *)
Definition latest_of (logged_metric : SqlMetric.t) : SqlLatestMetric.t :=
  SqlLatestMetric.mk (SqlMetric.run_uuid logged_metric)
    (SqlMetric.key logged_metric) (SqlMetric.value logged_metric)
    (SqlMetric.timestamp logged_metric) (SqlMetric.step logged_metric)
    (SqlMetric.is_nan logged_metric).

Definition _update_latest_metric_if_necessary (logged_metric : SqlMetric.t)
  : M unit :=
  rows <- query (fun db =>
            filter (fun l =>
                      (SqlLatestMetric.run_uuid l
                       =? SqlMetric.run_uuid logged_metric)%string
                      && (SqlLatestMetric.key l
                          =? SqlMetric.key logged_metric)%string)
                   (latest_metrics db)) ;;
  latest_metric <- one_or_none rows ;;
  if match latest_metric with
     | None => true
     | Some latest_metric => _compare_metrics logged_metric latest_metric
     end
  then merge (MergeLatestMetric (latest_of logged_metric))
  else ret tt.

(** Lines 440-447 of [log_metric]: the value and the flag that are
    stored for a logged value. *)
Definition stored_value (v : float) : float * bool :=
  let is_nan := isnan v in
  let value :=
    if is_nan then zero_float
    else if isinf v then
      (* NB: Sql can not represent Infs = > We replace +/- Inf with
         max/min 64b float value *)
      (if float_gt v zero_float then max_float64 else min_float64)
    else v in
  (value, is_nan).

Definition log_metric (run_id : string) (metric : Metric.t) : Store unit :=
  check (_validate_metric (Metric.key metric) (Metric.value metric)
           (Metric.timestamp metric) (Metric.step metric)) ;;
  let '(value, is_nan) := stored_value (Metric.value metric) in
  ManagedSessionMaker (
    run <- _get_run run_id ;;
    _check_run_is_active run ;;
    created <- _get_or_create
                 (SqlMetric.mk run_id (Metric.key metric) value
                    (Metric.timestamp metric) (Metric.step metric) is_nan) ;;
    let '(logged_metric, just_created) := created in
    if just_created
    then _update_latest_metric_if_necessary logged_metric
    else ret tt).

(** [.all()] of the query of [get_metric_history], which has no ORDER BY:
    the database returns the matching rows in an order of its choosing
    (an index of the table, say), which need not be the order in which the
    rows were inserted.  [unordered] stands for that choice; the properties
    assume of it only that it returns the rows it is given. *)
Variable unordered : list SqlMetric.t -> list SqlMetric.t.

Definition get_metric_history (run_id metric_key : string)
  : Store (list SqlMetric.t) :=
  ManagedSessionMaker (
    metrics <- query (fun db =>
                 unordered
                   (filter (fun m =>
                              (SqlMetric.run_uuid m =? run_id)%string
                              && (SqlMetric.key m =? metric_key)%string)
                           (metrics db))) ;;
    ret (map to_mlflow_entity metrics)).

(** The text of the conflict [log_param] reports. *)
Definition param_conflict_message (key old_value run_id new_value : string)
  : string :=
  "Changing param value is not allowed. Param with key='" +++ key
  +++ "' was already logged with value='" +++ old_value
  +++ "' for run ID='" +++ run_id
  +++ ". Attempted logging new value '" +++ new_value +++ "'.".

Definition log_param (run_id : string) (param : Param.t) : Store unit :=
  ManagedSessionMaker (
    run <- _get_run run_id ;;
    _check_run_is_active run ;;
    try_except_IntegrityError
      (_get_or_create
         (SqlParam.mk run_id (Param.key param) (Param.value param)) ;;
       commit)
      (fun e =>
         rollback ;;
         (* run.params, loaded when it is read *)
         run_params <- query (fun db =>
                         filter (fun p => (SqlParam.run_uuid p
                                           =? SqlRun.run_uuid run)%string)
                                (params db)) ;;
         let existing_params :=
           map SqlParam.value
               (filter (fun p => (SqlParam.key p =? Param.key param)%string)
                       run_params) in
         match existing_params with
         | old_value :: _ =>
             raise_mlflow (param_conflict_message (Param.key param)
                             old_value run_id (Param.value param))
                          INVALID_PARAMETER_VALUE
         | [] => raise (Other (IntegrityError e))
         end)).

Definition set_experiment_tag (experiment_id : Z) (tag : RunTag.t)
  : Store unit :=
  check (_validate_experiment_tag (RunTag.key tag) (RunTag.value tag)) ;;
  ManagedSessionMaker (
    experiment <- _get_experiment experiment_id ALL ;;
    _check_experiment_is_active (to_mlflow_entity experiment) ;;
    merge (MergeExperimentTag
             (SqlExperimentTag.mk experiment_id (RunTag.key tag)
                                  (RunTag.value tag)))).

Definition set_tag (run_id : string) (tag : RunTag.t) : Store unit :=
  ManagedSessionMaker (
    check (_validate_tag (RunTag.key tag) (RunTag.value tag)) ;;
    run <- _get_run run_id ;;
    _check_run_is_active run ;;
    merge (MergeTag (SqlTag.mk run_id (RunTag.key tag) (RunTag.value tag)))).

Definition delete_tag (run_id key : string) : Store unit :=
  ManagedSessionMaker (
    run <- _get_run run_id ;;
    _check_run_is_active run ;;
    filtered_tags <- query (fun db =>
                       filter (fun t => (SqlTag.run_uuid t =? run_id)%string
                                        && (SqlTag.key t =? key)%string)
                              (tags db)) ;;
    match filtered_tags with
    | [] =>
        raise_mlflow ("No tag with name: " +++ key
                      +++ " in run with id " +++ run_id)
                     RESOURCE_DOES_NOT_EXIST
    | [t] => register (DeleteTag (SqlTag.run_uuid t) (SqlTag.key t))
    | _ =>
        raise_mlflow ("Bad data in database - tags for a specific run must "
                      +++ "have a single unique value."
                      +++ "See https://mlflow.org/docs/latest/tracking.html"
                      +++ "#adding-tags-to-runs")
                     INVALID_STATE
    end).

Definition log_batch (run_id : string) (metrics : list Metric.t)
  (params : list Param.t) (tags : list RunTag.t) : Store unit :=
  check (_validate_run_id run_id) ;;
  check (_validate_batch_log_data metrics params tags) ;;
  check (_validate_batch_log_limits metrics params tags) ;;
  ManagedSessionMaker (
    run <- _get_run run_id ;;
    _check_run_is_active run) ;;
  try_reraise (
    for_each params (log_param run_id) ;;
    for_each metrics (log_metric run_id) ;;
    for_each tags (set_tag run_id)).

End SqlAlchemyStore.

(* ===================================================================== *)
(** ** Vocabulary of the properties *)
(* ===================================================================== *)

(** The rows a primary-key lookup finds. *)
Definition run_rows (run_id : string) (db : DB) : list SqlRun.t :=
  filter (fun r => (SqlRun.run_uuid r =? run_id)%string) (runs db).

Definition experiment_rows (experiment_id : Z) (db : DB)
  : list SqlExperiment.t :=
  filter (fun e => SqlExperiment.experiment_id e =? experiment_id)
         (experiments db).

Definition latest_rows (run_id key : string) (db : DB)
  : list SqlLatestMetric.t :=
  filter (fun l => (SqlLatestMetric.run_uuid l =? run_id)%string
                   && (SqlLatestMetric.key l =? key)%string)
         (latest_metrics db).

(** The primary keys of the tables. *)
Definition experiment_keys (db : DB) : list Z :=
  map SqlExperiment.experiment_id (experiments db).
Definition run_keys (db : DB) : list string := map SqlRun.run_uuid (runs db).
Definition param_key (p : SqlParam.t) : string * string :=
  (SqlParam.run_uuid p, SqlParam.key p).
Definition latest_key (l : SqlLatestMetric.t) : string * string :=
  (SqlLatestMetric.run_uuid l, SqlLatestMetric.key l).
Definition metric_key (m : SqlMetric.t) : string * string :=
  (SqlMetric.run_uuid m, SqlMetric.key m).

(** How often a call occurs in a trace of session calls. *)
Definition count_calls (c : SessionCall) (l : list SessionCall) : nat :=
  List.length (filter (SessionCall_eqb c) l).

(** The invariant of the [latest_metrics] table: one row per run and key,
    every row is a logged fact, no fact of its run and key is strictly more
    recent, and no stored value is a NaN. *)
Definition latest_ok (db : DB) : Prop :=
  NoDup (map latest_key (latest_metrics db))
  /\ (forall l, In l (latest_metrics db) ->
        exists m, In m (metrics db) /\ latest_of m = l)
  /\ (forall m, In m (metrics db) ->
        exists l, In l (latest_metrics db)
                  /\ latest_key l = metric_key m
                  /\ _compare_metrics m l = false)
  /\ (forall m, In m (metrics db) -> isnan (SqlMetric.value m) = false).

(** The fact [log_metric] looks up or creates for a metric. *)
Definition fact_of (run_id : string) (metric : Metric.t) : SqlMetric.t :=
  SqlMetric.mk run_id (Metric.key metric)
    (fst (stored_value (Metric.value metric)))
    (Metric.timestamp metric) (Metric.step metric)
    (snd (stored_value (Metric.value metric))).

(** A sequence of [log_metric] calls, each in its own session; a call that
    raises leaves the later ones to run. *)
Definition log_metrics (_validate_metric : string -> float -> Z -> Z -> option Exn)
  (calls : list (string * Metric.t)) (db : DB) : DB :=
  fold_left (fun db c => snd (log_metric _validate_metric (fst c) (snd c) db))
            calls db.

(** The single-item operations of a batch. *)
Inductive BatchItem :=
| ItemParam (p : Param.t)
| ItemMetric (m : Metric.t)
| ItemTag (t : RunTag.t).

Section BatchSpec.
Variable _validate_metric : string -> float -> Z -> Z -> option Exn.
Variable _validate_tag : string -> string -> option Exn.

Definition apply_item (run_id : string) (i : BatchItem) : Store unit :=
  match i with
  | ItemParam p => log_param run_id p
  | ItemMetric m => log_metric _validate_metric run_id m
  | ItemTag t => set_tag _validate_tag run_id t
  end.

(** The batch as the spec words it: the items one after the other, each
    an operation of its own on the store the earlier ones left; the first
    failure ends the batch, a domain error as it is and any other error
    as an internal error. *)
Fixpoint apply_items (run_id : string) (items : list BatchItem) (db : DB)
  : Result unit * DB :=
  match items with
  | [] => (Ok tt, db)
  | i :: rest =>
      match apply_item run_id i db with
      | (Ok _, db') => apply_items run_id rest db'
      | (Raise (Mlflow e), db') => (Raise (Mlflow e), db')
      | (Raise (Other e), db') => (Raise (Mlflow (internal_error e)), db')
      end
  end.

Definition batch_items (metrics : list Metric.t) (params : list Param.t)
  (tags : list RunTag.t) : list BatchItem :=
  map ItemParam params ++ map ItemMetric metrics ++ map ItemTag tags.
End BatchSpec.

(** The order of floats on three integers: the class and sign first, then
    the exponent and the mantissa. *)
Definition rank (v : float) : Z * Z * Z :=
  match v with
  | S754_zero _ => (0, 0, 0)
  | S754_infinity false => (2, 0, 0)
  | S754_infinity true => (-2, 0, 0)
  | S754_nan => (0, 0, 0)
  | S754_finite false m e => (1, e, Zpos m)
  | S754_finite true m e => (-1, - e, - Zpos m)
  end.

Definition rank_lt (x y : Z * Z * Z) : Prop :=
  let '(x1, x2, x3) := x in
  let '(y1, y2, y3) := y in
  x1 < y1 \/ (x1 = y1 /\ (x2 < y2 \/ (x2 = y2 /\ x3 < y3))).

(** [tuple_gt] on values that are not NaN is the strict lexicographic order
    of the step, the timestamp and the rank of the value. *)
Definition tuple_lt_spec (a b : Z * Z * float) : Prop :=
  let '(s1, t1, v1) := a in
  let '(s2, t2, v2) := b in
  s1 < s2 \/ (s1 = s2 /\ (t1 < t2 \/ (t1 = t2 /\ rank_lt (rank v1) (rank v2)))).

(** What a [log_metric] call that creates the fact [f] commits: the fact,
    and the row of [latest_metrics] where it replaces the current one. *)
Definition add_fact (f : SqlMetric.t) (db : DB) : DB :=
  with_metrics (fun rows => rows ++ [f]) db.
Definition replace_latest (f : SqlMetric.t) (db : DB) : DB :=
  with_latest_metrics (upsert same_latest_key (latest_of f)) db.

(** What the experiment lookups and [create_experiment] raise. *)
Definition not_found_error (id : Z) : MlflowException :=
  mkMlflowException (Text ("No Experiment with id=" +++ str id +++ " exists"))
                    RESOURCE_DOES_NOT_EXIST.

Definition already_exists_error (name : string) : MlflowException :=
  mkMlflowException
    (Text ("Experiment(name=" +++ name +++ ") already exists. Error: "
           +++ "UNIQUE constraint failed: experiments.name"))
    RESOURCE_ALREADY_EXISTS.

(** What [create_experiment] raises for a missing or empty name. *)
Definition invalid_name_error : MlflowException :=
  mkMlflowException (Text "Invalid experiment name") INVALID_PARAMETER_VALUE.

(** What a managed session, and so [log_batch] too, raises for what was
    raised inside it. *)
Definition reraised (e : Exn) : Exn :=
  match e with
  | Mlflow x => Mlflow x
  | Other x => Mlflow (internal_error x)
  end.

(** What the lifecycle guards raise. *)
Definition run_guard_error (r : SqlRun.t) : MlflowException :=
  mkMlflowException
    (Text ("The run " +++ SqlRun.run_uuid r
           +++ " must be in the 'active' state. Current state is "
           +++ stage_name (SqlRun.lifecycle_stage r) +++ "."))
    INVALID_PARAMETER_VALUE.

Definition experiment_guard_error (e : SqlExperiment.t) : MlflowException :=
  mkMlflowException
    (Text ("The experiment " +++ str (SqlExperiment.experiment_id e)
           +++ " must be in the 'active' state. " +++ "Current state is "
           +++ stage_name (SqlExperiment.lifecycle_stage e) +++ "."))
    INVALID_PARAMETER_VALUE.

Definition rename_guard_error : MlflowException :=
  mkMlflowException (Text "Cannot rename a non-active experiment.")
                    INVALID_STATE.

(** The conflict [log_param] raises. *)
Definition param_conflict (key old_value run_id new_value : string)
  : MlflowException :=
  mkMlflowException
    (Text (param_conflict_message key old_value run_id new_value))
    INVALID_PARAMETER_VALUE.

(** *** Stores and validators of the examples *)

Definition accept_metric (_ : string) (_ : float) (_ _ : Z) : option Exn :=
  None.
Definition accept_tag (_ _ : string) : option Exn := None.
Definition accept_run_id (_ : string) : option Exn := None.
Definition accept_batch (_ : list Metric.t) (_ : list Param.t)
  (_ : list RunTag.t) : option Exn := None.

(** A store with the default experiment, a deleted experiment, an active
    run with one param and one tag, and a deleted run. *)
Definition experiment_default : SqlExperiment.t :=
  SqlExperiment.mk 0 "Default" (Some "/mlruns/0"%string) ACTIVE.
Definition experiment_old : SqlExperiment.t :=
  SqlExperiment.mk 1 "old" (Some "/mlruns/1"%string) DELETED.
Definition run_r1 : SqlRun.t :=
  SqlRun.mk "r1" 0 RUNNING 100 None "/mlruns/0/r1/artifacts" ACTIVE.
Definition run_r2 : SqlRun.t :=
  SqlRun.mk "r2" 0 FINISHED 100 (Some 200) "/mlruns/0/r2/artifacts" DELETED.

Definition example_db : DB :=
  mkDB [experiment_default; experiment_old] [run_r1; run_r2]
       [] []
       [SqlParam.mk "r1" "lr" "0.1"]
       [SqlTag.mk "r1" "team" "a"]
       [].

(** The example store without its deleted experiment: the run r2 is
    deleted, every experiment is active. *)
Definition example_db_active : DB :=
  with_experiments (fun _ => [experiment_default]) example_db.

(** A validator that rejects every tag. *)
Definition reject_tag (key _ : string) : option Exn :=
  Some (Mlflow (mkMlflowException (Text ("Invalid tag name: " +++ key))
                                  INVALID_PARAMETER_VALUE)).


(** The example store once the param batch = 32 is logged on r1. *)
Definition example_db_batch : DB :=
  with_params (fun rows => rows ++ [SqlParam.mk "r1" "batch" "32"])
              example_db.

Definition acc (value : float) (timestamp step : Z) : Metric.t :=
  Metric.mk "acc" value timestamp step.

(** 0.5 and 0.75 in binary64. *)
Definition half : float := S754_finite false 4503599627370496 (-53).
Definition three_quarters : float :=
  S754_finite false 6755399441055744 (-53).

(** Four calls: two facts on r1, a call on the deleted run r2, and an
    older fact on r1. *)
Definition example_calls : list (string * Metric.t) :=
  [("r1", acc half 100 0); ("r1", acc three_quarters 200 1);
   ("r2", acc half 300 2); ("r1", acc half 150 1)]%string.

(* ===================================================================== *)
(** ** The store as a machine *)
(* ===================================================================== *)

(** A value that is neither a NaN nor an infinity. *)
Definition finite (v : float) : bool := negb (isnan v) && negb (isinf v).

(** The attributes of a store object that its methods read, with the
    validators they call. *)
Record Settings := mkSettings {
  root_uri : string;
  validate_metric : string -> float -> Z -> Z -> option Exn;
  validate_tag : string -> string -> option Exn;
  validate_experiment_tag : string -> string -> option Exn;
  validate_run_id : string -> option Exn;
  validate_batch_log_data :
    list Metric.t -> list Param.t -> list RunTag.t -> option Exn;
  validate_batch_log_limits :
    list Metric.t -> list Param.t -> list RunTag.t -> option Exn
}.

(** The calls of the store that write. *)
Inductive Call :=
| CallCreateExperiment (name artifact_location : option string)
| CallDeleteExperiment (experiment_id : Z)
| CallRestoreExperiment (experiment_id : Z)
| CallRenameExperiment (experiment_id : Z) (new_name : string)
| CallUpdateRunInfo (run_id : string) (run_status : RunStatus)
                    (end_time : option Z)
| CallDeleteRun (run_id : string)
| CallRestoreRun (run_id : string)
| CallLogMetric (run_id : string) (metric : Metric.t)
| CallLogParam (run_id : string) (param : Param.t)
| CallSetTag (run_id : string) (tag : RunTag.t)
| CallDeleteTag (run_id key : string)
| CallSetExperimentTag (experiment_id : Z) (tag : RunTag.t)
| CallLogBatch (run_id : string) (metrics : list Metric.t)
               (params : list Param.t) (tags : list RunTag.t).

(** A call, with what it returns or raises and the store it leaves. *)
Definition call (cfg : Settings) (c : Call) : Store unit :=
  match c with
  | CallCreateExperiment name artifact_location =>
      create_experiment (root_uri cfg) name artifact_location ;; ret tt
  | CallDeleteExperiment experiment_id => delete_experiment experiment_id
  | CallRestoreExperiment experiment_id => restore_experiment experiment_id
  | CallRenameExperiment experiment_id new_name =>
      rename_experiment experiment_id new_name
  | CallUpdateRunInfo run_id run_status end_time =>
      update_run_info run_id run_status end_time ;; ret tt
  | CallDeleteRun run_id => delete_run run_id
  | CallRestoreRun run_id => restore_run run_id
  | CallLogMetric run_id metric =>
      log_metric (validate_metric cfg) run_id metric
  | CallLogParam run_id param => log_param run_id param
  | CallSetTag run_id tag => set_tag (validate_tag cfg) run_id tag
  | CallDeleteTag run_id key => delete_tag run_id key
  | CallSetExperimentTag experiment_id tag =>
      set_experiment_tag (validate_experiment_tag cfg) experiment_id tag
  | CallLogBatch run_id metrics params tags =>
      log_batch (validate_metric cfg) (validate_tag cfg)
        (validate_run_id cfg) (validate_batch_log_data cfg)
        (validate_batch_log_limits cfg) run_id metrics params tags
  end.

(** The store after a sequence of calls, each made whatever the earlier
    ones returned or raised. *)
Definition perform (cfg : Settings) (calls : list Call) (db : DB) : DB :=
  fold_left (fun db c => snd (call cfg c db)) calls db.

(** What one committed session of the store changes. *)
Inductive Effect (db : DB) : DB -> Prop :=
| effect_none : Effect db db
| effect_new_experiment (name : string) (location : option string) :
    existsb (fun e => (SqlExperiment.name e =? name)%string)
            (experiments db) = false ->
    Effect db
      (with_experiments
         (fun rows => rows ++ [SqlExperiment.mk
                                 (next_experiment_id (experiments db))
                                 name location ACTIVE]) db)
| effect_experiment_stage (id : Z) (st : LifecycleStage) :
    Effect db
      (with_experiments
         (update_where (fun e => SqlExperiment.experiment_id e =? id)
                       (set_experiment_stage st)) db)
| effect_experiment_name (id : Z) (name : string) :
    existsb (fun e => (SqlExperiment.name e =? name)%string
                      && negb (SqlExperiment.experiment_id e =? id))
            (experiments db) = false ->
    Effect db
      (with_experiments
         (update_where (fun e => SqlExperiment.experiment_id e =? id)
                       (set_experiment_name name)) db)
| effect_run_stage (id : string) (st : LifecycleStage) :
    Effect db
      (with_runs
         (update_where (fun r => (SqlRun.run_uuid r =? id)%string)
                       (set_run_stage st)) db)
| effect_run_info (id : string) (status : RunStatus) (end_time : option Z) :
    Effect db
      (with_runs
         (update_where (fun r => (SqlRun.run_uuid r =? id)%string)
                       (set_run_info status end_time)) db)
| effect_fact (f : SqlMetric.t) :
    finite (SqlMetric.value f) = true ->
    Effect db (add_fact f db)
| effect_fact_latest (f : SqlMetric.t) :
    finite (SqlMetric.value f) = true ->
    Effect db (replace_latest f (add_fact f db))
| effect_param (p : SqlParam.t) :
    existsb (same_param_key p) (params db) = false ->
    Effect db (with_params (fun rows => rows ++ [p]) db)
| effect_tag (t : SqlTag.t) :
    Effect db (with_tags (upsert same_tag_key t) db)
| effect_delete_tag (run_id key : string) :
    Effect db
      (with_tags
         (filter (fun t => negb ((SqlTag.run_uuid t =? run_id)%string
                                 && (SqlTag.key t =? key)%string))) db)
| effect_experiment_tag (t : SqlExperimentTag.t) :
    Effect db (with_experiment_tags (upsert same_experiment_tag_key t) db).

(** Any number of committed sessions, one after the other. *)
Inductive Effects : DB -> DB -> Prop :=
| effects_none (db : DB) : Effects db db
| effects_step (db db1 db2 : DB) :
    Effect db db1 -> Effects db1 db2 -> Effects db db2.

(** An operation on the store ends well when what it committed is one
    session's worth and when, having raised, it committed nothing. *)
Definition atomic {A} (db : DB) (outcome : Result A * DB) : Prop :=
  Effect db (snd outcome)
  /\ forall e, fst outcome = Raise e -> snd outcome = db.

(** The keys of the remaining tables. *)
Definition tag_key (t : SqlTag.t) : string * string :=
  (SqlTag.run_uuid t, SqlTag.key t).
Definition experiment_tag_key (t : SqlExperimentTag.t) : Z * string :=
  (SqlExperimentTag.experiment_id t, SqlExperimentTag.key t).
Definition experiment_names (db : DB) : list string :=
  map SqlExperiment.name (experiments db).

(** The uniqueness invariants of the tables. *)
Definition keys_ok (db : DB) : Prop :=
  NoDup (experiment_keys db)
  /\ NoDup (experiment_names db)
  /\ NoDup (run_keys db)
  /\ NoDup (map param_key (params db))
  /\ NoDup (map latest_key (latest_metrics db))
  /\ NoDup (map tag_key (tags db))
  /\ NoDup (map experiment_tag_key (experiment_tags db)).

(** Every stored metric value is finite. *)
Definition values_finite (db : DB) : Prop :=
  (forall m, In m (metrics db) -> finite (SqlMetric.value m) = true)
  /\ (forall l, In l (latest_metrics db) ->
        finite (SqlLatestMetric.value l) = true).

(** The rows of a tag. *)
Definition tag_rows (run_id key : string) (db : DB) : list SqlTag.t :=
  filter (fun t => (SqlTag.run_uuid t =? run_id)%string
                   && (SqlTag.key t =? key)%string) (tags db).

Definition experiment_tag_rows (experiment_id : Z) (key : string) (db : DB)
  : list SqlExperimentTag.t :=
  filter (fun t => (SqlExperimentTag.experiment_id t =? experiment_id)
                   && (SqlExperimentTag.key t =? key)%string)
         (experiment_tags db).

(** The rows of the metrics table of a run and key.  They are compared as
    a bag: the place of a row in the table carries no meaning. *)
Definition history (run_id key : string) (db : DB) : list SqlMetric.t :=
  filter (fun m => (SqlMetric.run_uuid m =? run_id)%string
                   && (SqlMetric.key m =? key)%string) (metrics db).

Definition not_found_run_error (run_id : string) : MlflowException :=
  mkMlflowException (Text ("Run with id=" +++ run_id +++ " not found"))
                    RESOURCE_DOES_NOT_EXIST.

Definition deleted_guard_error (r : SqlRun.t) : MlflowException :=
  mkMlflowException
    (Text ("The run " +++ SqlRun.run_uuid r
           +++ " must be in the 'deleted' state. Current state is "
           +++ stage_name (SqlRun.lifecycle_stage r) +++ "."))
    INVALID_PARAMETER_VALUE.

Definition not_found_tag_error (run_id key : string) : MlflowException :=
  mkMlflowException
    (Text ("No tag with name: " +++ key +++ " in run with id " +++ run_id))
    RESOURCE_DOES_NOT_EXIST.

Definition example_settings : Settings :=
  mkSettings "/mlruns" accept_metric accept_tag accept_tag accept_run_id
             accept_batch accept_batch.

(** How the tables of the model change under the calls of [Call]: the
    lists of metrics, of params and of experiment ids get longer at their
    end, the list of run ids stays. *)
Definition extends (db db' : DB) : Prop :=
  (exists more, metrics db' = metrics db ++ more)
  /\ (exists more, params db' = params db ++ more)
  /\ (exists more, experiment_keys db' = experiment_keys db ++ more)
  /\ run_keys db' = run_keys db.

(** What a store never takes back: [db'] holds every metric fact and every
    param of [db], each as often as [db] does, and every experiment id and
    run id of [db]; what it holds besides is new.  The tables are compared
    as bags of rows: the place of a row in a table carries no meaning. *)
Definition grows (db db' : DB) : Prop :=
  (exists more, Permutation (metrics db') (metrics db ++ more))
  /\ (exists more, Permutation (params db') (params db ++ more))
  /\ (exists more,
        Permutation (experiment_keys db') (experiment_keys db ++ more))
  /\ (exists more, Permutation (run_keys db') (run_keys db ++ more)).

(** A script over the example store: experiments are created, renamed and
    deleted, metrics, params and tags are logged, one call fails. *)
Definition example_script : list Call :=
  [CallCreateExperiment (Some "exp1"%string) None;
   CallLogMetric "r1" (acc half 100 0);
   CallLogMetric "r1" (acc (S754_infinity false) 200 1);
   CallLogParam "r1" (Param.mk "lr" "0.2");
   CallSetTag "r1" (RunTag.mk "team" "b");
   CallRenameExperiment 2 "exp2";
   CallDeleteExperiment 2;
   CallLogBatch "r1" [acc S754_nan 300 2]
     [Param.mk "batch" "32"] [RunTag.mk "owner" "c"];
   CallDeleteRun "r1"]%string.


Definition name_conflict_error : MlflowException :=
  internal_error (IntegrityError "UNIQUE constraint failed: experiments.name").

(** The experiments a view shows. *)
Definition in_view (view : ViewType) (e : SqlExperiment.t) : bool :=
  mem_stage (SqlExperiment.lifecycle_stage e) (view_type_to_stages view).

Definition named (name : string) (db : DB) : list SqlExperiment.t :=
  filter (fun e => (SqlExperiment.name e =? name)%string) (experiments db).

(* ===================================================================== *)
(** ** Seeding the default experiment *)
(* ===================================================================== *)

(** [try: body  finally: cleanup] *)
Definition try_finally {S A} (body : Eff S A) (cleanup : Eff S unit)
  : Eff S A :=
  fun s =>
    let '(r, s1) := body s in
    match cleanup s1 with
    | (Ok _, s2) => (r, s2)
    | (Raise e, s2) => (Raise e, s2)
    end.

(** [session.execute(statement)] for a statement that sets a mode of the
    connection: no table is read or written. *)
Definition execute_set_mode (statement : string) : M unit := ret tt.

(** Modelled from the spec: the table declarations are not among the
    sources; [experiment_id] is the identity of an experiment and its name
    is unique.

    [session.execute("INSERT INTO experiments (...) VALUES (...);")] for the
    row the statement spells out, whose strings are plain literals: the
    statement runs in the transaction at once, and the database refuses a
    row whose id or name is taken. *)
Definition execute_insert_experiment (row : SqlExperiment.t) : M unit :=
  fun s =>
    if existsb (fun e => SqlExperiment.experiment_id e
                         =? SqlExperiment.experiment_id row)
               (experiments (txn s))
    then (Raise (Other (IntegrityError
                   "UNIQUE constraint failed: experiments.experiment_id")), s)
    else if existsb (fun e => (SqlExperiment.name e
                               =? SqlExperiment.name row)%string)
                    (experiments (txn s))
    then (Raise (Other (IntegrityError
                   "UNIQUE constraint failed: experiments.name")), s)
    else (Ok tt,
          mkSession (committed s)
            (with_experiments (fun rows => rows ++ [row]) (txn s))
            (pending s) (new_pk s) (calls s)).

Section Bootstrap.

(** [self.artifact_root_uri], [self.db_type], and the constants
    [mlflow.store.dbmodels.db_types.MYSQL] and
    [Experiment.DEFAULT_EXPERIMENT_NAME], which are not among the
    sources. *)
Variable artifact_root_uri : string.
Variable db_type : string.
Variable MYSQL : string.
Variable DEFAULT_EXPERIMENT_NAME : string.

Definition _set_no_auto_for_zero_values : M unit :=
  if (db_type =? MYSQL)%string
  then execute_set_mode "SET @@SESSION.sql_mode='NO_AUTO_VALUE_ON_ZERO';"
  else ret tt.

Definition _unset_no_auto_for_zero_values : M unit :=
  if (db_type =? MYSQL)%string
  then execute_set_mode "SET @@SESSION.sql_mode='';"
  else ret tt.

(** The row of the INSERT statement [_create_default_experiment] builds. *)
Definition default_experiment : SqlExperiment.t :=
  SqlExperiment.mk DEFAULT_EXPERIMENT_ID DEFAULT_EXPERIMENT_NAME
    (Some (_get_artifact_location artifact_root_uri 0)) ACTIVE.

Definition _create_default_experiment : M unit :=
  try_finally
    (_set_no_auto_for_zero_values ;;
     execute_insert_experiment default_experiment)
    _unset_no_auto_for_zero_values.

(** The last step of [__init__] (lines 99-101):
    <<
      if len(self.list_experiments()) == 0:
          with self.ManagedSessionMaker() as session:
              self._create_default_experiment(session)
    >> *)
Definition seed_default_experiment : Store unit :=
  experiments <- list_experiments ACTIVE_ONLY ;;
  match experiments with
  | [] => ManagedSessionMaker _create_default_experiment
  | _ => ret tt
  end.

End Bootstrap.

(** [decorate] puts a string between quotes and escapes nothing: a string
    without a quote and without a backslash is the literal every database
    reads back as that string, and the model of the INSERT statement covers
    these. *)
Definition plain_literal (s : string) : bool :=
  forallb (fun c => negb (Ascii.eqb c "'" || Ascii.eqb c "\"))
          (list_ascii_of_string s).

(** A store whose only experiment, the default one, is deleted, and an
    empty one. *)
Definition all_deleted_db : DB :=
  mkDB [SqlExperiment.mk 0 "Default" (Some "/mlruns/0"%string) DELETED]
       [] [] [] [] [] [].
Definition empty_db : DB := mkDB [] [] [] [] [] [] [].

(** An order a database may return rows in: by timestamp, as an index on
    the timestamp column gives them. *)
Fixpoint insert_by_timestamp (m : SqlMetric.t) (rows : list SqlMetric.t)
  : list SqlMetric.t :=
  match rows with
  | [] => [m]
  | x :: rows' =>
      if SqlMetric.timestamp m <=? SqlMetric.timestamp x
      then m :: rows
      else x :: insert_by_timestamp m rows'
  end.

Definition by_timestamp (rows : list SqlMetric.t) : list SqlMetric.t :=
  fold_right insert_by_timestamp [] rows.

(* ===================================================================== *)
(** * Properties *)
(* ===================================================================== *)

(** ** Lists and keys *)

Lemma filter_key_none {A K} (f : A -> K) (p : A -> bool) (k : K)
  (l : list A) :
  (forall x, p x = true <-> f x = k) ->
  ~ In k (map f l) -> filter p l = [].
Proof.
  intros Hp. induction l as [|x l IH]; simpl; intros Hn; auto.
  destruct (p x) eqn:E.
  - exfalso. apply Hn. left. apply Hp. exact E.
  - apply IH. intro H. apply Hn. right. exact H.
Qed.

Lemma filter_key_single {A K} (f : A -> K) (p : A -> bool) (k : K)
  (l : list A) (e : A) :
  (forall x, p x = true <-> f x = k) ->
  NoDup (map f l) -> In e l -> f e = k -> filter p l = [e].
Proof.
  intros Hp. induction l as [|x l IH]; simpl; intros Hnd Hin Hk.
  - contradiction.
  - inversion Hnd as [|? ? Hnot Hnd']; subst.
    destruct Hin as [->|Hin].
    + destruct (p e) eqn:E.
      * f_equal. apply (filter_key_none f p (f e)); assumption.
      * assert (p e = true) by (apply Hp; reflexivity). congruence.
    + destruct (p x) eqn:E.
      * exfalso. apply Hnot. apply Hp in E. rewrite E.
        apply in_map. exact Hin.
      * apply IH; auto.
Qed.

Lemma filter_nil_forall {A} (p : A -> bool) (l : list A) :
  filter p l = [] -> forall x, In x l -> p x = false.
Proof.
  induction l as [|y l IH]; simpl; intros H x Hin; [contradiction|].
  destruct (p y) eqn:E; [discriminate|].
  destruct Hin as [->|Hin]; auto.
Qed.

Lemma filter_single_forall {A} (p : A -> bool) (l : list A) (e : A) :
  filter p l = [e] -> forall x, In x l -> p x = true -> x = e.
Proof.
  intros H x Hin Hp.
  assert (In x (filter p l)) as Hx by (apply filter_In; auto).
  rewrite H in Hx. destruct Hx as [<-|[]]. reflexivity.
Qed.

Lemma filter_single_in {A} (p : A -> bool) (l : list A) (e : A) :
  filter p l = [e] -> In e l /\ p e = true.
Proof.
  intros H. apply filter_In. rewrite H. left. reflexivity.
Qed.

Lemma string_pair_eqb (a b c d : string) :
  ((a =? c)%string && (b =? d)%string = true) <-> (a, b) = (c, d).
Proof.
  rewrite andb_true_iff, !String.eqb_eq. split.
  - intros [-> ->]. reflexivity.
  - intros H. inversion H. auto.
Qed.

(** ** The session manager *)

Lemma flush_nothing (s : Session) :
  pending s = [] -> flush s = (Ok tt, s).
Proof.
  destruct s as [c t p k l]. simpl. intros ->. reflexivity.
Qed.

(** C3 -- a body run under the managed session: when the body returns the
    manager calls commit, and its writes are made durable if they satisfy
    the constraints; when the body raises an MlflowException the manager
    rolls back and raises that exception; when it raises any other
    exception, or the commit does, the manager rolls back and raises an
    INTERNAL_ERROR MlflowException that wraps it; in each case the manager
    closes the session exactly once, as its last call. *)
Theorem managed_session_contract {A} (fn : M A) (db : DB) :
  let '(r1, s1) := fn (SessionMaker db) in
  let '(r, s) := make_managed_session fn db in
  (exists by_manager,
      calls s = calls s1 ++ by_manager
      /\ count_calls Close by_manager = 1%nat
      /\ last by_manager Commit = Close)
  /\ match r1 with
     | Ok a =>
         match apply_writes (pending s1) (txn s1) (new_pk s1) with
         | inr (db', _) =>
             r = Ok a /\ committed s = db'
             /\ calls s = calls s1 ++ [Commit; Close]
         | inl e =>
             r = Raise (Mlflow (internal_error e))
             /\ committed s = committed s1
             /\ calls s = calls s1 ++ [Commit; Rollback; Close]
         end
     | Raise (Mlflow e) =>
         r = Raise (Mlflow e) /\ committed s = committed s1
         /\ calls s = calls s1 ++ [Rollback; Close]
     | Raise (Other e) =>
         r = Raise (Mlflow (internal_error e)) /\ committed s = committed s1
         /\ calls s = calls s1 ++ [Rollback; Close]
     end.
Proof.
  unfold make_managed_session, bind.
  destruct (fn (SessionMaker db)) as [r1 s1].
  destruct r1 as [a|[e|e]].
  - unfold commit, bind, record_call, flush. simpl.
    destruct (apply_writes (pending s1) (txn s1) (new_pk s1))
      as [e|[db' pk]]; simpl.
    + split.
      * exists [Commit; Rollback; Close]. rewrite <- !app_assoc. auto.
      * rewrite <- !app_assoc. auto.
    + split.
      * exists [Commit; Close]. rewrite <- !app_assoc. auto.
      * rewrite <- !app_assoc. auto.
  - simpl. split.
    + exists [Rollback; Close]. rewrite <- !app_assoc. auto.
    + rewrite <- !app_assoc. auto.
  - simpl. split.
    + exists [Rollback; Close]. rewrite <- !app_assoc. auto.
    + rewrite <- !app_assoc. auto.
Qed.

(** ** Running a body in a session *)

Lemma bind_ok {S A B} (m : Eff S A) (k : A -> Eff S B) s a s' :
  m s = (Ok a, s') -> bind m k s = k a s'.
Proof. unfold bind. intros ->. reflexivity. Qed.

Lemma bind_raise {S A B} (m : Eff S A) (k : A -> Eff S B) s e s' :
  m s = (Raise e, s') -> bind m k s = (Raise e, s').
Proof. unfold bind. intros ->. reflexivity. Qed.

Lemma managed_raise_mlflow {A} (body : M A) db e s1 :
  body (SessionMaker db) = (Raise (Mlflow e), s1) ->
  ManagedSessionMaker body db = (Raise (Mlflow e), committed s1).
Proof.
  intros H. unfold ManagedSessionMaker, make_managed_session.
  rewrite (bind_raise _ _ _ _ _ H). reflexivity.
Qed.

Lemma managed_raise_other {A} (body : M A) db e s1 :
  body (SessionMaker db) = (Raise (Other e), s1) ->
  ManagedSessionMaker body db
  = (Raise (Mlflow (internal_error e)), committed s1).
Proof.
  intros H. unfold ManagedSessionMaker, make_managed_session.
  rewrite (bind_raise _ _ _ _ _ H). reflexivity.
Qed.

Lemma managed_ok {A} (body : M A) db a s1 db' pk :
  body (SessionMaker db) = (Ok a, s1) ->
  apply_writes (pending s1) (txn s1) (new_pk s1) = inr (db', pk) ->
  ManagedSessionMaker body db = (Ok a, db').
Proof.
  intros H W. unfold ManagedSessionMaker, make_managed_session.
  rewrite (bind_ok _ _ _ _ _ H).
  unfold commit, bind, record_call, flush. simpl. rewrite W. reflexivity.
Qed.

Lemma query_clean {A} (read : DB -> A) (s : Session) :
  pending s = [] -> query read s = (Ok (read (txn s)), s).
Proof.
  intros H. unfold query. rewrite (bind_ok _ _ _ _ _ (flush_nothing s H)).
  reflexivity.
Qed.

(** Unfolds a store method down to the tables it reads. *)
Ltac run_store :=
  unfold ManagedSessionMaker, make_managed_session, try_except_IntegrityError,
    _get_or_create, _get_run, _get_experiment, _check_run_is_active,
    _check_experiment_is_active, _update_latest_metric_if_necessary,
    one_or_none, _save_to_db, add, to_mlflow_entity, DEFAULT_EXPERIMENT_ID,
    query, merge, commit, rollback, close, register, record_call, flush,
    raise_mlflow, raise, ret, bind, check, SessionMaker.

Lemma get_run_found run_id s r :
  pending s = [] -> run_rows run_id (txn s) = [r] ->
  _get_run run_id s = (Ok r, s).
Proof.
  intros Hp Hr. unfold _get_run.
  rewrite (bind_ok _ _ _ _ _ (query_clean _ s Hp)).
  unfold run_rows in Hr. rewrite Hr. reflexivity.
Qed.

Lemma stage_not_active st :
  st <> ACTIVE -> negb (LifecycleStage_eqb st ACTIVE) = true.
Proof. destruct st; [congruence | reflexivity]. Qed.

Lemma default_id (id : Z) :
  (if id =? 0 then DEFAULT_EXPERIMENT_ID else id) = id.
Proof.
  unfold DEFAULT_EXPERIMENT_ID. destruct (Z.eqb_spec id 0); congruence.
Qed.

Lemma filter_filter_and {A} (p q : A -> bool) (l : list A) :
  filter p (filter q l) = filter (fun x => q x && p x) l.
Proof.
  induction l as [|x l IH]; simpl; auto.
  destruct (q x); simpl; [destruct (p x)|]; rewrite IH; reflexivity.
Qed.

Lemma list_experiments_all id db :
  _list_experiments [id] [] ALL db = experiment_rows id db.
Proof.
  unfold _list_experiments, experiment_rows. apply filter_ext. intros e.
  unfold mem_Z, mem_stage. simpl.
  destruct (SqlExperiment.lifecycle_stage e); simpl;
    rewrite orb_false_r, andb_true_r; reflexivity.
Qed.

Lemma list_experiments_stage id st view db :
  view_type_to_stages view = [st] ->
  _list_experiments [id] [] view db
  = filter (fun e => LifecycleStage_eqb (SqlExperiment.lifecycle_stage e) st)
           (experiment_rows id db).
Proof.
  intros Hv. unfold _list_experiments, experiment_rows.
  rewrite filter_filter_and, Hv. apply filter_ext. intros e.
  unfold mem_Z, mem_stage. simpl.
  rewrite !orb_false_r, andb_true_r. apply andb_comm.
Qed.

Lemma get_experiment_found id s e :
  pending s = [] -> experiment_rows id (txn s) = [e] ->
  _get_experiment id ALL s = (Ok e, s).
Proof.
  intros Hp He. unfold _get_experiment. rewrite default_id.
  rewrite (bind_ok _ _ _ _ _ (query_clean _ s Hp)).
  rewrite list_experiments_all, He. reflexivity.
Qed.

(** ** Lifecycle guards *)

Lemma guarded_run_fails {A} (k : SqlRun.t -> M A) run_id db r :
  run_rows run_id db = [r] -> SqlRun.lifecycle_stage r <> ACTIVE ->
  ManagedSessionMaker (run <- _get_run run_id ;;
                       _check_run_is_active run ;; k run) db
  = (Raise (Mlflow (run_guard_error r)), db).
Proof.
  intros Hr Hs.
  apply (managed_raise_mlflow _ db _ (SessionMaker db)).
  rewrite (bind_ok _ _ _ _ _
             (get_run_found run_id (SessionMaker db) r eq_refl Hr)).
  apply bind_raise. unfold _check_run_is_active.
  rewrite (stage_not_active _ Hs). reflexivity.
Qed.

Lemma guarded_experiment_fails {A} (k : SqlExperiment.t -> M A) id db e :
  experiment_rows id db = [e] -> SqlExperiment.lifecycle_stage e <> ACTIVE ->
  ManagedSessionMaker (experiment <- _get_experiment id ALL ;;
                       _check_experiment_is_active
                         (to_mlflow_entity experiment) ;; k experiment) db
  = (Raise (Mlflow (experiment_guard_error e)), db).
Proof.
  intros He Hs.
  apply (managed_raise_mlflow _ db _ (SessionMaker db)).
  rewrite (bind_ok _ _ _ _ _
             (get_experiment_found id (SessionMaker db) e eq_refl He)).
  apply bind_raise. unfold _check_experiment_is_active, to_mlflow_entity.
  rewrite (stage_not_active _ Hs). reflexivity.
Qed.

Section Guards.
Variable _validate_metric : string -> float -> Z -> Z -> option Exn.
Variable _validate_tag : string -> string -> option Exn.
Variable _validate_experiment_tag : string -> string -> option Exn.

(** C4, as the code has it -- on a run or an experiment that is not
    active, each mutating operation raises, whatever its arguments, and
    leaves the store as it was.  The run and the experiment are taken one
    at a time: nothing is asked of the other entities of the store.  An
    operation whose arguments pass validation, and log_param, delete_tag,
    update_run_info, delete_run and rename_experiment validate nothing,
    raises at the lifecycle guard: INVALID_PARAMETER_VALUE for the guard of
    a run or of an experiment, INVALID_STATE for rename_experiment alone.
    A metric or a tag the validator rejects is refused with the
    validator's exception before the guard is reached; set_tag validates
    inside its session, which hands an exception that is no
    MlflowException on as INTERNAL_ERROR. *)
Theorem inactive_entity_rejects_mutation (db : DB) :
  (forall (run_id : string) (r : SqlRun.t),
     run_rows run_id db = [r] ->
     SqlRun.lifecycle_stage r <> ACTIVE ->
     (forall metric,
        log_metric _validate_metric run_id metric db
        = (Raise (match _validate_metric (Metric.key metric)
                          (Metric.value metric) (Metric.timestamp metric)
                          (Metric.step metric) with
                  | Some rejected => rejected
                  | None => Mlflow (run_guard_error r)
                  end), db))
     /\ (forall param,
           log_param run_id param db
           = (Raise (Mlflow (run_guard_error r)), db))
     /\ (forall tag,
           set_tag _validate_tag run_id tag db
           = (Raise (match _validate_tag (RunTag.key tag)
                             (RunTag.value tag) with
                     | Some rejected => reraised rejected
                     | None => Mlflow (run_guard_error r)
                     end), db))
     /\ (forall key,
           delete_tag run_id key db
           = (Raise (Mlflow (run_guard_error r)), db))
     /\ (forall status end_time,
           update_run_info run_id status end_time db
           = (Raise (Mlflow (run_guard_error r)), db))
     /\ delete_run run_id db = (Raise (Mlflow (run_guard_error r)), db)
     /\ error_code (run_guard_error r) = INVALID_PARAMETER_VALUE)
  /\ (forall (experiment_id : Z) (e : SqlExperiment.t),
        experiment_rows experiment_id db = [e] ->
        SqlExperiment.lifecycle_stage e <> ACTIVE ->
        (forall tag,
           set_experiment_tag _validate_experiment_tag experiment_id tag db
           = (Raise (match _validate_experiment_tag (RunTag.key tag)
                             (RunTag.value tag) with
                     | Some rejected => rejected
                     | None => Mlflow (experiment_guard_error e)
                     end), db))
        /\ (forall new_name,
              rename_experiment experiment_id new_name db
              = (Raise (Mlflow rename_guard_error), db))
        /\ error_code (experiment_guard_error e) = INVALID_PARAMETER_VALUE
        /\ error_code rename_guard_error = INVALID_STATE).
Proof.
  split.
  - intros run_id r Hr Hrs. repeat split.
    + intros metric. unfold log_metric.
      destruct (_validate_metric (Metric.key metric) (Metric.value metric)
                  (Metric.timestamp metric) (Metric.step metric))
        as [rejected|]; [reflexivity|].
      unfold check.
      rewrite (bind_ok _ _ _ _ _ (eq_refl : ret tt db = (Ok tt, db))).
      destruct (stored_value (Metric.value metric)) as [v n].
      apply (guarded_run_fails (fun run => _ <- _ ;; _)); assumption.
    + intros param. unfold log_param. apply guarded_run_fails; assumption.
    + intros tag. unfold set_tag.
      destruct (_validate_tag (RunTag.key tag) (RunTag.value tag))
        as [[x|x]|].
      * apply (managed_raise_mlflow _ db _ (SessionMaker db)). reflexivity.
      * apply (managed_raise_other _ db _ (SessionMaker db)). reflexivity.
      * apply (managed_raise_mlflow _ db _ (SessionMaker db)).
        unfold check.
        rewrite (bind_ok _ _ _ _ _
                   (eq_refl : ret tt (SessionMaker db)
                              = (Ok tt, SessionMaker db))).
        rewrite (bind_ok _ _ _ _ _
                   (get_run_found run_id (SessionMaker db) r eq_refl Hr)).
        apply bind_raise. unfold _check_run_is_active.
        rewrite (stage_not_active _ Hrs). reflexivity.
    + intros key. unfold delete_tag.
      apply (guarded_run_fails (fun run => _ <- _ ;; _)); assumption.
    + intros status end_time. unfold update_run_info.
      apply (guarded_run_fails (fun run => _ ;; _ ;; _)); assumption.
    + unfold delete_run.
      apply (guarded_run_fails (fun run => _ ;; _)); assumption.
  - intros experiment_id e He Hes. repeat split.
    + intros tag. unfold set_experiment_tag.
      destruct (_validate_experiment_tag (RunTag.key tag)
                  (RunTag.value tag)) as [rejected|]; [reflexivity|].
      unfold check.
      rewrite (bind_ok _ _ _ _ _ (eq_refl : ret tt db = (Ok tt, db))).
      apply (guarded_experiment_fails (fun _ => _)); assumption.
    + intros new_name. unfold rename_experiment.
      apply (managed_raise_mlflow _ db _ (SessionMaker db)).
      rewrite (bind_ok _ _ _ _ _
                 (get_experiment_found experiment_id (SessionMaker db) e
                    eq_refl He)).
      rewrite (stage_not_active _ Hes). reflexivity.
Qed.
End Guards.

Lemma inactive_entity_rejects_mutation_witness :
  log_metric accept_metric "r2" (acc half 100 0) example_db_active
  = (Raise (Mlflow (run_guard_error run_r2)), example_db_active)
  /\ set_tag reject_tag "r2" (RunTag.mk "team" "b") example_db_active
     = (Raise (Mlflow (mkMlflowException (Text "Invalid tag name: team")
                                         INVALID_PARAMETER_VALUE)),
        example_db_active)
  /\ rename_experiment 1 "new" example_db
     = (Raise (Mlflow rename_guard_error), example_db).
Proof.
  destruct (inactive_entity_rejects_mutation accept_metric accept_tag
              accept_tag example_db_active) as [R _].
  destruct (R "r2"%string run_r2 eq_refl ltac:(discriminate))
    as [Hmetric _].
  destruct (inactive_entity_rejects_mutation accept_metric reject_tag
              accept_tag example_db_active) as [R' _].
  destruct (R' "r2"%string run_r2 eq_refl ltac:(discriminate))
    as [_ [_ [Htag _]]].
  destruct (inactive_entity_rejects_mutation accept_metric accept_tag
              accept_tag example_db) as [_ X].
  destruct (X 1 experiment_old eq_refl ltac:(discriminate))
    as [_ [Hrename _]].
  split; [apply (Hmetric (acc half 100 0))|].
  split; [apply (Htag (RunTag.mk "team" "b")) | apply (Hrename "new"%string)].
Defined.

(** C4, counterexample -- r2 is a run of the example store that is not
    active.  Logging a param on it raises the guard's error, whose code is
    INVALID_PARAMETER_VALUE: the call does not fail with INVALID_STATE. *)
Lemma inactive_run_error_is_not_invalid_state :
  run_rows "r2" example_db = [run_r2]
  /\ SqlRun.lifecycle_stage run_r2 <> ACTIVE
  /\ log_param "r2" (Param.mk "lr" "0.2") example_db
     = (Raise (Mlflow (run_guard_error run_r2)), example_db)
  /\ error_code (run_guard_error run_r2) = INVALID_PARAMETER_VALUE
  /\ ~ (exists msg db',
          log_param "r2" (Param.mk "lr" "0.2") example_db
          = (Raise (Mlflow (mkMlflowException msg INVALID_STATE)), db')).
Proof.
  split; [reflexivity|]. split; [discriminate|].
  split; [reflexivity|]. split; [reflexivity|].
  intros [msg [db' H]]. vm_compute in H. discriminate H.
Qed.

(** ** Params *)

Lemma NoDup_key_inj {A K} (f : A -> K) (l : list A) (x y : A) :
  NoDup (map f l) -> In x l -> In y l -> f x = f y -> x = y.
Proof.
  induction l as [|z l IH]; simpl; intros Hnd Hx Hy E; [contradiction|].
  inversion Hnd as [|? ? Hnot Hnd']; subst.
  destruct Hx as [->|Hx], Hy as [->|Hy]; auto.
  - exfalso. apply Hnot. rewrite E. apply in_map. exact Hy.
  - exfalso. apply Hnot. rewrite <- E. apply in_map. exact Hx.
Qed.

Lemma NoDup_snoc {K} (l : list K) (a : K) :
  NoDup l -> ~ In a l -> NoDup (l ++ [a]).
Proof.
  induction l as [|x l IH]; simpl; intros Hnd Hn.
  - constructor; [intros []|constructor].
  - inversion Hnd as [|? ? Hnot Hnd']; subst. constructor.
    + intro H. apply in_app_or in H. destruct H as [H|[H|[]]].
      * contradiction.
      * apply Hn. left. symmetry. exact H.
    + apply IH; auto.
Qed.

Lemma param_filter_by_eq (kw p : SqlParam.t) :
  filter_by kw p = true <-> p = kw.
Proof.
  destruct kw as [r k v], p as [r' k' v']. simpl.
  rewrite !andb_true_iff, !String.eqb_eq. split.
  - intros [[-> ->] ->]. reflexivity.
  - intros H. inversion H. auto.
Qed.

Lemma same_param_key_eq (p q : SqlParam.t) :
  same_param_key p q = true <-> param_key q = param_key p.
Proof.
  unfold same_param_key, param_key. rewrite string_pair_eqb.
  split; intros H; inversion H; congruence.
Qed.

Lemma log_param_active run_id param db r :
  run_rows run_id db = [r] -> SqlRun.lifecycle_stage r = ACTIVE ->
  log_param run_id param db =
  let kw := SqlParam.mk run_id (Param.key param) (Param.value param) in
  match filter (filter_by kw) (params db) with
  | _ :: _ => (Ok tt, db)
  | [] =>
      if existsb (same_param_key kw) (params db) then
        match map SqlParam.value
                (filter (fun p => (SqlParam.key p =? Param.key param)%string)
                   (filter (fun p => (SqlParam.run_uuid p
                                      =? SqlRun.run_uuid r)%string)
                      (params db))) with
        | old_value :: _ =>
            (Raise (Mlflow (param_conflict (Param.key param) old_value
                              run_id (Param.value param))), db)
        | [] =>
            (Raise (Mlflow (internal_error (IntegrityError
               "UNIQUE constraint failed: params.key, params.run_uuid"))), db)
        end
      else (Ok tt, with_params (fun rows => rows ++ [kw]) db)
  end.
Proof.
  intros Hr Hs. unfold run_rows in Hr.
  unfold log_param. run_store. simpl.
  rewrite Hr. rewrite Hs. simpl.
  destruct (filter _ (params db)) as [|x xs] eqn:F; simpl.
  - destruct (existsb _ (params db)) eqn:E; simpl.
    + destruct (map _ _) as [|old rest]; reflexivity.
    + reflexivity.
  - reflexivity.
Qed.

Lemma log_param_logged run_id key value db r :
  run_rows run_id db = [r] -> SqlRun.lifecycle_stage r = ACTIVE ->
  NoDup (map param_key (params db)) ->
  In (SqlParam.mk run_id key value) (params db) ->
  log_param run_id (Param.mk key value) db = (Ok tt, db)
  /\ forall value', value' <> value ->
       log_param run_id (Param.mk key value') db
       = (Raise (Mlflow (param_conflict key value run_id value')), db).
Proof.
  intros Hr Hs Hnd Hin. split.
  - rewrite (log_param_active _ _ _ _ Hr Hs). simpl.
    destruct (filter _ (params db)) as [|x xs] eqn:F; [|reflexivity].
    exfalso.
    apply (filter_nil_forall _ _ F) in Hin.
    assert (filter_by (SqlParam.mk run_id key value)
                      (SqlParam.mk run_id key value) = true) as T
      by (apply param_filter_by_eq; reflexivity).
    simpl in T, Hin. congruence.
  - intros value' Hne.
    rewrite (log_param_active _ _ _ _ Hr Hs). simpl.
    assert (SqlRun.run_uuid r = run_id) as Hid.
    { apply filter_single_in in Hr. destruct Hr as [_ Hr].
      apply String.eqb_eq in Hr. exact Hr. }
    destruct (filter _ (params db)) as [|x xs] eqn:F.
    + assert (existsb (same_param_key (SqlParam.mk run_id key value'))
                      (params db) = true) as E.
      { apply existsb_exists. exists (SqlParam.mk run_id key value).
        split; [exact Hin|]. apply same_param_key_eq. reflexivity. }
      rewrite E. rewrite filter_filter_and, Hid.
      rewrite (filter_key_single param_key _ (run_id, key) (params db)
                 (SqlParam.mk run_id key value)); auto.
      intros p. apply string_pair_eqb.
    + exfalso.
      assert (In x (filter (filter_by (SqlParam.mk run_id key value'))
                           (params db))) as Hx.
      { simpl. rewrite F. left. reflexivity. }
      apply filter_In in Hx. destruct Hx as [Hx1 Hx2].
      apply param_filter_by_eq in Hx2. subst x.
      apply Hne.
      pose proof (NoDup_key_inj param_key _ _ _ Hnd Hx1 Hin eq_refl) as Q.
      inversion Q. reflexivity.
Qed.

Lemma log_param_ok run_id key value db r db1 :
  run_rows run_id db = [r] -> SqlRun.lifecycle_stage r = ACTIVE ->
  NoDup (map param_key (params db)) ->
  log_param run_id (Param.mk key value) db = (Ok tt, db1) ->
  run_rows run_id db1 = [r]
  /\ NoDup (map param_key (params db1))
  /\ In (SqlParam.mk run_id key value) (params db1).
Proof.
  intros Hr Hs Hnd. rewrite (log_param_active _ _ _ _ Hr Hs). simpl.
  destruct (filter _ (params db)) as [|x xs] eqn:F.
  - destruct (existsb _ (params db)) eqn:E.
    + destruct (map SqlParam.value _); intros H; discriminate H.
    + intros H. inversion H; subst. simpl. split; [exact Hr|]. split.
      * rewrite map_app. simpl. apply NoDup_snoc; [exact Hnd|].
        intro Hk. apply in_map_iff in Hk. destruct Hk as [p [Hk Hp]].
        assert (existsb (same_param_key (SqlParam.mk run_id key value))
                        (params db) = true) as T.
        { apply existsb_exists. exists p. split; [exact Hp|].
          apply same_param_key_eq. exact Hk. }
        congruence.
      * apply in_or_app. right. left. reflexivity.
  - intros H. inversion H; subst. split; [exact Hr|]. split; [exact Hnd|].
    assert (In x (filter (filter_by (SqlParam.mk run_id key value))
                         (params db1))) as Hx.
    { simpl. rewrite F. left. reflexivity. }
    apply filter_In in Hx. destruct Hx as [Hx1 Hx2].
    apply param_filter_by_eq in Hx2. subst x. exact Hx1.
Qed.

(** C2, as the code has it -- on an active run, once log_param has logged
    (run_id, key, value), logging the same triple again returns and leaves
    the store as it is, and logging another value for that key raises a
    conflict that names the key, the stored value, the run and the attempted
    value and leaves the store, and so the stored value, as it is.  The
    conflict carries the code INVALID_PARAMETER_VALUE. *)
Theorem log_param_repeat_or_conflict
  (db db1 : DB) (run_id key value : string) (r : SqlRun.t) :
  run_rows run_id db = [r] ->
  SqlRun.lifecycle_stage r = ACTIVE ->
  NoDup (map param_key (params db)) ->
  log_param run_id (Param.mk key value) db = (Ok tt, db1) ->
  log_param run_id (Param.mk key value) db1 = (Ok tt, db1)
  /\ forall value', value' <> value ->
       log_param run_id (Param.mk key value') db1
       = (Raise (Mlflow (param_conflict key value run_id value')), db1)
       /\ message (param_conflict key value run_id value')
          = Text (param_conflict_message key value run_id value')
       /\ error_code (param_conflict key value run_id value')
          = INVALID_PARAMETER_VALUE.
Proof.
  intros Hr Hs Hnd Hlog.
  destruct (log_param_ok _ _ _ _ _ _ Hr Hs Hnd Hlog) as [Hr1 [Hnd1 Hin1]].
  destruct (log_param_logged _ _ _ _ _ Hr1 Hs Hnd1 Hin1) as [Hsame Hdiff].
  split; [exact Hsame|].
  intros value' Hne. split; [apply Hdiff; exact Hne|].
  split; reflexivity.
Qed.

Lemma log_param_repeat_or_conflict_witness :
  log_param "r1" (Param.mk "batch" "32") example_db_batch
  = (Ok tt, example_db_batch)
  /\ log_param "r1" (Param.mk "batch" "64") example_db_batch
     = (Raise (Mlflow (param_conflict "batch" "32" "r1" "64")),
        example_db_batch).
Proof.
  assert (NoDup (map param_key (params example_db))) as Hnd.
  { simpl. constructor; [intros []|constructor]. }
  pose proof (log_param_repeat_or_conflict example_db example_db_batch
                "r1" "batch" "32" run_r1
                eq_refl eq_refl Hnd eq_refl) as [H1 H2].
  split; [exact H1|].
  apply (H2 "64"%string). discriminate.
Defined.

(** C2, counterexample -- the active run r1 holds the param lr = 0.1.
    Logging lr = 0.2 raises the conflict, whose code is
    INVALID_PARAMETER_VALUE: the call does not fail with
    RESOURCE_ALREADY_EXISTS. *)
Lemma param_conflict_is_not_already_exists :
  run_rows "r1" example_db = [run_r1]
  /\ SqlRun.lifecycle_stage run_r1 = ACTIVE
  /\ In (SqlParam.mk "r1" "lr" "0.1") (params example_db)
  /\ log_param "r1" (Param.mk "lr" "0.2") example_db
     = (Raise (Mlflow (param_conflict "lr" "0.1" "r1" "0.2")), example_db)
  /\ error_code (param_conflict "lr" "0.1" "r1" "0.2")
     = INVALID_PARAMETER_VALUE
  /\ ~ (exists msg db',
          log_param "r1" (Param.mk "lr" "0.2") example_db
          = (Raise (Mlflow (mkMlflowException msg RESOURCE_ALREADY_EXISTS)),
             db')).
Proof.
  split; [reflexivity|]. split; [reflexivity|].
  split; [left; reflexivity|].
  split; [reflexivity|]. split; [reflexivity|].
  intros [msg [db' H]]. vm_compute in H. discriminate H.
Qed.

(** ** The order of metric facts *)

Lemma float_gt_rank (a b : float) :
  isnan a = false -> isnan b = false ->
  (float_gt a b = true <-> rank_lt (rank b) (rank a)).
Proof.
  unfold float_gt, SFltb, SFcompare, rank_lt, rank.
  destruct a as [[]|[]| |[] ma ea], b as [[]|[]| |[] mb eb];
    simpl; intros Ha Hb; try discriminate;
    try (split; intros H; [lia | reflexivity]);
    try (split; intros H; [discriminate | lia]).
  - destruct (Z.compare_spec eb ea); simpl.
    + replace (Pos.compare_cont Eq mb ma) with (Pos.compare mb ma)
        by reflexivity.
      destruct (Pos.compare_spec mb ma); simpl;
        split; intros Q; try discriminate; try reflexivity; lia.
    + split; intros Q; try discriminate; lia.
    + split; intros Q; try reflexivity; lia.
  - destruct (Z.compare_spec eb ea); simpl.
    + replace (Pos.compare_cont Eq mb ma) with (Pos.compare mb ma)
        by reflexivity.
      destruct (Pos.compare_spec mb ma); simpl;
        split; intros Q; try discriminate; try reflexivity; lia.
    + split; intros Q; try reflexivity; lia.
    + split; intros Q; try discriminate; lia.
Qed.

Lemma float_eq_rank (a b : float) :
  isnan a = false -> isnan b = false ->
  (float_eq a b = true <-> rank a = rank b).
Proof.
  unfold float_eq, SFeqb, SFcompare, rank.
  destruct a as [[]|[]| |[] ma ea], b as [[]|[]| |[] mb eb];
    simpl; intros Ha Hb; try discriminate;
    try (split; intros H; [reflexivity | reflexivity]);
    try (split; intros H; [discriminate | inversion H; lia]).
  - destruct (Z.compare_spec ea eb); simpl.
    + replace (Pos.compare_cont Eq ma mb) with (Pos.compare ma mb)
        by reflexivity.
      destruct (Pos.compare_spec ma mb); simpl;
        split; intros Q; try discriminate; try reflexivity;
        try (inversion Q; lia); subst; reflexivity.
    + split; intros Q; try discriminate; inversion Q; lia.
    + split; intros Q; try discriminate; inversion Q; lia.
  - destruct (Z.compare_spec ea eb); simpl.
    + replace (Pos.compare_cont Eq ma mb) with (Pos.compare ma mb)
        by reflexivity.
      destruct (Pos.compare_spec ma mb); simpl;
        split; intros Q; try discriminate; try reflexivity;
        try (inversion Q; lia); subst; reflexivity.
    + split; intros Q; try discriminate; inversion Q; lia.
    + split; intros Q; try discriminate; inversion Q; lia.
Qed.

Lemma tuple_gt_spec (s1 t1 : Z) (v1 : float) (s2 t2 : Z) (v2 : float) :
  isnan v1 = false -> isnan v2 = false ->
  (tuple_gt (s1, t1, v1) (s2, t2, v2) = true
   <-> tuple_lt_spec (s2, t2, v2) (s1, t1, v1)).
Proof.
  intros H1 H2. unfold tuple_gt, tuple_lt_spec.
  destruct (Z.eqb_spec s1 s2) as [->|Hs]; simpl.
  - destruct (Z.eqb_spec t1 t2) as [->|Ht]; simpl.
    + destruct (float_eq v1 v2) eqn:E; simpl.
      * apply (float_eq_rank _ _ H1 H2) in E. rewrite E.
        split; [discriminate|].
        unfold rank_lt. destruct (rank v2) as [[x y] z]. lia.
      * rewrite (float_gt_rank _ _ H1 H2).
        split; [intros Q; right; split; [reflexivity|]; right; split;
                [reflexivity | exact Q]|].
        intros [Q|[_ [Q|[_ Q]]]]; try lia. exact Q.
    + rewrite Z.gtb_ltb, Z.ltb_lt. lia.
  - rewrite Z.gtb_ltb, Z.ltb_lt. lia.
Qed.

Lemma tuple_gt_irrefl (a : Z * Z * float) : tuple_gt a a = false.
Proof.
  destruct a as [[s t] v]. unfold tuple_gt.
  rewrite !Z.eqb_refl. simpl.
  destruct (isnan v) eqn:N.
  - destruct v; try discriminate. reflexivity.
  - assert (float_eq v v = true) as E
      by (apply float_eq_rank; auto).
    rewrite E. reflexivity.
Qed.

Lemma tuple_le_lt_trans (a b c : Z * Z * float) :
  isnan (snd a) = false -> isnan (snd b) = false -> isnan (snd c) = false ->
  tuple_gt a b = false -> tuple_gt c b = true -> tuple_gt a c = false.
Proof.
  destruct a as [[s1 t1] v1], b as [[s2 t2] v2], c as [[s3 t3] v3].
  cbn [snd]. intros N1 N2 N3 Hab Hcb.
  apply (tuple_gt_spec _ _ _ _ _ _ N3 N2) in Hcb.
  apply not_true_is_false. intro Hac.
  apply (tuple_gt_spec _ _ _ _ _ _ N1 N3) in Hac.
  assert (tuple_gt (s1, t1, v1) (s2, t2, v2) = true) as Q.
  { apply (tuple_gt_spec _ _ _ _ _ _ N1 N2).
    unfold tuple_lt_spec, rank_lt in *.
    destruct (rank v1) as [[x1 y1] z1], (rank v2) as [[x2 y2] z2],
             (rank v3) as [[x3 y3] z3].
    lia. }
  congruence.
Qed.

Lemma stored_value_not_nan (v : float) :
  isnan (fst (stored_value v)) = false.
Proof.
  unfold stored_value.
  destruct v as [[]|[]| |[] m e]; reflexivity.
Qed.
Section LogMetric.
Variable _validate_metric : string -> float -> Z -> Z -> option Exn.

Lemma log_metric_cases run_id metric db :
  let f := fact_of run_id metric in
  let db' := snd (log_metric _validate_metric run_id metric db) in
  db' = db
  \/ (filter (filter_by f) (metrics db) = []
      /\ latest_rows run_id (Metric.key metric) db = []
      /\ db' = replace_latest f (add_fact f db))
  \/ (filter (filter_by f) (metrics db) = []
      /\ exists l, latest_rows run_id (Metric.key metric) db = [l]
                   /\ _compare_metrics f l = true
                   /\ db' = replace_latest f (add_fact f db))
  \/ (filter (filter_by f) (metrics db) = []
      /\ exists l, latest_rows run_id (Metric.key metric) db = [l]
                   /\ _compare_metrics f l = false
                   /\ db' = add_fact f db).
Proof.
  unfold fact_of, latest_rows, log_metric.
  destruct (_validate_metric _ _ _ _) as [e|]; [left; reflexivity|].
  destruct (stored_value (Metric.value metric)) as [v n]. cbn [fst snd].
  run_store. simpl.
  destruct (filter _ (runs db)) as [|r [|r' rs]]; simpl;
    try (left; reflexivity).
  destruct (SqlRun.lifecycle_stage r); simpl; try (left; reflexivity).
  destruct (filter _ (metrics db)) as [|x xs] eqn:F; simpl;
    try (left; reflexivity).
  destruct (filter _ (latest_metrics db)) as [|l [|l' ls]] eqn:L; simpl.
  - right. left. auto.
  - destruct (_compare_metrics _ l) eqn:C; simpl.
    + right. right. left. split; [reflexivity|]. exists l. auto.
    + right. right. right. split; [reflexivity|]. exists l. auto.
  - left. reflexivity.
Qed.

Lemma log_metric_active run_id metric db r :
  run_rows run_id db = [r] -> SqlRun.lifecycle_stage r = ACTIVE ->
  _validate_metric (Metric.key metric) (Metric.value metric)
    (Metric.timestamp metric) (Metric.step metric) = None ->
  let f := fact_of run_id metric in
  log_metric _validate_metric run_id metric db =
  match filter (filter_by f) (metrics db) with
  | _ :: _ => (Ok tt, db)
  | [] =>
      match latest_rows run_id (Metric.key metric) db with
      | [] => (Ok tt, replace_latest f (add_fact f db))
      | [l] => if _compare_metrics f l
               then (Ok tt, replace_latest f (add_fact f db))
               else (Ok tt, add_fact f db)
      | _ => (Raise (Mlflow (internal_error MultipleResultsFound)), db)
      end
  end.
Proof.
  intros Hr Hs Hv. unfold run_rows in Hr.
  unfold fact_of, latest_rows, log_metric. rewrite Hv.
  destruct (stored_value (Metric.value metric)) as [v n]. cbn [fst snd].
  run_store. simpl. rewrite Hr, Hs. simpl.
  destruct (filter _ (metrics db)) as [|x xs] eqn:F; simpl;
    try reflexivity.
  destruct (filter _ (latest_metrics db)) as [|l [|l' ls]] eqn:L; simpl;
    try reflexivity.
  destruct (_compare_metrics _ l) eqn:C; reflexivity.
Qed.
End LogMetric.

(** ** The latest-metric table *)

Lemma same_latest_key_eq (x y : SqlLatestMetric.t) :
  same_latest_key x y = true <-> latest_key y = latest_key x.
Proof.
  unfold same_latest_key, latest_key. rewrite string_pair_eqb.
  split; intros H; inversion H; congruence.
Qed.

Lemma latest_rows_key run_id key (l : SqlLatestMetric.t) :
  (SqlLatestMetric.run_uuid l =? run_id)%string
  && (SqlLatestMetric.key l =? key)%string = true
  <-> latest_key l = (run_id, key).
Proof. apply string_pair_eqb. Qed.

Lemma latest_key_of (f : SqlMetric.t) :
  latest_key (latest_of f) = metric_key f.
Proof. reflexivity. Qed.

Lemma compare_with_own_row (f : SqlMetric.t) :
  _compare_metrics f (latest_of f) = false.
Proof. unfold _compare_metrics, latest_of. cbn [SqlLatestMetric.step SqlLatestMetric.timestamp SqlLatestMetric.value]. apply tuple_gt_irrefl. Qed.

Lemma compare_with_row_of (m f : SqlMetric.t) :
  _compare_metrics m (latest_of f)
  = tuple_gt (SqlMetric.step m, SqlMetric.timestamp m, SqlMetric.value m)
             (SqlMetric.step f, SqlMetric.timestamp f, SqlMetric.value f).
Proof. reflexivity. Qed.

Lemma upsert_absent {A} (same : A -> A -> bool) (x : A) (rows : list A) :
  existsb (same x) rows = false -> upsert same x rows = rows ++ [x].
Proof. unfold upsert. intros ->. reflexivity. Qed.

Lemma upsert_present {A} (same : A -> A -> bool) (x : A) (rows : list A) :
  existsb (same x) rows = true ->
  upsert same x rows = map (fun y => if same x y then x else y) rows.
Proof. unfold upsert. intros ->. reflexivity. Qed.

Lemma latest_absent (f : SqlMetric.t) (db : DB) :
  latest_rows (SqlMetric.run_uuid f) (SqlMetric.key f) db = [] ->
  existsb (same_latest_key (latest_of f)) (latest_metrics db) = false
  /\ ~ In (metric_key f) (map latest_key (latest_metrics db)).
Proof.
  intros H. pose proof (filter_nil_forall _ _ H) as Hall. split.
  - apply not_true_is_false. intro E. apply existsb_exists in E.
    destruct E as [l [Hin Hl]]. apply same_latest_key_eq in Hl.
    specialize (Hall l Hin).
    assert ((SqlLatestMetric.run_uuid l =? SqlMetric.run_uuid f)%string
            && (SqlLatestMetric.key l =? SqlMetric.key f)%string = true) as T
      by (apply latest_rows_key; exact Hl).
    congruence.
  - intro Hin. apply in_map_iff in Hin. destruct Hin as [l [Hk Hin]].
    specialize (Hall l Hin).
    assert ((SqlLatestMetric.run_uuid l =? SqlMetric.run_uuid f)%string
            && (SqlLatestMetric.key l =? SqlMetric.key f)%string = true) as T
      by (apply latest_rows_key; exact Hk).
    congruence.
Qed.

Lemma latest_ok_first (f : SqlMetric.t) (db : DB) :
  latest_ok db -> isnan (SqlMetric.value f) = false ->
  latest_rows (SqlMetric.run_uuid f) (SqlMetric.key f) db = [] ->
  latest_ok (replace_latest f (add_fact f db)).
Proof.
  intros (Hnd & Hfact & Hmax & Hnan) Hf Hrows.
  destruct (latest_absent f db Hrows) as [Habs Hkey].
  unfold latest_ok, replace_latest, add_fact. simpl.
  rewrite (upsert_absent _ _ _ Habs). repeat split.
  - rewrite map_app. simpl. apply NoDup_snoc; assumption.
  - intros l Hin. apply in_app_or in Hin. destruct Hin as [Hin|[<-|[]]].
    + destruct (Hfact l Hin) as [m [Hm E]]. exists m. split; [|exact E].
      apply in_or_app. left. exact Hm.
    + exists f. split; [|reflexivity]. apply in_or_app. right. left.
      reflexivity.
  - intros m Hin. apply in_app_or in Hin. destruct Hin as [Hin|[<-|[]]].
    + destruct (Hmax m Hin) as [l [Hl [Hk Hc]]]. exists l.
      split; [apply in_or_app; left; exact Hl | auto].
    + exists (latest_of f). split; [apply in_or_app; right; left; reflexivity|].
      split; [apply latest_key_of | apply compare_with_own_row].
  - intros m Hin. apply in_app_or in Hin. destruct Hin as [Hin|[<-|[]]]; auto.
Qed.

Lemma latest_ok_later (f : SqlMetric.t) (db : DB) (l : SqlLatestMetric.t) :
  latest_ok db -> isnan (SqlMetric.value f) = false ->
  latest_rows (SqlMetric.run_uuid f) (SqlMetric.key f) db = [l] ->
  _compare_metrics f l = true ->
  latest_ok (replace_latest f (add_fact f db)).
Proof.
  intros (Hnd & Hfact & Hmax & Hnan) Hf Hrows Hgt.
  destruct (filter_single_in _ _ _ Hrows) as [Hl Hlk].
  apply latest_rows_key in Hlk.
  assert (existsb (same_latest_key (latest_of f)) (latest_metrics db) = true)
    as Hex.
  { apply existsb_exists. exists l. split; [exact Hl|].
    apply same_latest_key_eq. exact Hlk. }
  unfold latest_ok, replace_latest, add_fact. simpl.
  rewrite (upsert_present _ _ _ Hex). repeat split.
  - rewrite map_map.
    rewrite (map_ext _ latest_key); [exact Hnd|].
    intros y. destruct (same_latest_key (latest_of f) y) eqn:E; auto.
    apply same_latest_key_eq in E. congruence.
  - intros l' Hin. apply in_map_iff in Hin. destruct Hin as [y [E Hy]].
    destruct (same_latest_key (latest_of f) y).
    + subst l'. exists f. split; [|reflexivity].
      apply in_or_app. right. left. reflexivity.
    + subst l'. destruct (Hfact y Hy) as [m [Hm Em]]. exists m.
      split; [|exact Em]. apply in_or_app. left. exact Hm.
  - intros m Hin. apply in_app_or in Hin. destruct Hin as [Hin|[<-|[]]].
    + destruct (Hmax m Hin) as [l0 [Hl0 [Hk Hc]]].
      destruct (same_latest_key (latest_of f) l0) eqn:E.
      * exists (latest_of f). split.
        { apply in_map_iff. exists l0. rewrite E. auto. }
        apply same_latest_key_eq in E.
        split; [congruence|].
        assert (l0 = l) as ->.
        { apply (filter_single_forall _ _ _ Hrows); [exact Hl0|].
          apply latest_rows_key. rewrite E. reflexivity. }
        rewrite compare_with_row_of.
        destruct (Hfact l Hl) as [m0 [Hm0 Em0]].
        apply (tuple_le_lt_trans _
                 (SqlLatestMetric.step l, SqlLatestMetric.timestamp l,
                  SqlLatestMetric.value l)).
        -- simpl. apply Hnan. exact Hin.
        -- simpl. rewrite <- Em0. simpl. apply Hnan. exact Hm0.
        -- simpl. exact Hf.
        -- exact Hc.
        -- exact Hgt.
      * exists l0. split.
        { apply in_map_iff. exists l0. rewrite E. auto. }
        auto.
    + exists (latest_of f). split.
      { apply in_map_iff. exists l. split; [|exact Hl].
        assert (same_latest_key (latest_of f) l = true) as ->
          by (apply same_latest_key_eq; exact Hlk).
        reflexivity. }
      split; [apply latest_key_of | apply compare_with_own_row].
  - intros m Hin. apply in_app_or in Hin. destruct Hin as [Hin|[<-|[]]]; auto.
Qed.

Lemma latest_ok_earlier (f : SqlMetric.t) (db : DB) (l : SqlLatestMetric.t) :
  latest_ok db -> isnan (SqlMetric.value f) = false ->
  latest_rows (SqlMetric.run_uuid f) (SqlMetric.key f) db = [l] ->
  _compare_metrics f l = false ->
  latest_ok (add_fact f db).
Proof.
  intros (Hnd & Hfact & Hmax & Hnan) Hf Hrows Hle.
  destruct (filter_single_in _ _ _ Hrows) as [Hl Hlk].
  apply latest_rows_key in Hlk.
  unfold latest_ok, add_fact. simpl. repeat split.
  - exact Hnd.
  - intros l' Hin. destruct (Hfact l' Hin) as [m [Hm E]]. exists m.
    split; [apply in_or_app; left; exact Hm | exact E].
  - intros m Hin. apply in_app_or in Hin. destruct Hin as [Hin|[<-|[]]].
    + apply Hmax. exact Hin.
    + exists l. auto.
  - intros m Hin. apply in_app_or in Hin. destruct Hin as [Hin|[<-|[]]]; auto.
Qed.

Lemma fact_of_not_nan run_id metric :
  isnan (SqlMetric.value (fact_of run_id metric)) = false.
Proof. unfold fact_of. simpl. apply stored_value_not_nan. Qed.

Section LatestInvariant.
Variable _validate_metric : string -> float -> Z -> Z -> option Exn.

Lemma log_metric_keeps_latest_ok run_id metric db :
  latest_ok db ->
  latest_ok (snd (log_metric _validate_metric run_id metric db)).
Proof.
  intros H.
  pose proof (fact_of_not_nan run_id metric) as N.
  destruct (log_metric_cases _validate_metric run_id metric db)
    as [E|[(F & L & E)|[(F & l & L & C & E)|(F & l & L & C & E)]]];
    rewrite E; clear E.
  - exact H.
  - apply latest_ok_first; assumption.
  - apply (latest_ok_later _ _ l); assumption.
  - apply (latest_ok_earlier _ _ l); assumption.
Qed.

Lemma log_metrics_keep_latest_ok calls db :
  latest_ok db -> latest_ok (log_metrics _validate_metric calls db).
Proof.
  unfold log_metrics. revert db.
  induction calls as [|c calls IH]; simpl; intros db H; [exact H|].
  apply IH. apply log_metric_keeps_latest_ok. exact H.
Qed.
End LatestInvariant.

Lemma latest_ok_greatest (db : DB) (m : SqlMetric.t) :
  latest_ok db -> In m (metrics db) ->
  exists l,
    latest_rows (SqlMetric.run_uuid m) (SqlMetric.key m) db = [l]
    /\ (exists m', In m' (metrics db) /\ latest_of m' = l)
    /\ forall m', In m' (metrics db) -> metric_key m' = metric_key m ->
                  _compare_metrics m' l = false.
Proof.
  intros (Hnd & Hfact & Hmax & Hnan) Hin.
  destruct (Hmax m Hin) as [l [Hl [Hk Hc]]]. exists l. repeat split.
  - apply (filter_key_single latest_key _ (metric_key m)); auto.
    intros x. apply latest_rows_key.
  - apply Hfact. exact Hl.
  - intros m' Hin' Hk'.
    destruct (Hmax m' Hin') as [l' [Hl' [Hkl' Hc']]].
    assert (l' = l) as <-; [|exact Hc'].
    apply (NoDup_key_inj latest_key _ _ _ Hnd Hl' Hl). congruence.
Qed.

Section LatestMetric.
Variable _validate_metric : string -> float -> Z -> Z -> option Exn.

(** C1 -- from a store whose latest_metrics table is in order (as the
    empty one is), after any sequence of log_metric calls every run and
    key with a fact has exactly one LatestMetric row, that row is one of
    the logged facts, and no fact of the run and key is strictly greater
    in (step, timestamp, value).  A single call on an active run that
    finds an identical fact leaves the store as it is; one that creates
    its fact replaces the current row when the fact is strictly greater
    and leaves the latest_metrics table alone otherwise. *)
Theorem latest_metric_is_greatest
  (db : DB) (calls : list (string * Metric.t)) :
  latest_ok db ->
  let db' := log_metrics _validate_metric calls db in
  (forall m, In m (metrics db') ->
     exists l,
       latest_rows (SqlMetric.run_uuid m) (SqlMetric.key m) db' = [l]
       /\ (exists m', In m' (metrics db') /\ latest_of m' = l)
       /\ forall m', In m' (metrics db') ->
                     metric_key m' = metric_key m ->
                     _compare_metrics m' l = false)
  /\ (forall run_id r metric l,
        run_rows run_id db' = [r] ->
        SqlRun.lifecycle_stage r = ACTIVE ->
        _validate_metric (Metric.key metric) (Metric.value metric)
          (Metric.timestamp metric) (Metric.step metric) = None ->
        latest_rows run_id (Metric.key metric) db' = [l] ->
        let f := fact_of run_id metric in
        (filter (filter_by f) (metrics db') <> [] ->
           log_metric _validate_metric run_id metric db' = (Ok tt, db'))
        /\ (filter (filter_by f) (metrics db') = [] ->
            _compare_metrics f l = true ->
            exists db'',
              log_metric _validate_metric run_id metric db' = (Ok tt, db'')
              /\ metrics db'' = metrics db' ++ [f]
              /\ latest_rows run_id (Metric.key metric) db''
                 = [latest_of f])
        /\ (filter (filter_by f) (metrics db') = [] ->
            _compare_metrics f l = false ->
            exists db'',
              log_metric _validate_metric run_id metric db' = (Ok tt, db'')
              /\ metrics db'' = metrics db' ++ [f]
              /\ latest_metrics db'' = latest_metrics db')).
Proof.
  intros H db'.
  assert (latest_ok db') as H'
    by (apply log_metrics_keep_latest_ok; exact H).
  split.
  - intros m Hin. apply latest_ok_greatest; assumption.
  - intros run_id r metric l Hr Hs Hv Hl f.
    pose proof (log_metric_active _validate_metric run_id metric db' r
                  Hr Hs Hv) as E.
    cbv zeta in E. fold f in E. rewrite Hl in E.
    repeat split.
    + intros Hne. rewrite E.
      destruct (filter (filter_by f) (metrics db')); congruence.
    + intros Hnil Hgt. rewrite E, Hnil, Hgt.
      exists (replace_latest f (add_fact f db')).
      split; [reflexivity|]. split; [reflexivity|].
      assert (latest_ok (replace_latest f (add_fact f db'))) as Hok.
      { apply (latest_ok_later f db' l); auto.
        apply fact_of_not_nan. }
      destruct Hok as (Hnd & _).
      apply (filter_key_single latest_key _ (metric_key f)); auto.
      * intros x. apply latest_rows_key.
      * unfold replace_latest, add_fact. simpl.
        destruct (filter_single_in _ _ _ Hl) as [Hin Hk].
        apply latest_rows_key in Hk.
        assert (same_latest_key (latest_of f) l = true) as S
          by (apply same_latest_key_eq; exact Hk).
        rewrite upsert_present.
        -- apply in_map_iff. exists l. rewrite S. auto.
        -- apply existsb_exists. exists l. auto.
    + intros Hnil Hle. rewrite E, Hnil, Hle.
      exists (add_fact f db'). auto.
Qed.
End LatestMetric.

Lemma latest_ok_no_metrics (db : DB) :
  metrics db = [] -> latest_metrics db = [] -> latest_ok db.
Proof.
  intros Hm Hl. unfold latest_ok. rewrite Hm, Hl. simpl.
  repeat split; try constructor; intros ? [].
Qed.

Lemma latest_metric_is_greatest_witness :
  latest_ok example_db
  /\ latest_rows "r1" "acc" (log_metrics accept_metric example_calls
                               example_db)
     = [SqlLatestMetric.mk "r1" "acc" three_quarters 200 1 false]
  /\ log_metric accept_metric "r1" (acc half 100 0)
       (log_metrics accept_metric example_calls example_db)
     = (Ok tt, log_metrics accept_metric example_calls example_db).
Proof.
  assert (latest_ok example_db) as H0
    by (apply latest_ok_no_metrics; reflexivity).
  pose proof (latest_metric_is_greatest accept_metric example_db
                example_calls H0) as [Hmax Hstep].
  split; [exact H0|]. split.
  - destruct (Hmax (SqlMetric.mk "r1" "acc" half 100 0 false))
      as [l [Hl _]].
    + vm_compute. left. reflexivity.
    + cbn [SqlMetric.run_uuid SqlMetric.key] in Hl. rewrite Hl.
      vm_compute in Hl. inversion Hl. reflexivity.
  - refine (proj1 (Hstep "r1"%string run_r1 (acc half 100 0)
                     (SqlLatestMetric.mk "r1" "acc" three_quarters 200 1
                                         false)
                     eq_refl eq_refl eq_refl eq_refl) _).
    vm_compute. discriminate.
Defined.

(** ** The stored value of a metric *)

Lemma metric_filter_by_refl (f : SqlMetric.t) :
  isnan (SqlMetric.value f) = false -> filter_by f f = true.
Proof.
  intros N. simpl.
  rewrite !String.eqb_refl, !Z.eqb_refl, Bool.eqb_reflx.
  assert (float_eq (SqlMetric.value f) (SqlMetric.value f) = true) as ->
    by (apply float_eq_rank; auto).
  reflexivity.
Qed.

Section StoredValue.
Variable _validate_metric : string -> float -> Z -> Z -> option Exn.

(** C6 -- a NaN is stored as 0 with is_nan set, +Infinity as the largest
    and -Infinity as the smallest finite binary64 value with is_nan
    clear, and every other value as it is; log_metric on an active run
    returns with a fact of exactly these columns in the metrics table. *)
Theorem metric_value_is_normalised :
  stored_value S754_nan = (zero_float, true)
  /\ stored_value (S754_infinity false) = (max_float64, false)
  /\ stored_value (S754_infinity true) = (min_float64, false)
  /\ (forall v, isnan v = false -> isinf v = false ->
                stored_value v = (v, false))
  /\ max_float64 = SFmax_float 53 1024
  /\ min_float64 = SFopp max_float64
  /\ forall db run_id r metric,
       run_rows run_id db = [r] ->
       SqlRun.lifecycle_stage r = ACTIVE ->
       _validate_metric (Metric.key metric) (Metric.value metric)
         (Metric.timestamp metric) (Metric.step metric) = None ->
       (List.length (latest_rows run_id (Metric.key metric) db) <= 1)%nat ->
       exists db' row,
         log_metric _validate_metric run_id metric db = (Ok tt, db')
         /\ In row (metrics db')
         /\ filter_by
              (SqlMetric.mk run_id (Metric.key metric)
                 (fst (stored_value (Metric.value metric)))
                 (Metric.timestamp metric) (Metric.step metric)
                 (snd (stored_value (Metric.value metric))))
              row = true.
Proof.
  repeat split.
  - intros v Hn Hi. unfold stored_value. rewrite Hn, Hi. reflexivity.
  - intros db run_id r metric Hr Hs Hv Hlen.
    pose proof (log_metric_active _validate_metric run_id metric db r
                  Hr Hs Hv) as E.
    cbv zeta in E. fold (fact_of run_id metric).
    set (f := fact_of run_id metric) in *.
    assert (In f (metrics (add_fact f db))) as Hadd
      by (unfold add_fact; simpl; apply in_or_app; right; left;
          reflexivity).
    assert (filter_by f f = true) as Hrefl
      by (apply metric_filter_by_refl, fact_of_not_nan).
    destruct (filter (filter_by f) (metrics db)) as [|x xs] eqn:F.
    + destruct (latest_rows run_id (Metric.key metric) db)
        as [|l [|l' ls]].
      * exists (replace_latest f (add_fact f db)), f. auto.
      * destruct (_compare_metrics f l).
        -- exists (replace_latest f (add_fact f db)), f. auto.
        -- exists (add_fact f db), f. auto.
      * simpl in Hlen. lia.
    + exists db, x. split; [exact E|].
      apply filter_In. rewrite F. left. reflexivity.
Qed.
End StoredValue.

Lemma metric_value_is_normalised_witness :
  exists db' row,
    log_metric accept_metric "r1" (acc (S754_infinity true) 100 0) example_db
    = (Ok tt, db')
    /\ In row (metrics db')
    /\ SqlMetric.value row = min_float64
    /\ SqlMetric.is_nan row = false.
Proof.
  destruct (proj2 (proj2 (proj2 (proj2 (proj2 (proj2
              (metric_value_is_normalised accept_metric))))))
              example_db "r1"%string
              run_r1
              (acc (S754_infinity true) 100 0)
              eq_refl eq_refl eq_refl ltac:(simpl; lia))
    as [db' [row [E [Hin Hrow]]]].
  exists db', row. split; [exact E|]. split; [exact Hin|].
  vm_compute in E. inversion E; subst. clear E.
  destruct Hin as [<-|[]]. split; reflexivity.
Defined.

(** ** Experiments *)

Lemma get_experiment_cases id db :
  get_experiment id db =
  match experiment_rows id db with
  | [] => (Raise (Mlflow (not_found_error id)), db)
  | [e] => (Ok e, db)
  | rows =>
      (Raise (Mlflow (mkMlflowException
         (Text ("Expected only 1 experiment with id=" +++ str id
                +++ ". Found " +++ str (Z.of_nat (List.length rows)) +++ "."))
         INVALID_STATE)), db)
  end.
Proof.
  unfold get_experiment, _get_experiment. rewrite default_id.
  run_store. cbn -[_list_experiments str String.append].
  rewrite list_experiments_all.
  destruct (experiment_rows id db) as [|e [|e' rows]]; reflexivity.
Qed.

Lemma int_str (z : Z) : int (str z) = Some z.
Proof.
  unfold int, str. rewrite NilZero.isi.
  - simpl. f_equal. apply DecimalZ.of_to.
  - destruct z; simpl; try discriminate.
    intro H. injection H as H. revert H. apply Unsigned.to_uint_nonnil.
  - destruct z; simpl; try discriminate.
    intro H. injection H as H. revert H. apply Unsigned.to_uint_nonnil.
Qed.

Lemma next_experiment_id_above (rows : list SqlExperiment.t) e :
  In e rows -> SqlExperiment.experiment_id e < next_experiment_id rows.
Proof.
  unfold next_experiment_id.
  induction rows as [|x rows IH]; cbn [fold_right map In]; intros H;
    [contradiction|].
  destruct H as [->|H]; [lia|]. specialize (IH H). lia.
Qed.

Lemma next_experiment_id_fresh (db : DB) :
  ~ In (next_experiment_id (experiments db)) (experiment_keys db).
Proof.
  unfold experiment_keys. intro H. apply in_map_iff in H.
  destruct H as [e [E Hin]].
  pose proof (next_experiment_id_above _ _ Hin). lia.
Qed.

Lemma posixpath_join_suffix (a b : string) :
  exists prefix, posixpath_join a b = prefix +++ b.
Proof.
  unfold posixpath_join.
  destruct (startswith_sep b); [exists ""%string; reflexivity|].
  destruct ((a =? "")%string || endswith_sep a).
  - exists a. reflexivity.
  - exists (a +++ "/")%string.
    clear. induction a as [|c a IH]; simpl; [reflexivity|].
    f_equal. exact IH.
Qed.

Lemma name_not_taken (name : string) (rows : list SqlExperiment.t) :
  (forall e, In e rows -> SqlExperiment.name e <> name) ->
  existsb (fun e => (SqlExperiment.name e =? name)%string) rows = false
  /\ filter (fun e => (SqlExperiment.name e =? name)%string) rows = [].
Proof.
  intros H. induction rows as [|x rows IH]; simpl; [auto|].
  destruct (String.eqb_spec (SqlExperiment.name x) name) as [E|E].
  - exfalso. apply (H x); [left; reflexivity | exact E].
  - simpl. apply IH. intros e He. apply H. right. exact He.
Qed.

Lemma update_where_untouched {A} (p : A -> bool) (f : A -> A) (l : list A) :
  (forall x, In x l -> p x = false) -> update_where p f l = l.
Proof.
  unfold update_where. induction l as [|x l IH]; simpl; intros H; auto.
  rewrite (H x (or_introl eq_refl)). f_equal. apply IH.
  intros y Hy. apply H. right. exact Hy.
Qed.

Lemma falsy_name (name : string) : name <> ""%string -> falsy (Some name) = false.
Proof.
  intros H. simpl. destruct (String.eqb_spec name ""); congruence.
Qed.

Section Experiments.
Variable artifact_root_uri : string.

Lemma create_experiment_name_taken name location db :
  name <> ""%string ->
  existsb (fun e => (SqlExperiment.name e =? name)%string) (experiments db)
  = true ->
  create_experiment artifact_root_uri (Some name) location db
  = if falsy location
    then (Raise (Mlflow (already_exists_error name)), db)
    else (Raise (Mlflow (internal_error (IntegrityError
            "UNIQUE constraint failed: experiments.name"))), db).
Proof.
  intros Hn Ht. unfold create_experiment. rewrite (falsy_name _ Hn).
  run_store. simpl.
  destruct (falsy location); simpl; rewrite Ht; reflexivity.
Qed.

Lemma create_experiment_fresh name location db :
  name <> ""%string ->
  (forall e, In e (experiments db) -> SqlExperiment.name e <> name) ->
  falsy location = true ->
  let eid := next_experiment_id (experiments db) in
  create_experiment artifact_root_uri (Some name) location db
  = (Ok (str eid),
     with_experiments
       (fun rows => rows ++ [SqlExperiment.mk eid name
                               (Some (posixpath_join artifact_root_uri
                                        (str eid))) ACTIVE]) db).
Proof.
  intros Hn Hfree Hloc eid.
  destruct (name_not_taken _ _ Hfree) as [Hex Hfil].
  unfold create_experiment. rewrite (falsy_name _ Hn).
  run_store. simpl. rewrite Hloc. simpl. rewrite Hex. simpl.
  rewrite filter_app, Hfil. simpl. rewrite String.eqb_refl. simpl.
  fold eid. unfold _get_artifact_location.
  unfold with_experiments. simpl. f_equal. f_equal.
  unfold update_where. rewrite map_app. simpl.
  rewrite Z.eqb_refl. f_equal.
  apply (update_where_untouched _ _ (experiments db)).
  intros x Hx. apply Z.eqb_neq.
  pose proof (next_experiment_id_above _ _ Hx). fold eid in H. lia.
Qed.
End Experiments.

Section ExperimentProperties.
Variable artifact_root_uri : string.

(** C8 -- create_experiment with a valid name and no artifact location:
    unless the name is taken, in which case the call raises and commits
    nothing, the call returns the decimal string of the id the store has
    newly assigned, the committed row carries the location joined from the
    artifact root and that id, which ends the location, and get_experiment
    with that id returns the row at once. *)
Theorem create_experiment_default_location
  (db : DB) (name : string) (location : option string) :
  name <> ""%string ->
  falsy location = true ->
  (existsb (fun e => (SqlExperiment.name e =? name)%string)
           (experiments db) = true ->
   create_experiment artifact_root_uri (Some name) location db
   = (Raise (Mlflow (already_exists_error name)), db))
  /\ ((forall e, In e (experiments db) -> SqlExperiment.name e <> name) ->
      let eid := next_experiment_id (experiments db) in
      let row := SqlExperiment.mk eid name
                   (Some (posixpath_join artifact_root_uri (str eid)))
                   ACTIVE in
      exists db',
        create_experiment artifact_root_uri (Some name) location db
        = (Ok (str eid), db')
        /\ int (str eid) = Some eid
        /\ ~ In eid (experiment_keys db)
        /\ experiments db' = experiments db ++ [row]
        /\ (exists prefix,
              posixpath_join artifact_root_uri (str eid)
              = prefix +++ str eid)
        /\ get_experiment eid db' = (Ok row, db')).
Proof.
  intros Hn Hloc. split.
  - intros Ht.
    rewrite (create_experiment_name_taken _ _ _ _ Hn Ht), Hloc.
    reflexivity.
  - intros Hfree eid row.
    exists (with_experiments (fun rows => rows ++ [row]) db).
    split; [apply create_experiment_fresh; assumption|].
    split; [apply int_str|].
    split; [apply next_experiment_id_fresh|].
    split; [reflexivity|].
    split; [apply posixpath_join_suffix|].
    rewrite get_experiment_cases. unfold experiment_rows. simpl.
    rewrite filter_app. simpl. rewrite Z.eqb_refl.
    rewrite (filter_key_none SqlExperiment.experiment_id _ eid).
    + reflexivity.
    + intros x. apply Z.eqb_eq.
    + apply next_experiment_id_fresh.
Qed.
End ExperimentProperties.

Lemma create_experiment_default_location_witness :
  exists db',
    create_experiment "/mlruns" (Some "exp1"%string) None example_db
    = (Ok "2"%string, db')
    /\ get_experiment 2 db'
       = (Ok (SqlExperiment.mk 2 "exp1" (Some "/mlruns/2"%string) ACTIVE),
          db').
Proof.
  destruct (proj2 (create_experiment_default_location "/mlruns" example_db
                     "exp1" None ltac:(discriminate) eq_refl))
    as [db' [E [_ [_ [_ [_ G]]]]]].
  - simpl. intros e [<-|[<-|[]]]; discriminate.
  - exists db'. split; [exact E | exact G].
Defined.

Section DuplicateName.
Variable artifact_root_uri : string.

End DuplicateName.



(** ** Deleting and restoring an experiment *)

Lemma filter_update_where {A} (p : A -> bool) (f : A -> A) (l : list A) :
  (forall x, p (f x) = p x) ->
  filter p (update_where p f l) = map f (filter p l).
Proof.
  intros H. unfold update_where. induction l as [|x l IH]; simpl; auto.
  destruct (p x) eqn:E.
  - rewrite H, E. simpl. f_equal. exact IH.
  - rewrite E. exact IH.
Qed.

Lemma update_where_undo {A} (p : A -> bool) (f g : A -> A) (l : list A) :
  (forall x, p (f x) = p x) ->
  (forall x, In x l -> p x = true -> g (f x) = x) ->
  update_where p g (update_where p f l) = l.
Proof.
  intros Hp. unfold update_where. induction l as [|x l IH]; simpl; intros H;
    auto.
  f_equal.
  - destruct (p x) eqn:E.
    + rewrite Hp, E. apply H; auto.
    + rewrite E. reflexivity.
  - apply IH. intros y Hy. apply H. right. exact Hy.
Qed.

Lemma get_experiment_in_stage id st view s e :
  view_type_to_stages view = [st] ->
  pending s = [] -> experiment_rows id (txn s) = [e] ->
  SqlExperiment.lifecycle_stage e = st ->
  _get_experiment id view s = (Ok e, s).
Proof.
  intros Hv Hp He Hs. unfold _get_experiment. rewrite default_id.
  rewrite (bind_ok _ _ _ _ _ (query_clean _ s Hp)).
  rewrite (list_experiments_stage id st view _ Hv), He. simpl.
  rewrite Hs. destruct st; reflexivity.
Qed.

Lemma set_stage_in_view id view st st' db e :
  view_type_to_stages view = [st] ->
  experiment_rows id db = [e] -> SqlExperiment.lifecycle_stage e = st ->
  ManagedSessionMaker
    (experiment <- _get_experiment id view ;;
     register (SetExperimentStage
                 (SqlExperiment.experiment_id experiment) st') ;;
     _save_to_db (Single Loaded)) db
  = (Ok tt,
     with_experiments
       (update_where (fun x => SqlExperiment.experiment_id x =? id)
                     (set_experiment_stage st')) db).
Proof.
  intros Hv He Hs.
  assert (SqlExperiment.experiment_id e = id) as Hid.
  { apply filter_single_in in He. destruct He as [_ He].
    apply Z.eqb_eq in He. exact He. }
  eapply managed_ok.
  - rewrite (bind_ok _ _ _ _ _
               (get_experiment_in_stage id st view (SessionMaker db) e
                  Hv eq_refl He Hs)).
    reflexivity.
  - simpl. rewrite Hid. reflexivity.
Qed.

(** C9 -- on an active experiment, delete_experiment and then
    restore_experiment both return and leave the store exactly as it was
    before the two calls.  Each call rewrites the lifecycle stage of the
    rows of that id and nothing else: the other attributes of the
    experiment, the other experiments, and the runs, metrics, latest
    metrics, params and tags are as before. *)
Theorem delete_then_restore_experiment
  (db : DB) (experiment_id : Z) (e : SqlExperiment.t) :
  experiment_rows experiment_id db = [e] ->
  SqlExperiment.lifecycle_stage e = ACTIVE ->
  let stage_to st :=
    with_experiments
      (update_where (fun x => SqlExperiment.experiment_id x =? experiment_id)
                    (set_experiment_stage st)) in
  let db1 := stage_to DELETED db in
  delete_experiment experiment_id db = (Ok tt, db1)
  /\ experiment_rows experiment_id db1 = [set_experiment_stage DELETED e]
  /\ restore_experiment experiment_id db1 = (Ok tt, stage_to ACTIVE db1)
  /\ stage_to ACTIVE db1 = db
  /\ (runs db1 = runs db /\ metrics db1 = metrics db
      /\ latest_metrics db1 = latest_metrics db /\ params db1 = params db
      /\ tags db1 = tags db /\ experiment_tags db1 = experiment_tags db)
  /\ (forall st x,
        SqlExperiment.experiment_id (set_experiment_stage st x)
        = SqlExperiment.experiment_id x
        /\ SqlExperiment.name (set_experiment_stage st x)
           = SqlExperiment.name x
        /\ SqlExperiment.artifact_location (set_experiment_stage st x)
           = SqlExperiment.artifact_location x).
Proof.
  intros He Hs stage_to db1.
  assert (experiment_rows experiment_id db1 = [set_experiment_stage DELETED e])
    as He1.
  { unfold db1, stage_to, experiment_rows. simpl.
    rewrite filter_update_where; [|reflexivity].
    unfold experiment_rows in He. rewrite He. reflexivity. }
  repeat split.
  - unfold delete_experiment.
    exact (set_stage_in_view experiment_id ACTIVE_ONLY ACTIVE DELETED db e
             eq_refl He Hs).
  - exact He1.
  - unfold restore_experiment.
    exact (set_stage_in_view experiment_id DELETED_ONLY DELETED ACTIVE db1
             (set_experiment_stage DELETED e) eq_refl He1 eq_refl).
  - unfold stage_to, db1, with_experiments. simpl.
    destruct db as [exps rs ms ls ps ts ets]. simpl. f_equal.
    apply update_where_undo; [reflexivity|].
    intros x Hx Hp.
    assert (x = e) as ->.
    { apply (filter_single_forall _ _ _ He); assumption. }
    destruct e as [i n l st]. simpl in Hs. subst st. reflexivity.
Qed.

Lemma delete_then_restore_experiment_witness :
  (delete_experiment 0 ;; restore_experiment 0)%eff example_db
  = (Ok tt, example_db).
Proof.
  destruct (delete_then_restore_experiment example_db 0
              experiment_default
              eq_refl eq_refl) as [D [_ [R [E _]]]].
  unfold bind. rewrite D, R, E. reflexivity.
Defined.

(** ** Looking an experiment up *)

(** C10 -- with experiment ids as the primary key, get_experiment returns
    every experiment whose id is in the table, in whatever lifecycle stage
    (a deleted one too), changes nothing, and raises
    RESOURCE_DOES_NOT_EXIST exactly when no row has that id. *)
Theorem get_experiment_any_stage (db : DB) (experiment_id : Z) :
  NoDup (experiment_keys db) ->
  (forall e, In e (experiments db) ->
             SqlExperiment.experiment_id e = experiment_id ->
             get_experiment experiment_id db = (Ok e, db))
  /\ ((exists msg db',
         get_experiment experiment_id db
         = (Raise (Mlflow (mkMlflowException msg RESOURCE_DOES_NOT_EXIST)),
            db'))
      <-> ~ In experiment_id (experiment_keys db)).
Proof.
  intros Hnd. split.
  - intros e Hin Hid. rewrite get_experiment_cases.
    unfold experiment_rows.
    rewrite (filter_key_single SqlExperiment.experiment_id _ experiment_id
               (experiments db) e); auto.
    intros x. apply Z.eqb_eq.
  - rewrite get_experiment_cases. split.
    + intros [msg [db' H]] Hin.
      unfold experiment_keys in Hin. apply in_map_iff in Hin.
      destruct Hin as [e [Hid He]].
      unfold experiment_rows in H.
      rewrite (filter_key_single SqlExperiment.experiment_id _ experiment_id
                 (experiments db) e) in H; auto.
      * discriminate H.
      * intros x. apply Z.eqb_eq.
    + intros Hn. unfold experiment_rows.
      rewrite (filter_key_none SqlExperiment.experiment_id _ experiment_id);
        auto.
      * eexists. eexists. reflexivity.
      * intros x. apply Z.eqb_eq.
Qed.

Lemma get_experiment_any_stage_witness :
  get_experiment 1 example_db
  = (Ok experiment_old,
     example_db).
Proof.
  assert (NoDup (experiment_keys example_db)) as Hnd.
  { simpl. constructor.
    - intros [H|[]]. discriminate H.
    - constructor; [intros []|constructor]. }
  apply (proj1 (get_experiment_any_stage example_db 1 Hnd)).
  - right. left. reflexivity.
  - reflexivity.
Defined.

(** ** Batches *)

Lemma log_param_raise_unchanged run_id param db e db' :
  log_param run_id param db = (Raise e, db') -> db' = db.
Proof.
  unfold log_param. run_store. simpl.
  destruct (filter _ (runs db)) as [|r [|r' rs]]; simpl;
    try (intros H; inversion H; reflexivity).
  destruct (SqlRun.lifecycle_stage r); simpl;
    try (intros H; inversion H; reflexivity).
  destruct (filter _ (params db)) as [|x xs]; simpl;
    try (intros H; inversion H; reflexivity).
  destruct (existsb _ (params db)); simpl;
    try (intros H; inversion H; reflexivity).
  destruct (map SqlParam.value _); simpl; intros H; inversion H; reflexivity.
Qed.

Section Batch.
Variable _validate_metric : string -> float -> Z -> Z -> option Exn.
Variable _validate_tag : string -> string -> option Exn.
Variable _validate_run_id : string -> option Exn.
Variable _validate_batch_log_data :
  list Metric.t -> list Param.t -> list RunTag.t -> option Exn.
Variable _validate_batch_log_limits :
  list Metric.t -> list Param.t -> list RunTag.t -> option Exn.

Lemma log_metric_raise_unchanged run_id metric db e db' :
  log_metric _validate_metric run_id metric db = (Raise e, db') -> db' = db.
Proof.
  unfold log_metric.
  destruct (_validate_metric _ _ _ _) as [x|];
    [intros H; inversion H; reflexivity|].
  destruct (stored_value (Metric.value metric)) as [v n].
  run_store. simpl.
  destruct (filter _ (runs db)) as [|r [|r' rs]]; simpl;
    try (intros H; inversion H; reflexivity).
  destruct (SqlRun.lifecycle_stage r); simpl;
    try (intros H; inversion H; reflexivity).
  destruct (filter _ (metrics db)) as [|x xs]; simpl;
    try (intros H; inversion H; reflexivity).
  destruct (filter _ (latest_metrics db)) as [|l [|l' ls]]; simpl;
    try (intros H; inversion H; reflexivity).
  destruct (_compare_metrics _ l); simpl; intros H; inversion H.
Qed.

Lemma set_tag_raise_unchanged run_id tag db e db' :
  set_tag _validate_tag run_id tag db = (Raise e, db') -> db' = db.
Proof.
  unfold set_tag. run_store. simpl.
  destruct (_validate_tag _ _) as [[x|x]|]; simpl;
    try (intros H; inversion H; reflexivity).
  destruct (filter _ (runs db)) as [|r [|r' rs]]; simpl;
    try (intros H; inversion H; reflexivity).
  destruct (SqlRun.lifecycle_stage r); simpl;
    intros H; inversion H; reflexivity.
Qed.

Lemma apply_item_raise_unchanged run_id item db e db' :
  apply_item _validate_metric _validate_tag run_id item db = (Raise e, db')
  -> db' = db.
Proof.
  destruct item; simpl.
  - apply log_param_raise_unchanged.
  - apply log_metric_raise_unchanged.
  - apply set_tag_raise_unchanged.
Qed.

Lemma try_reraise_loop {A} (f : A -> Store unit) (g : A -> BatchItem)
  (run_id : string) (xs : list A) (k : Store unit) (rest : list BatchItem) :
  (forall x db, f x db = (apply_item _validate_metric _validate_tag) run_id (g x) db) ->
  (forall db, try_reraise k db = (apply_items _validate_metric _validate_tag) run_id rest db) ->
  forall db,
    try_reraise (for_each xs f ;; k) db
    = (apply_items _validate_metric _validate_tag) run_id (map g xs ++ rest) db.
Proof.
  intros Hf Hk. induction xs as [|x xs IH]; intros db.
  - simpl. rewrite <- Hk. unfold try_reraise, bind, ret. reflexivity.
  - specialize (IH). simpl.
    unfold try_reraise, bind in *. rewrite Hf.
    destruct ((apply_item _validate_metric _validate_tag) run_id (g x) db) as [[u|[e|e]] db'];
      [apply IH | reflexivity | reflexivity].
Qed.

Lemma try_reraise_last_loop {A} (f : A -> Store unit) (g : A -> BatchItem)
  (run_id : string) (xs : list A) :
  (forall x db, f x db = (apply_item _validate_metric _validate_tag) run_id (g x) db) ->
  forall db, try_reraise (for_each xs f) db
             = (apply_items _validate_metric _validate_tag) run_id (map g xs) db.
Proof.
  intros Hf. induction xs as [|x xs IH]; intros db.
  - reflexivity.
  - simpl. unfold try_reraise, bind in *. rewrite Hf.
    destruct ((apply_item _validate_metric _validate_tag) run_id (g x) db) as [[u|[e|e]] db'];
      [apply IH | reflexivity | reflexivity].
Qed.

Lemma apply_items_raise run_id items db e db' :
  (apply_items _validate_metric _validate_tag) run_id items db = (Raise e, db') ->
  exists before item after e0,
    items = before ++ item :: after
    /\ (apply_items _validate_metric _validate_tag) run_id before db = (Ok tt, db')
    /\ (apply_item _validate_metric _validate_tag) run_id item db' = (Raise e0, db')
    /\ e = reraised e0.
Proof.
  revert db. induction items as [|i items IH]; simpl; intros db H.
  - discriminate H.
  - destruct ((apply_item _validate_metric _validate_tag) run_id i db) as [[u|[x|x]] db1] eqn:E.
    + destruct (IH db1 H) as (before & item & after & e0 & Hi & Hb & Hf & He).
      exists (i :: before), item, after, e0. subst items.
      repeat split; auto. simpl. rewrite E. exact Hb.
    + inversion H; subst.
      pose proof (apply_item_raise_unchanged _ _ _ _ _ E). subst db'.
      exists [], i, items, (Mlflow x). repeat split; auto.
    + inversion H; subst.
      pose proof (apply_item_raise_unchanged _ _ _ _ _ E). subst db'.
      exists [], i, items, (Other x). repeat split; auto.
Qed.

(** C5 -- a batch that passes the validations, on an active run:
    log_batch is the params, then the metrics, then the tags, each applied
    by its single-item operation in a session of its own to the store the
    earlier items left.  When an item raises, the batch ends there: the
    store is the one the items before it committed, and the error is the
    item's own when it is an MlflowException and an INTERNAL_ERROR
    MlflowException that wraps it otherwise. *)
Theorem log_batch_applies_items_in_order
  (db : DB) (run_id : string) (r : SqlRun.t)
  (metrics : list Metric.t) (params : list Param.t) (tags : list RunTag.t) :
  _validate_run_id run_id = None ->
  _validate_batch_log_data metrics params tags = None ->
  _validate_batch_log_limits metrics params tags = None ->
  run_rows run_id db = [r] ->
  SqlRun.lifecycle_stage r = ACTIVE ->
  let items := batch_items metrics params tags in
  let batch :=
    log_batch _validate_metric _validate_tag _validate_run_id
      _validate_batch_log_data _validate_batch_log_limits
      run_id metrics params tags in
  batch db = apply_items _validate_metric _validate_tag run_id items db
  /\ forall e db',
       batch db = (Raise e, db') ->
       exists before item after e0,
         items = before ++ item :: after
         /\ apply_items _validate_metric _validate_tag run_id before db
            = (Ok tt, db')
         /\ apply_item _validate_metric _validate_tag run_id item db'
            = (Raise e0, db')
         /\ e = reraised e0.
Proof.
  intros V1 V2 V3 Hr Hs items batch.
  assert (batch db
          = apply_items _validate_metric _validate_tag run_id items db)
    as Hbatch.
  { unfold batch, log_batch. rewrite V1, V2, V3. unfold check.
    rewrite !(bind_ok _ _ _ _ _ (eq_refl : ret tt db = (Ok tt, db))).
    assert (ManagedSessionMaker
              (run <- _get_run run_id ;; _check_run_is_active run) db
            = (Ok tt, db)) as G.
    { eapply managed_ok.
      - rewrite (bind_ok _ _ _ _ _
                   (get_run_found run_id (SessionMaker db) r eq_refl Hr)).
        unfold _check_run_is_active. rewrite Hs. reflexivity.
      - reflexivity. }
    rewrite (bind_ok _ _ _ _ _ G).
    unfold items, batch_items.
    apply (try_reraise_loop (log_param run_id) ItemParam);
      [reflexivity|].
    intros db1.
    apply (try_reraise_loop (log_metric _validate_metric run_id)
                            ItemMetric);
      [reflexivity|].
    apply (try_reraise_last_loop (set_tag _validate_tag run_id) ItemTag).
    reflexivity. }
  split; [exact Hbatch|].
  intros e db' H. rewrite Hbatch in H.
  apply apply_items_raise. exact H.
Qed.
End Batch.

Lemma log_batch_applies_items_in_order_witness :
  log_batch accept_metric accept_tag accept_run_id accept_batch accept_batch
    "r1" [acc half 100 0]
    [Param.mk "batch" "32"; Param.mk "lr" "0.2"; Param.mk "depth" "3"]
    [RunTag.mk "team" "b"] example_db
  = (Raise (Mlflow (param_conflict "lr" "0.1" "r1" "0.2")),
     example_db_batch).
Proof.
  rewrite (proj1 (log_batch_applies_items_in_order accept_metric accept_tag
                    accept_run_id accept_batch accept_batch example_db "r1"
                    run_r1
                    [acc half 100 0]
                    [Param.mk "batch" "32"; Param.mk "lr" "0.2";
                     Param.mk "depth" "3"]
                    [RunTag.mk "team" "b"]
                    eq_refl eq_refl eq_refl eq_refl eq_refl)).
  reflexivity.
Defined.

(* ===================================================================== *)
(** * Further properties of the store *)
(* ===================================================================== *)

(** ** Every operation is one session's worth, or nothing *)

Lemma atomic_unchanged {A} (db : DB) (r : Result A) : atomic db (r, db).
Proof. split; [apply effect_none | reflexivity]. Qed.

Lemma atomic_returned {A} (db db' : DB) (a : A) :
  Effect db db' -> atomic db (Ok a, db').
Proof. intros H. split; [exact H | intros e Q; discriminate Q]. Qed.

Lemma atomic_then_ret {A} (op : Store A) (db : DB) :
  atomic db (op db) -> atomic db ((op ;; ret tt) db).
Proof.
  unfold atomic, bind, ret. destruct (op db) as [[a|e] db']; simpl.
  - intros [H _]. split; [exact H | intros e Q; discriminate Q].
  - intros [H Q]. split; [exact H|]. intros e' _. apply (Q e). reflexivity.
Qed.

Lemma name_free (name : string) (rows : list SqlExperiment.t) :
  existsb (fun e => (SqlExperiment.name e =? name)%string) rows = false ->
  forall e, In e rows -> SqlExperiment.name e <> name.
Proof.
  intros H e He E.
  assert (existsb (fun e => (SqlExperiment.name e =? name)%string) rows
          = true) as T.
  { apply existsb_exists. exists e. split; [exact He|].
    apply String.eqb_eq. exact E. }
  congruence.
Qed.

Lemma create_experiment_explicit root name location db :
  name <> ""%string ->
  existsb (fun e => (SqlExperiment.name e =? name)%string) (experiments db)
  = false ->
  falsy location = false ->
  create_experiment root (Some name) location db
  = (Ok (str (next_experiment_id (experiments db))),
     with_experiments
       (fun rows => rows ++ [SqlExperiment.mk
                               (next_experiment_id (experiments db))
                               name location ACTIVE]) db).
Proof.
  intros Hn Hex Hloc. unfold create_experiment. rewrite (falsy_name _ Hn).
  run_store. simpl. rewrite Hloc. simpl. rewrite Hex. reflexivity.
Qed.

Lemma create_experiment_atomic root name location db :
  atomic db (create_experiment root name location db).
Proof.
  destruct name as [n|]; [|apply atomic_unchanged].
  destruct (String.eqb_spec n "") as [->|Hn]; [apply atomic_unchanged|].
  destruct (existsb (fun e => (SqlExperiment.name e =? n)%string)
                    (experiments db)) eqn:Hex.
  - rewrite (create_experiment_name_taken root n location db Hn Hex).
    destruct (falsy location); apply atomic_unchanged.
  - destruct (falsy location) eqn:Hloc.
    + rewrite (create_experiment_fresh root n location db Hn
                 (name_free _ _ Hex) Hloc).
      apply atomic_returned. apply effect_new_experiment. exact Hex.
    + rewrite (create_experiment_explicit root n location db Hn Hex Hloc).
      apply atomic_returned. apply effect_new_experiment. exact Hex.
Qed.

Lemma delete_experiment_atomic id db : atomic db (delete_experiment id db).
Proof.
  unfold delete_experiment. run_store. simpl.
  destruct (_list_experiments _ _ _ db) as [|e [|e' rows]]; simpl;
    try apply atomic_unchanged.
  apply atomic_returned. apply effect_experiment_stage.
Qed.

Lemma restore_experiment_atomic id db : atomic db (restore_experiment id db).
Proof.
  unfold restore_experiment. run_store. simpl.
  destruct (_list_experiments _ _ _ db) as [|e [|e' rows]]; simpl;
    try apply atomic_unchanged.
  apply atomic_returned. apply effect_experiment_stage.
Qed.

Lemma rename_experiment_atomic id new_name db :
  atomic db (rename_experiment id new_name db).
Proof.
  unfold rename_experiment. run_store. simpl.
  destruct (_list_experiments _ _ _ db) as [|e [|e' rows]]; simpl;
    try apply atomic_unchanged.
  destruct (SqlExperiment.lifecycle_stage e); simpl;
    try apply atomic_unchanged.
  destruct (existsb _ (experiments db)) eqn:E; simpl;
    try apply atomic_unchanged.
  apply atomic_returned. apply effect_experiment_name. exact E.
Qed.

Lemma update_run_info_atomic run_id status end_time db :
  atomic db (update_run_info run_id status end_time db).
Proof.
  unfold update_run_info. run_store. simpl.
  destruct (filter _ (runs db)) as [|r [|r' rows]]; simpl;
    try apply atomic_unchanged.
  destruct (SqlRun.lifecycle_stage r); simpl; try apply atomic_unchanged.
  apply atomic_returned. apply effect_run_info.
Qed.

Lemma delete_run_atomic run_id db : atomic db (delete_run run_id db).
Proof.
  unfold delete_run. run_store. simpl.
  destruct (filter _ (runs db)) as [|r [|r' rows]]; simpl;
    try apply atomic_unchanged.
  destruct (SqlRun.lifecycle_stage r); simpl; try apply atomic_unchanged.
  apply atomic_returned. apply effect_run_stage.
Qed.

Lemma restore_run_atomic run_id db : atomic db (restore_run run_id db).
Proof.
  unfold restore_run, _check_run_is_deleted. run_store. simpl.
  destruct (filter _ (runs db)) as [|r [|r' rows]]; simpl;
    try apply atomic_unchanged.
  destruct (SqlRun.lifecycle_stage r); simpl; try apply atomic_unchanged.
  apply atomic_returned. apply effect_run_stage.
Qed.

Lemma stored_value_finite (v : float) :
  finite (fst (stored_value v)) = true.
Proof.
  unfold stored_value, finite.
  destruct v as [[]|[]| |[] m e]; reflexivity.
Qed.

Lemma log_metric_atomic validate run_id metric db :
  atomic db (log_metric validate run_id metric db).
Proof.
  unfold log_metric.
  destruct (validate _ _ _ _) as [x|]; [apply atomic_unchanged|].
  pose proof (stored_value_finite (Metric.value metric)) as Hfin.
  destruct (stored_value (Metric.value metric)) as [v n]. simpl in Hfin.
  run_store. simpl.
  destruct (filter _ (runs db)) as [|r [|r' rs]]; simpl;
    try apply atomic_unchanged.
  destruct (SqlRun.lifecycle_stage r); simpl; try apply atomic_unchanged.
  destruct (filter _ (metrics db)) as [|x xs]; simpl;
    try apply atomic_unchanged.
  destruct (filter _ (latest_metrics db)) as [|l [|l' ls]]; simpl;
    try apply atomic_unchanged.
  - apply atomic_returned.
    apply (effect_fact_latest db
             (SqlMetric.mk run_id (Metric.key metric) v
                (Metric.timestamp metric) (Metric.step metric) n)).
    exact Hfin.
  - destruct (_compare_metrics _ l); simpl; apply atomic_returned.
    + apply (effect_fact_latest db
               (SqlMetric.mk run_id (Metric.key metric) v
                  (Metric.timestamp metric) (Metric.step metric) n)).
      exact Hfin.
    + apply (effect_fact db
               (SqlMetric.mk run_id (Metric.key metric) v
                  (Metric.timestamp metric) (Metric.step metric) n)).
      exact Hfin.
Qed.

Lemma log_param_atomic run_id param db : atomic db (log_param run_id param db).
Proof.
  unfold log_param. run_store. simpl.
  destruct (filter _ (runs db)) as [|r [|r' rs]]; simpl;
    try apply atomic_unchanged.
  destruct (SqlRun.lifecycle_stage r); simpl; try apply atomic_unchanged.
  destruct (filter _ (params db)) as [|x xs]; simpl;
    try apply atomic_unchanged.
  destruct (existsb _ (params db)) eqn:E; simpl.
  - destruct (map SqlParam.value _); apply atomic_unchanged.
  - apply atomic_returned.
    apply (effect_param db
             (SqlParam.mk run_id (Param.key param) (Param.value param))).
    exact E.
Qed.

Lemma set_tag_atomic validate run_id tag db :
  atomic db (set_tag validate run_id tag db).
Proof.
  unfold set_tag. run_store. simpl.
  destruct (validate _ _) as [[x|x]|]; simpl; try apply atomic_unchanged.
  destruct (filter _ (runs db)) as [|r [|r' rs]]; simpl;
    try apply atomic_unchanged.
  destruct (SqlRun.lifecycle_stage r); simpl; try apply atomic_unchanged.
  apply atomic_returned. apply effect_tag.
Qed.

Lemma delete_tag_atomic run_id key db : atomic db (delete_tag run_id key db).
Proof.
  unfold delete_tag. run_store. simpl.
  destruct (filter _ (runs db)) as [|r [|r' rs]]; simpl;
    try apply atomic_unchanged.
  destruct (SqlRun.lifecycle_stage r); simpl; try apply atomic_unchanged.
  destruct (filter _ (tags db)) as [|t [|t' ts]]; simpl;
    try apply atomic_unchanged.
  apply atomic_returned. apply effect_delete_tag.
Qed.

Lemma set_experiment_tag_atomic validate id tag db :
  atomic db (set_experiment_tag validate id tag db).
Proof.
  unfold set_experiment_tag.
  destruct (validate _ _) as [x|]; [apply atomic_unchanged|].
  run_store. simpl.
  destruct (_list_experiments _ _ _ db) as [|e [|e' rows]]; simpl;
    try apply atomic_unchanged.
  destruct (SqlExperiment.lifecycle_stage e); simpl;
    try apply atomic_unchanged.
  apply atomic_returned. apply effect_experiment_tag.
Qed.

Lemma effects_one (db db' : DB) : Effect db db' -> Effects db db'.
Proof. intros H. apply (effects_step db db' db' H). apply effects_none. Qed.

Lemma effects_trans (db1 db2 db3 : DB) :
  Effects db1 db2 -> Effects db2 db3 -> Effects db1 db3.
Proof.
  intros H. induction H as [db|db dba dbb E _ IH]; intros Q; [exact Q|].
  apply (effects_step db dba db3 E). apply IH. exact Q.
Qed.

Lemma effects_bind {A B} (m : Store A) (k : A -> Store B) (db : DB) :
  Effects db (snd (m db)) ->
  (forall a db1, Effects db1 (snd (k a db1))) ->
  Effects db (snd (bind m k db)).
Proof.
  intros Hm Hk. unfold bind. destruct (m db) as [[a|e] db1]; simpl in *.
  - apply (effects_trans db db1); [exact Hm | apply Hk].
  - exact Hm.
Qed.

Lemma effects_try_reraise {A} (body : Store A) (db : DB) :
  Effects db (snd (body db)) -> Effects db (snd (try_reraise body db)).
Proof.
  unfold try_reraise. destruct (body db) as [[a|[e|e]] db1]; auto.
Qed.

Lemma effects_for_each {A} (f : A -> Store unit) (xs : list A) :
  (forall x db, atomic db (f x db)) ->
  forall db, Effects db (snd (for_each xs f db)).
Proof.
  intros Hf. induction xs as [|x xs IH]; intros db; simpl.
  - apply effects_none.
  - apply effects_bind; [|intros _ db1; apply IH].
    apply effects_one. apply Hf.
Qed.

Lemma effects_check (v : option Exn) (db : DB) :
  Effects db (snd (check v db)).
Proof. destruct v; apply effects_none. Qed.

Lemma run_check_reads run_id db :
  snd (ManagedSessionMaker
         (run <- _get_run run_id ;; _check_run_is_active run) db) = db.
Proof.
  run_store. simpl.
  destruct (filter _ (runs db)) as [|r [|r' rs]]; simpl; try reflexivity.
  destruct (SqlRun.lifecycle_stage r); reflexivity.
Qed.

Lemma call_effects (cfg : Settings) (c : Call) (db : DB) :
  Effects db (snd (call cfg c db)).
Proof.
  destruct c; simpl;
    try (apply effects_one;
         first [ apply atomic_then_ret, create_experiment_atomic
               | apply delete_experiment_atomic
               | apply restore_experiment_atomic
               | apply rename_experiment_atomic
               | apply atomic_then_ret, update_run_info_atomic
               | apply delete_run_atomic
               | apply restore_run_atomic
               | apply log_metric_atomic
               | apply log_param_atomic
               | apply set_tag_atomic
               | apply delete_tag_atomic
               | apply set_experiment_tag_atomic ]).
  unfold log_batch.
  apply effects_bind; [apply effects_check | intros _ db1].
  apply effects_bind; [apply effects_check | intros _ db2].
  apply effects_bind; [apply effects_check | intros _ db3].
  apply effects_bind; [rewrite run_check_reads; apply effects_none|].
  intros _ db4. apply effects_try_reraise.
  apply effects_bind;
    [apply effects_for_each; intros; apply log_param_atomic | intros _ db5].
  apply effects_bind;
    [apply effects_for_each; intros; apply log_metric_atomic | intros _ db6].
  apply effects_for_each; intros; apply set_tag_atomic.
Qed.

Lemma perform_effects (cfg : Settings) (calls : list Call) (db : DB) :
  Effects db (perform cfg calls db).
Proof.
  unfold perform. revert db.
  induction calls as [|c calls IH]; intros db; simpl.
  - apply effects_none.
  - apply (effects_trans db (snd (call cfg c db)));
      [apply call_effects | apply IH].
Qed.

(** ** What no session breaks *)

Lemma map_update_where_key {A K} (key : A -> K) (p : A -> bool) (f : A -> A)
  (l : list A) :
  (forall x, key (f x) = key x) ->
  map key (update_where p f l) = map key l.
Proof.
  intros H. unfold update_where. rewrite map_map. apply map_ext.
  intros x. destruct (p x); auto.
Qed.

Lemma upsert_in {A} (same : A -> A -> bool) (x y : A) (rows : list A) :
  In y (upsert same x rows) -> y = x \/ In y rows.
Proof.
  unfold upsert. destruct (existsb (same x) rows).
  - intros H. apply in_map_iff in H. destruct H as [z [E Hz]].
    destruct (same x z); subst; auto.
  - intros H. apply in_app_or in H. destruct H as [H|[H|[]]]; auto.
Qed.

Lemma upsert_NoDup {A K} (key : A -> K) (same : A -> A -> bool) (x : A)
  (rows : list A) :
  (forall a b, same a b = true <-> key b = key a) ->
  NoDup (map key rows) -> NoDup (map key (upsert same x rows)).
Proof.
  intros Hs Hnd. unfold upsert. destruct (existsb (same x) rows) eqn:E.
  - rewrite map_map. rewrite (map_ext _ key); [exact Hnd|].
    intros y. destruct (same x y) eqn:S; auto.
    apply Hs in S. congruence.
  - rewrite map_app. simpl. apply NoDup_snoc; [exact Hnd|].
    intro H. apply in_map_iff in H. destruct H as [y [Hk Hy]].
    assert (existsb (same x) rows = true) as T.
    { apply existsb_exists. exists y. split; [exact Hy|].
      apply Hs. exact Hk. }
    congruence.
Qed.

Lemma NoDup_map_filter {A K} (key : A -> K) (p : A -> bool) (l : list A) :
  NoDup (map key l) -> NoDup (map key (filter p l)).
Proof.
  induction l as [|x l IH]; simpl; intros H; [constructor|].
  inversion H as [|? ? Hn Hnd]; subst.
  destruct (p x); simpl; [|apply IH; exact Hnd].
  constructor; [|apply IH; exact Hnd].
  intro Q. apply Hn. apply in_map_iff in Q. destruct Q as [y [E Hy]].
  apply filter_In in Hy. rewrite <- E. apply in_map. apply Hy.
Qed.

Lemma same_tag_key_eq (x y : SqlTag.t) :
  same_tag_key x y = true <-> tag_key y = tag_key x.
Proof.
  unfold same_tag_key, tag_key. rewrite string_pair_eqb.
  split; intros H; inversion H; congruence.
Qed.

Lemma same_experiment_tag_key_eq (x y : SqlExperimentTag.t) :
  same_experiment_tag_key x y = true
  <-> experiment_tag_key y = experiment_tag_key x.
Proof.
  unfold same_experiment_tag_key, experiment_tag_key.
  rewrite andb_true_iff, Z.eqb_eq, String.eqb_eq. split.
  - intros [E1 E2]. rewrite E1, E2. reflexivity.
  - intros H. inversion H. auto.
Qed.

Lemma renamed_names_NoDup (id : Z) (name : string)
  (rows : list SqlExperiment.t) :
  NoDup (map SqlExperiment.experiment_id rows) ->
  NoDup (map SqlExperiment.name rows) ->
  existsb (fun e => (SqlExperiment.name e =? name)%string
                    && negb (SqlExperiment.experiment_id e =? id)) rows
  = false ->
  NoDup (map SqlExperiment.name
           (update_where (fun e => SqlExperiment.experiment_id e =? id)
                         (set_experiment_name name) rows)).
Proof.
  induction rows as [|x rows IH]; simpl; intros Hid Hnm Hex;
    [constructor|].
  inversion Hid as [|? ? Hidx Hid']; subst.
  inversion Hnm as [|? ? Hnmx Hnm']; subst.
  apply orb_false_iff in Hex. destruct Hex as [Hx Hex].
  assert (forall y, In y rows -> SqlExperiment.experiment_id y <> id ->
                    SqlExperiment.name y <> name) as Hother.
  { intros y Hy Hne E.
    assert (existsb (fun e => (SqlExperiment.name e =? name)%string
                              && negb (SqlExperiment.experiment_id e =? id))
                    rows = true) as T.
    { apply existsb_exists. exists y. split; [exact Hy|].
      apply andb_true_iff. split; [apply String.eqb_eq; exact E|].
      apply negb_true_iff. apply Z.eqb_neq. exact Hne. }
    congruence. }
  destruct (Z.eqb_spec (SqlExperiment.experiment_id x) id) as [E|E].
  - rewrite update_where_untouched.
    + simpl. constructor; [|exact Hnm'].
      intro H. apply in_map_iff in H. destruct H as [y [Hy1 Hy2]].
      apply (Hother y Hy2); [|exact Hy1].
      intro Q. apply Hidx. rewrite E, <- Q. apply in_map. exact Hy2.
    + intros y Hy. apply Z.eqb_neq. intro Q. apply Hidx.
      rewrite E, <- Q. apply in_map. exact Hy.
  - constructor; [|apply IH; assumption].
    intro H. apply in_map_iff in H. destruct H as [y [Hy1 Hy2]].
    unfold update_where in Hy2. apply in_map_iff in Hy2.
    destruct Hy2 as [z [Hz1 Hz2]].
    destruct (SqlExperiment.experiment_id z =? id); subst y.
    + simpl in Hy1, Hx. rewrite andb_true_r in Hx.
      apply String.eqb_neq in Hx. congruence.
    + apply Hnmx. rewrite <- Hy1. apply in_map. exact Hz2.
Qed.

Lemma effect_keeps_keys (db db' : DB) :
  Effect db db' -> keys_ok db -> keys_ok db'.
Proof.
  intros E (Hid & Hname & Hrun & Hparam & Hlatest & Htag & Hetag).
  unfold keys_ok, experiment_keys, experiment_names, run_keys in *.
  destruct E; simpl; repeat split; auto.
  - rewrite map_app. simpl. apply NoDup_snoc; [exact Hid|].
    apply next_experiment_id_fresh.
  - rewrite map_app. simpl. apply NoDup_snoc; [exact Hname|].
    intro Q. apply in_map_iff in Q. destruct Q as [e [E1 E2]].
    exact (name_free _ _ H e E2 E1).
  - rewrite map_update_where_key; auto.
  - rewrite map_update_where_key; auto.
  - rewrite map_update_where_key; auto.
  - apply renamed_names_NoDup; assumption.
  - rewrite map_update_where_key; auto.
  - rewrite map_update_where_key; auto.
  - apply (upsert_NoDup latest_key); [apply same_latest_key_eq | exact Hlatest].
  - rewrite map_app. simpl. apply NoDup_snoc; [exact Hparam|].
    intro Q. apply in_map_iff in Q. destruct Q as [q [E1 E2]].
    assert (existsb (same_param_key p) (params db) = true) as T.
    { apply existsb_exists. exists q. split; [exact E2|].
      apply same_param_key_eq. exact E1. }
    congruence.
  - apply (upsert_NoDup tag_key); [apply same_tag_key_eq | exact Htag].
  - apply NoDup_map_filter. exact Htag.
  - apply (upsert_NoDup experiment_tag_key);
      [apply same_experiment_tag_key_eq | exact Hetag].
Qed.

Lemma effects_keep_keys (db db' : DB) :
  Effects db db' -> keys_ok db -> keys_ok db'.
Proof.
  intros H. induction H as [db|db dba dbb E _ IH]; auto.
  intros K. apply IH. apply (effect_keeps_keys db dba E K).
Qed.

(** X1 -- the uniqueness invariants of the tables survive every sequence of
    writing calls, whatever each call returns or raises: experiment ids and
    names, run ids, the (run, key) of params, of latest metrics and of tags,
    and the (experiment, key) of experiment tags stay free of duplicates. *)
Theorem keys_stay_unique (cfg : Settings) (calls : list Call) (db : DB) :
  keys_ok db -> keys_ok (perform cfg calls db).
Proof.
  apply effects_keep_keys. apply perform_effects.
Qed.

Lemma keys_ok_example : keys_ok example_db.
Proof.
  unfold keys_ok. simpl.
  repeat split;
    repeat (constructor; [simpl; intuition discriminate|]); constructor.
Qed.

Lemma keys_stay_unique_witness :
  keys_ok example_db
  /\ keys_ok (perform example_settings example_script example_db).
Proof.
  split; [exact keys_ok_example|].
  apply (keys_stay_unique example_settings example_script example_db).
  exact keys_ok_example.
Defined.

Lemma extends_refl (db : DB) : extends db db.
Proof.
  unfold extends.
  repeat split; try (exists []; rewrite app_nil_r; reflexivity).
Qed.

Lemma extends_trans (db1 db2 db3 : DB) :
  extends db1 db2 -> extends db2 db3 -> extends db1 db3.
Proof.
  intros ([a Ha] & [b Hb] & [c Hc] & Hr) ([a' Ha'] & [b' Hb'] & [c' Hc'] & Hr').
  unfold extends. repeat split.
  - exists (a ++ a'). rewrite Ha', Ha, app_assoc. reflexivity.
  - exists (b ++ b'). rewrite Hb', Hb, app_assoc. reflexivity.
  - exists (c ++ c'). rewrite Hc', Hc, app_assoc. reflexivity.
  - congruence.
Qed.

Lemma effect_extends (db db' : DB) : Effect db db' -> extends db db'.
Proof.
  intros E. unfold extends, experiment_keys, run_keys.
  destruct E; simpl; repeat split;
    try (exists []; rewrite app_nil_r; reflexivity);
    try (rewrite map_update_where_key; [|reflexivity]);
    try reflexivity;
    try (exists []; rewrite app_nil_r; reflexivity).
  - rewrite map_app. eexists. reflexivity.
  - eexists. reflexivity.
  - eexists. reflexivity.
  - eexists. reflexivity.
Qed.

Lemma effects_extend (db db' : DB) : Effects db db' -> extends db db'.
Proof.
  intros H. induction H as [db|db dba dbb E _ IH]; [apply extends_refl|].
  apply (extends_trans db dba dbb);
    [apply effect_extends; exact E | exact IH].
Qed.

Lemma extends_grows (db db' : DB) : extends db db' -> grows db db'.
Proof.
  intros ([a Ha] & [b Hb] & [c Hc] & Hr). unfold grows.
  split; [exists a; rewrite Ha; apply Permutation_refl|].
  split; [exists b; rewrite Hb; apply Permutation_refl|].
  split; [exists c; rewrite Hc; apply Permutation_refl|].
  exists []. rewrite Hr, app_nil_r. apply Permutation_refl.
Qed.

(** X2 -- delete_experiment and delete_run mark, they do not remove.  After
    any sequence of the calls create_experiment, delete_experiment,
    restore_experiment, rename_experiment, update_run_info, delete_run,
    restore_run, log_metric, log_param, set_tag, delete_tag,
    set_experiment_tag and log_batch, whatever each returns or raises, the
    store holds every metric fact and every param it held before, unchanged
    and as often, and every experiment id and every run id it held. *)
Theorem facts_are_never_taken_back
  (cfg : Settings) (calls : list Call) (db : DB) :
  grows db (perform cfg calls db).
Proof. apply extends_grows. apply effects_extend. apply perform_effects. Qed.

Lemma effect_keeps_finite (db db' : DB) :
  Effect db db' -> values_finite db -> values_finite db'.
Proof.
  intros E [Hm Hl]. unfold values_finite.
  destruct E; simpl; split; auto.
  - intros m Q. apply in_app_or in Q. destruct Q as [Q|[<-|[]]]; auto.
  - intros m Q. apply in_app_or in Q. destruct Q as [Q|[<-|[]]]; auto.
  - intros l Q. apply upsert_in in Q. destruct Q as [->|Q]; auto.
Qed.

Lemma effects_keep_finite (db db' : DB) :
  Effects db db' -> values_finite db -> values_finite db'.
Proof.
  intros H. induction H as [db|db dba dbb E _ IH]; auto.
  intros K. apply IH. apply (effect_keeps_finite db dba E K).
Qed.

(** X3 -- the metrics and latest_metrics tables never hold a NaN or an
    infinity: when every stored value is finite, it is so again after any
    sequence of writing calls, whatever values the calls log. *)
Theorem stored_values_stay_finite
  (cfg : Settings) (calls : list Call) (db : DB) :
  values_finite db -> values_finite (perform cfg calls db).
Proof. apply effects_keep_finite. apply perform_effects. Qed.

Lemma stored_values_stay_finite_witness :
  values_finite example_db
  /\ values_finite (perform example_settings example_script example_db).
Proof.
  assert (values_finite example_db) as H
    by (split; intros ? []).
  split; [exact H|].
  apply (stored_values_stay_finite example_settings example_script
           example_db H).
Defined.

(** X4 -- a call that raises commits nothing: but for log_batch, whose
    items are committed one by one, every writing call that raises leaves
    the store exactly as it found it. *)
Theorem failed_call_commits_nothing
  (cfg : Settings) (c : Call) (db db' : DB) (e : Exn) :
  (forall run_id metrics params tags,
     c <> CallLogBatch run_id metrics params tags) ->
  call cfg c db = (Raise e, db') ->
  db' = db.
Proof.
  intros Hc H.
  assert (atomic db (call cfg c db)) as [_ A].
  { destruct c; simpl;
      first [ apply atomic_then_ret, create_experiment_atomic
            | apply delete_experiment_atomic
            | apply restore_experiment_atomic
            | apply rename_experiment_atomic
            | apply atomic_then_ret, update_run_info_atomic
            | apply delete_run_atomic
            | apply restore_run_atomic
            | apply log_metric_atomic
            | apply log_param_atomic
            | apply set_tag_atomic
            | apply delete_tag_atomic
            | apply set_experiment_tag_atomic
            | exfalso; eapply Hc; reflexivity ]. }
  rewrite H in A. apply (A e). reflexivity.
Qed.

Lemma failed_call_commits_nothing_witness :
  call example_settings (CallRenameExperiment 0 "old") example_db
  = (Raise (Mlflow (internal_error
       (IntegrityError "UNIQUE constraint failed: experiments.name"))),
     snd (call example_settings (CallRenameExperiment 0 "old") example_db))
  /\ snd (call example_settings (CallRenameExperiment 0 "old") example_db)
     = example_db.
Proof.
  split; [reflexivity|].
  apply (failed_call_commits_nothing example_settings
           (CallRenameExperiment 0 "old") example_db _
           (Mlflow (internal_error
              (IntegrityError "UNIQUE constraint failed: experiments.name")))).
  - intros; discriminate.
  - reflexivity.
Defined.

(** ** Tags *)

Lemma tag_rows_key run_id key (t : SqlTag.t) :
  (SqlTag.run_uuid t =? run_id)%string && (SqlTag.key t =? key)%string = true
  <-> tag_key t = (run_id, key).
Proof. apply string_pair_eqb. Qed.

Lemma upsert_rows_of_key {A K} (key : A -> K) (same : A -> A -> bool)
  (p : A -> bool) (x : A) (rows : list A) :
  (forall a b, same a b = true <-> key b = key a) ->
  (forall a, p a = true <-> key a = key x) ->
  NoDup (map key rows) ->
  filter p (upsert same x rows) = [x].
Proof.
  intros Hs Hp Hnd.
  apply (filter_key_single key p (key x)); auto.
  - apply (upsert_NoDup key); assumption.
  - unfold upsert. destruct (existsb (same x) rows) eqn:E.
    + apply existsb_exists in E. destruct E as [y [Hy S]].
      apply in_map_iff. exists y. rewrite S. auto.
    + apply in_or_app. right. left. reflexivity.
Qed.

Lemma upsert_rows_of_other_key {A K} (key : A -> K) (same : A -> A -> bool)
  (p : A -> bool) (k : K) (x : A) (rows : list A) :
  (forall a b, same a b = true <-> key b = key a) ->
  (forall a, p a = true <-> key a = k) ->
  k <> key x ->
  filter p (upsert same x rows) = filter p rows.
Proof.
  intros Hs Hp Hk.
  assert (p x = false) as Px.
  { apply not_true_is_false. intro T. apply Hp in T. congruence. }
  unfold upsert. destruct (existsb (same x) rows).
  - induction rows as [|y rows IH]; simpl; [reflexivity|].
    destruct (same x y) eqn:S.
    + rewrite Px. apply Hs in S.
      assert (p y = false) as ->.
      { apply not_true_is_false. intro T. apply Hp in T. congruence. }
      exact IH.
    + destruct (p y); [f_equal|]; exact IH.
  - rewrite filter_app. simpl. rewrite Px. apply app_nil_r.
Qed.

Lemma existsb_pointwise {A} (f g : A -> bool) (l : list A) :
  (forall y, f y = g y) -> existsb f l = existsb g l.
Proof.
  intros H. induction l as [|x l IH]; simpl; [reflexivity|].
  rewrite H, IH. reflexivity.
Qed.

Lemma upsert_twice {A K} (key : A -> K) (same : A -> A -> bool)
  (x1 x2 : A) (rows : list A) :
  (forall a b, same a b = true <-> key b = key a) ->
  key x1 = key x2 ->
  upsert same x2 (upsert same x1 rows) = upsert same x2 rows.
Proof.
  intros Hs Hk.
  assert (forall y, same x2 y = same x1 y) as Hsame.
  { intros y. destruct (same x1 y) eqn:S1.
    - apply Hs. apply Hs in S1. congruence.
    - apply not_true_is_false. intro S2. apply Hs in S2.
      assert (same x1 y = true) by (apply Hs; congruence). congruence. }
  assert (same x2 x1 = true) as S21 by (apply Hs; exact Hk).
  unfold upsert at 2 3.
  replace (existsb (same x2) rows) with (existsb (same x1) rows)
    by (apply existsb_pointwise; intros; symmetry; apply Hsame).
  destruct (existsb (same x1) rows) eqn:E.
  - unfold upsert.
    assert (existsb (same x2)
              (map (fun y => if same x1 y then x1 else y) rows) = true)
      as ->.
    { apply existsb_exists in E. destruct E as [y [Hy S]].
      apply existsb_exists. exists x1. split; [|exact S21].
      apply in_map_iff. exists y. rewrite S. auto. }
    rewrite map_map. apply map_ext. intros y.
    destruct (same x1 y) eqn:S; [|reflexivity].
    rewrite S21, Hsame, S. reflexivity.
  - unfold upsert.
    assert (existsb (same x2) (rows ++ [x1]) = true) as ->.
    { rewrite existsb_app. simpl. rewrite S21.
      rewrite orb_true_r. reflexivity. }
    rewrite map_app. simpl. rewrite S21. f_equal.
    rewrite <- (map_id rows) at 2. apply map_ext_in. intros y Hy.
    destruct (same x2 y) eqn:S; [|reflexivity].
    exfalso. rewrite Hsame in S.
    assert (existsb (same x1) rows = true)
      by (apply existsb_exists; exists y; auto).
    congruence.
Qed.

Section Tags.
Variable _validate_tag : string -> string -> option Exn.

Lemma set_tag_active run_id tag db r :
  run_rows run_id db = [r] -> SqlRun.lifecycle_stage r = ACTIVE ->
  _validate_tag (RunTag.key tag) (RunTag.value tag) = None ->
  set_tag _validate_tag run_id tag db
  = (Ok tt,
     with_tags (upsert same_tag_key
                  (SqlTag.mk run_id (RunTag.key tag) (RunTag.value tag))) db).
Proof.
  intros Hr Hs Hv. unfold run_rows in Hr. unfold set_tag.
  run_store. simpl. rewrite Hv. simpl. rewrite Hr, Hs. reflexivity.
Qed.

(** X5 -- set_tag on an active run is an upsert: the call returns, the run
    then has exactly one tag of that key, with the value set, the tags of
    every other run and key are as before, as is the rest of the store; and
    setting the key again overwrites: the store is the one the second call
    alone would have left. *)
Theorem set_tag_overwrites
  (db : DB) (run_id key value value' : string) (r : SqlRun.t) :
  run_rows run_id db = [r] ->
  SqlRun.lifecycle_stage r = ACTIVE ->
  _validate_tag key value = None ->
  _validate_tag key value' = None ->
  NoDup (map tag_key (tags db)) ->
  exists db',
    set_tag _validate_tag run_id (RunTag.mk key value) db = (Ok tt, db')
    /\ tag_rows run_id key db' = [SqlTag.mk run_id key value]
    /\ (forall run_id' key',
          (run_id', key') <> (run_id, key) ->
          tag_rows run_id' key' db' = tag_rows run_id' key' db)
    /\ with_tags (fun _ => tags db) db' = db
    /\ set_tag _validate_tag run_id (RunTag.mk key value') db'
       = set_tag _validate_tag run_id (RunTag.mk key value') db.
Proof.
  intros Hr Hs Hv Hv' Hnd.
  exists (with_tags (upsert same_tag_key (SqlTag.mk run_id key value)) db).
  split; [apply (set_tag_active run_id (RunTag.mk key value) db r);
          assumption|].
  split.
  { unfold tag_rows. simpl.
    apply (upsert_rows_of_key tag_key); auto.
    - apply same_tag_key_eq.
    - intros a. apply tag_rows_key. }
  split.
  { intros run_id' key' Hne. unfold tag_rows. simpl.
    apply (upsert_rows_of_other_key tag_key _ _ (run_id', key')); auto.
    - apply same_tag_key_eq.
    - intros a. apply tag_rows_key. }
  split; [destruct db; reflexivity|].
  rewrite (set_tag_active run_id (RunTag.mk key value') _ r);
    [|exact Hr|exact Hs|exact Hv'].
  rewrite (set_tag_active run_id (RunTag.mk key value') db r);
    [|exact Hr|exact Hs|exact Hv'].
  f_equal. unfold with_tags. simpl. f_equal.
  apply (upsert_twice tag_key); [apply same_tag_key_eq | reflexivity].
Qed.
End Tags.

Lemma set_tag_overwrites_witness :
  exists db',
    set_tag accept_tag "r1" (RunTag.mk "team" "b") example_db = (Ok tt, db')
    /\ tag_rows "r1" "team" db' = [SqlTag.mk "r1" "team" "b"].
Proof.
  assert (NoDup (map tag_key (tags example_db))) as Hnd.
  { simpl. constructor; [intros []|constructor]. }
  destruct (set_tag_overwrites accept_tag example_db "r1" "team" "b" "c"
              run_r1 eq_refl eq_refl eq_refl eq_refl Hnd)
    as [db' [E [T _]]].
  exists db'. split; [exact E | exact T].
Defined.

Lemma delete_tag_active run_id key db r :
  run_rows run_id db = [r] -> SqlRun.lifecycle_stage r = ACTIVE ->
  delete_tag run_id key db =
  match tag_rows run_id key db with
  | [] => (Raise (Mlflow (not_found_tag_error run_id key)), db)
  | [t] =>
      (Ok tt,
       with_tags
         (filter (fun x => negb ((SqlTag.run_uuid x =? SqlTag.run_uuid t)%string
                                 && (SqlTag.key x =? SqlTag.key t)%string)))
         db)
  | _ =>
      (Raise (Mlflow (mkMlflowException
         (Text ("Bad data in database - tags for a specific run must "
                +++ "have a single unique value."
                +++ "See https://mlflow.org/docs/latest/tracking.html"
                +++ "#adding-tags-to-runs"))
         INVALID_STATE)), db)
  end.
Proof.
  intros Hr Hs. unfold run_rows in Hr. unfold delete_tag, tag_rows.
  run_store. simpl. rewrite Hr, Hs. simpl.
  destruct (filter _ (tags db)) as [|t [|t' ts]]; reflexivity.
Qed.

Lemma filter_negb_rows {A} (p : A -> bool) (l : list A) :
  filter p (filter (fun x => negb (p x)) l) = [].
Proof.
  induction l as [|x l IH]; simpl; auto.
  destruct (p x) eqn:E; simpl; [|rewrite E]; exact IH.
Qed.

Lemma filter_snoc_removed {A} (p : A -> bool) (l : list A) (x : A) :
  filter p l = [] -> p x = true ->
  filter (fun y => negb (p y)) (l ++ [x]) = l.
Proof.
  intros Hl Hx. rewrite filter_app. simpl. rewrite Hx. simpl.
  rewrite app_nil_r.
  induction l as [|y l IH]; simpl in *; auto.
  destruct (p y); [discriminate|]. simpl. f_equal. apply IH. exact Hl.
Qed.

(** X6 -- delete_tag on an active run: without a tag of that key the call
    raises RESOURCE_DOES_NOT_EXIST and changes nothing; with one it returns,
    the tag is gone and the tags of every other run and key are as they
    were.  Setting a key the run did not have and deleting it again gives
    the store back as it was. *)
Theorem delete_tag_removes_the_tag
  (validate : string -> string -> option Exn)
  (db : DB) (run_id key : string) (r : SqlRun.t) :
  run_rows run_id db = [r] ->
  SqlRun.lifecycle_stage r = ACTIVE ->
  (tag_rows run_id key db = [] ->
   delete_tag run_id key db
   = (Raise (Mlflow (not_found_tag_error run_id key)), db)
   /\ forall value,
        validate key value = None ->
        (set_tag validate run_id (RunTag.mk key value) ;;
         delete_tag run_id key) db = (Ok tt, db))
  /\ (forall t,
        tag_rows run_id key db = [t] ->
        exists db',
          delete_tag run_id key db = (Ok tt, db')
          /\ tag_rows run_id key db' = []
          /\ (forall run_id' key',
                (run_id', key') <> (run_id, key) ->
                tag_rows run_id' key' db' = tag_rows run_id' key' db)
          /\ with_tags (fun _ => tags db) db' = db).
Proof.
  intros Hr Hs. split.
  - intros Hnone. split.
    + rewrite (delete_tag_active _ _ _ _ Hr Hs), Hnone. reflexivity.
    + intros value Hv.
      rewrite (bind_ok _ _ _ _ _
                 (set_tag_active validate run_id (RunTag.mk key value) db r
                    Hr Hs Hv)).
      rewrite (delete_tag_active run_id key _ r); [|exact Hr|exact Hs].
      unfold tag_rows in *. simpl.
      assert (existsb (same_tag_key (SqlTag.mk run_id key value)) (tags db)
              = false) as E.
      { apply not_true_is_false. intro T. apply existsb_exists in T.
        destruct T as [y [Hy S]]. apply same_tag_key_eq in S.
        pose proof (filter_nil_forall _ _ Hnone y Hy) as Q.
        simpl in Q.
        assert ((SqlTag.run_uuid y =? run_id)%string
                && (SqlTag.key y =? key)%string = true) as T
          by (apply tag_rows_key; exact S).
        congruence. }
      rewrite (upsert_absent _ _ _ E).
      rewrite filter_app, Hnone. simpl. rewrite !String.eqb_refl. simpl.
      f_equal. destruct db as [es rs ms ls ps ts ets]. unfold with_tags.
      simpl in *. f_equal. rewrite (upsert_absent _ _ _ E).
      apply (filter_snoc_removed
               (fun x => (SqlTag.run_uuid x =? run_id)%string
                         && (SqlTag.key x =? key)%string)).
      * exact Hnone.
      * simpl. rewrite !String.eqb_refl. reflexivity.
  - intros t Ht.
    destruct (filter_single_in _ _ _ Ht) as [_ Hk].
    apply tag_rows_key in Hk. unfold tag_key in Hk.
    injection Hk as Hk1 Hk2.
    exists (with_tags
              (filter (fun x => negb ((SqlTag.run_uuid x =? run_id)%string
                                      && (SqlTag.key x =? key)%string))) db).
    split.
    { rewrite (delete_tag_active _ _ _ _ Hr Hs), Ht, Hk1, Hk2.
      reflexivity. }
    split.
    { unfold tag_rows. simpl. apply filter_negb_rows. }
    split; [|destruct db; reflexivity].
    intros run_id' key' Hne. unfold tag_rows. simpl.
    rewrite filter_filter_and. apply filter_ext. intros x.
    destruct ((SqlTag.run_uuid x =? run_id')%string
              && (SqlTag.key x =? key')%string) eqn:P;
      [|apply andb_false_r].
    apply tag_rows_key in P. rewrite andb_true_r.
    apply negb_true_iff. apply not_true_is_false. intro Q.
    apply tag_rows_key in Q. congruence.
Qed.

Lemma delete_tag_removes_the_tag_witness :
  delete_tag "r1" "owner" example_db
  = (Raise (Mlflow (not_found_tag_error "r1" "owner")), example_db)
  /\ (set_tag accept_tag "r1" (RunTag.mk "owner" "c") ;;
      delete_tag "r1" "owner") example_db = (Ok tt, example_db)
  /\ exists db',
       delete_tag "r1" "team" example_db = (Ok tt, db')
       /\ tag_rows "r1" "team" db' = [].
Proof.
  destruct (delete_tag_removes_the_tag accept_tag example_db "r1" "owner"
              run_r1 eq_refl eq_refl) as [H1 _].
  destruct (delete_tag_removes_the_tag accept_tag example_db "r1" "team"
              run_r1 eq_refl eq_refl) as [_ H2].
  destruct (H1 eq_refl) as [Hmiss Hround].
  destruct (H2 (SqlTag.mk "r1" "team" "a") eq_refl) as [db' [E [T _]]].
  split; [exact Hmiss|]. split; [apply (Hround "c"%string); reflexivity|].
  exists db'. split; [exact E | exact T].
Defined.

Lemma experiment_tag_rows_key id key (t : SqlExperimentTag.t) :
  (SqlExperimentTag.experiment_id t =? id)
  && (SqlExperimentTag.key t =? key)%string = true
  <-> experiment_tag_key t = (id, key).
Proof.
  unfold experiment_tag_key. rewrite andb_true_iff, Z.eqb_eq, String.eqb_eq.
  split.
  - intros [-> ->]. reflexivity.
  - intros H. inversion H. auto.
Qed.

Section ExperimentTags.
Variable _validate_experiment_tag : string -> string -> option Exn.

Lemma set_experiment_tag_active id tag db e :
  experiment_rows id db = [e] ->
  SqlExperiment.lifecycle_stage e = ACTIVE ->
  _validate_experiment_tag (RunTag.key tag) (RunTag.value tag) = None ->
  set_experiment_tag _validate_experiment_tag id tag db
  = (Ok tt,
     with_experiment_tags
       (upsert same_experiment_tag_key
          (SqlExperimentTag.mk id (RunTag.key tag) (RunTag.value tag))) db).
Proof.
  intros He Hs Hv. unfold set_experiment_tag. rewrite Hv. unfold check.
  rewrite (bind_ok _ _ _ _ _ (eq_refl : ret tt db = (Ok tt, db))).
  eapply managed_ok.
  - rewrite (bind_ok _ _ _ _ _
               (get_experiment_found id (SessionMaker db) e eq_refl He)).
    unfold _check_experiment_is_active, to_mlflow_entity. rewrite Hs.
    reflexivity.
  - reflexivity.
Qed.

(** X7 -- set_experiment_tag on an active experiment is an upsert: the call
    returns, the experiment then has exactly one tag of that key, with the
    value set, every other experiment tag and the rest of the store are as
    before, and setting the key again overwrites the value. *)
Theorem set_experiment_tag_overwrites
  (db : DB) (experiment_id : Z) (key value value' : string)
  (e : SqlExperiment.t) :
  experiment_rows experiment_id db = [e] ->
  SqlExperiment.lifecycle_stage e = ACTIVE ->
  _validate_experiment_tag key value = None ->
  _validate_experiment_tag key value' = None ->
  NoDup (map experiment_tag_key (experiment_tags db)) ->
  exists db',
    set_experiment_tag _validate_experiment_tag experiment_id
      (RunTag.mk key value) db = (Ok tt, db')
    /\ experiment_tag_rows experiment_id key db'
       = [SqlExperimentTag.mk experiment_id key value]
    /\ (forall experiment_id' key',
          (experiment_id', key') <> (experiment_id, key) ->
          experiment_tag_rows experiment_id' key' db'
          = experiment_tag_rows experiment_id' key' db)
    /\ with_experiment_tags (fun _ => experiment_tags db) db' = db
    /\ set_experiment_tag _validate_experiment_tag experiment_id
         (RunTag.mk key value') db'
       = set_experiment_tag _validate_experiment_tag experiment_id
           (RunTag.mk key value') db.
Proof.
  intros He Hs Hv Hv' Hnd.
  exists (with_experiment_tags
            (upsert same_experiment_tag_key
               (SqlExperimentTag.mk experiment_id key value)) db).
  split; [apply (set_experiment_tag_active experiment_id
                   (RunTag.mk key value) db e); assumption|].
  split.
  { unfold experiment_tag_rows. simpl.
    apply (upsert_rows_of_key experiment_tag_key); auto.
    - apply same_experiment_tag_key_eq.
    - intros a. apply experiment_tag_rows_key. }
  split.
  { intros id' key' Hne. unfold experiment_tag_rows. simpl.
    apply (upsert_rows_of_other_key experiment_tag_key _ _ (id', key'));
      auto.
    - apply same_experiment_tag_key_eq.
    - intros a. apply experiment_tag_rows_key. }
  split; [destruct db; reflexivity|].
  rewrite (set_experiment_tag_active experiment_id (RunTag.mk key value') _ e);
    [|exact He|exact Hs|exact Hv'].
  rewrite (set_experiment_tag_active experiment_id (RunTag.mk key value')
             db e);
    [|exact He|exact Hs|exact Hv'].
  f_equal. unfold with_experiment_tags. simpl. f_equal.
  apply (upsert_twice experiment_tag_key);
    [apply same_experiment_tag_key_eq | reflexivity].
Qed.
End ExperimentTags.

Lemma set_experiment_tag_overwrites_witness :
  exists db',
    set_experiment_tag accept_tag 0 (RunTag.mk "note" "x") example_db
    = (Ok tt, db')
    /\ experiment_tag_rows 0 "note" db'
       = [SqlExperimentTag.mk 0 "note" "x"].
Proof.
  destruct (set_experiment_tag_overwrites accept_tag example_db 0
              "note" "x" "y" experiment_default
              eq_refl eq_refl eq_refl eq_refl ltac:(constructor))
    as [db' [E [T _]]].
  exists db'. split; [exact E | exact T].
Defined.

(** ** Runs *)

Lemma run_rows_uuid run_id db r :
  run_rows run_id db = [r] -> SqlRun.run_uuid r = run_id.
Proof.
  intros H. apply filter_single_in in H. destruct H as [_ H].
  apply String.eqb_eq. exact H.
Qed.

Lemma set_run_stage_in run_id st st' db r :
  run_rows run_id db = [r] -> SqlRun.lifecycle_stage r = st ->
  forall guard : SqlRun.t -> M unit,
    guard r (SessionMaker db) = (Ok tt, SessionMaker db) ->
    ManagedSessionMaker
      (run <- _get_run run_id ;;
       guard run ;;
       register (SetRunStage (SqlRun.run_uuid run) st') ;;
       _save_to_db (Single Loaded)) db
    = (Ok tt,
       with_runs
         (update_where (fun x => (SqlRun.run_uuid x =? run_id)%string)
                       (set_run_stage st')) db).
Proof.
  intros Hr Hs guard Hg.
  eapply managed_ok.
  - rewrite (bind_ok _ _ _ _ _
               (get_run_found run_id (SessionMaker db) r eq_refl Hr)).
    rewrite (bind_ok _ _ _ _ _ Hg). reflexivity.
  - simpl. rewrite (run_rows_uuid _ _ _ Hr). reflexivity.
Qed.

(** X8 -- on an active run, delete_run and then restore_run both return
    and give the store back exactly as it was; in between the run is
    deleted and nothing else has changed.  restore_run on the active run
    itself raises INVALID_PARAMETER_VALUE and changes nothing. *)
Theorem delete_then_restore_run
  (db : DB) (run_id : string) (r : SqlRun.t) :
  run_rows run_id db = [r] ->
  SqlRun.lifecycle_stage r = ACTIVE ->
  let stage_to st :=
    with_runs (update_where (fun x => (SqlRun.run_uuid x =? run_id)%string)
                            (set_run_stage st)) in
  let db1 := stage_to DELETED db in
  delete_run run_id db = (Ok tt, db1)
  /\ run_rows run_id db1 = [set_run_stage DELETED r]
  /\ with_runs (fun _ => runs db) db1 = db
  /\ restore_run run_id db1 = (Ok tt, db)
  /\ restore_run run_id db = (Raise (Mlflow (deleted_guard_error r)), db).
Proof.
  intros Hr Hs stage_to db1.
  assert (run_rows run_id db1 = [set_run_stage DELETED r]) as Hr1.
  { unfold db1, stage_to, run_rows. simpl.
    rewrite filter_update_where; [|reflexivity].
    unfold run_rows in Hr. rewrite Hr. reflexivity. }
  repeat split.
  - unfold delete_run.
    apply (set_run_stage_in run_id ACTIVE DELETED db r Hr Hs
             (fun run => _check_run_is_active run)).
    unfold _check_run_is_active. rewrite Hs. reflexivity.
  - exact Hr1.
  - destruct db; reflexivity.
  - unfold restore_run.
    rewrite (set_run_stage_in run_id DELETED ACTIVE db1
               (set_run_stage DELETED r) Hr1 eq_refl
               (fun run => _check_run_is_deleted run) eq_refl).
    f_equal. unfold db1, stage_to, with_runs. simpl.
    destruct db as [es rs ms ls ps ts ets]. simpl. f_equal.
    apply update_where_undo; [reflexivity|].
    intros x Hx Hp.
    assert (x = r) as ->.
    { apply (filter_single_forall _ _ _ Hr); assumption. }
    destruct r as [u i s st en a l]. simpl in Hs. subst l. reflexivity.
  - unfold restore_run.
    apply (managed_raise_mlflow _ db _ (SessionMaker db)).
    rewrite (bind_ok _ _ _ _ _
               (get_run_found run_id (SessionMaker db) r eq_refl Hr)).
    apply bind_raise. unfold _check_run_is_deleted, deleted_guard_error.
    rewrite Hs. reflexivity.
Qed.

Lemma delete_then_restore_run_witness :
  (delete_run "r1" ;; restore_run "r1")%eff example_db = (Ok tt, example_db).
Proof.
  destruct (delete_then_restore_run example_db "r1" run_r1 eq_refl eq_refl)
    as [D [_ [_ [R _]]]].
  unfold bind. rewrite D, R. reflexivity.
Defined.

(** X9 -- update_run_info on an active run returns the run with the new
    status and end time and leaves every other attribute of the run, every
    other run and the rest of the store as they were. *)
Theorem update_run_info_sets_status_and_end_time
  (db : DB) (run_id : string) (r : SqlRun.t)
  (status : RunStatus) (end_time : option Z) :
  run_rows run_id db = [r] ->
  SqlRun.lifecycle_stage r = ACTIVE ->
  exists db',
    update_run_info run_id status end_time db
    = (Ok (set_run_info status end_time r), db')
    /\ run_rows run_id db' = [set_run_info status end_time r]
    /\ SqlRun.status (set_run_info status end_time r) = status
    /\ SqlRun.end_time (set_run_info status end_time r) = end_time
    /\ set_run_info (SqlRun.status r) (SqlRun.end_time r)
         (set_run_info status end_time r) = r
    /\ (forall run_id', run_id' <> run_id ->
                        run_rows run_id' db' = run_rows run_id' db)
    /\ with_runs (fun _ => runs db) db' = db.
Proof.
  intros Hr Hs.
  exists (with_runs
            (update_where (fun x => (SqlRun.run_uuid x =? run_id)%string)
                          (set_run_info status end_time)) db).
  split.
  { unfold update_run_info. eapply managed_ok.
    - rewrite (bind_ok _ _ _ _ _
                 (get_run_found run_id (SessionMaker db) r eq_refl Hr)).
      unfold _check_run_is_active. rewrite Hs. reflexivity.
    - simpl. rewrite (run_rows_uuid _ _ _ Hr). reflexivity. }
  split.
  { unfold run_rows. simpl. rewrite filter_update_where; [|reflexivity].
    unfold run_rows in Hr. rewrite Hr. reflexivity. }
  split; [reflexivity|]. split; [reflexivity|].
  split; [destruct r; reflexivity|].
  split; [|destruct db; reflexivity].
  intros run_id' Hne. unfold run_rows, update_where. simpl.
  induction (runs db) as [|x l IH]; simpl; [reflexivity|].
  destruct (String.eqb_spec (SqlRun.run_uuid x) run_id) as [E|E]; simpl.
  - rewrite E.
    destruct (String.eqb_spec run_id run_id'); [congruence|]. exact IH.
  - destruct (SqlRun.run_uuid x =? run_id')%string; [f_equal|]; exact IH.
Qed.

Lemma update_run_info_sets_status_and_end_time_witness :
  exists db',
    update_run_info "r1" FINISHED (Some 500) example_db
    = (Ok (set_run_info FINISHED (Some 500) run_r1), db')
    /\ run_rows "r2" db' = [run_r2].
Proof.
  destruct (update_run_info_sets_status_and_end_time example_db "r1" run_r1
              FINISHED (Some 500) eq_refl eq_refl)
    as [db' [E [_ [_ [_ [_ [O _]]]]]]].
  exists db'. split; [exact E|].
  rewrite (O "r2"%string); [reflexivity | discriminate].
Defined.

Lemma missing_run_fails {A} (k : SqlRun.t -> M A) run_id db :
  run_rows run_id db = [] ->
  ManagedSessionMaker (run <- _get_run run_id ;; k run) db
  = (Raise (Mlflow (not_found_run_error run_id)), db).
Proof.
  intros Hr.
  apply (managed_raise_mlflow _ db _ (SessionMaker db)).
  apply bind_raise. unfold _get_run.
  rewrite (bind_ok _ _ _ _ _ (query_clean _ (SessionMaker db) eq_refl)).
  unfold run_rows in Hr. simpl. rewrite Hr. reflexivity.
Qed.

Section MissingRun.
Variable _validate_metric : string -> float -> Z -> Z -> option Exn.
Variable _validate_tag : string -> string -> option Exn.
Variable _validate_run_id : string -> option Exn.
Variable _validate_batch_log_data :
  list Metric.t -> list Param.t -> list RunTag.t -> option Exn.
Variable _validate_batch_log_limits :
  list Metric.t -> list Param.t -> list RunTag.t -> option Exn.

(** X10 -- on a run id the store does not hold, every run operation whose
    arguments pass validation raises RESOURCE_DOES_NOT_EXIST with the id in
    the message and changes nothing; log_batch applies none of its items. *)
Theorem unknown_run_is_not_found
  (db : DB) (run_id : string)
  (metric : Metric.t) (param : Param.t) (tag : RunTag.t) (key : string)
  (status : RunStatus) (end_time : option Z)
  (metrics : list Metric.t) (params : list Param.t) (tags : list RunTag.t) :
  run_rows run_id db = [] ->
  _validate_metric (Metric.key metric) (Metric.value metric)
    (Metric.timestamp metric) (Metric.step metric) = None ->
  _validate_tag (RunTag.key tag) (RunTag.value tag) = None ->
  _validate_run_id run_id = None ->
  _validate_batch_log_data metrics params tags = None ->
  _validate_batch_log_limits metrics params tags = None ->
  let not_found := Raise (Mlflow (not_found_run_error run_id)) in
  log_metric _validate_metric run_id metric db = (not_found, db)
  /\ log_param run_id param db = (not_found, db)
  /\ set_tag _validate_tag run_id tag db = (not_found, db)
  /\ delete_tag run_id key db = (not_found, db)
  /\ update_run_info run_id status end_time db
     = (Raise (Mlflow (not_found_run_error run_id)), db)
  /\ delete_run run_id db = (not_found, db)
  /\ restore_run run_id db = (not_found, db)
  /\ log_batch _validate_metric _validate_tag _validate_run_id
       _validate_batch_log_data _validate_batch_log_limits
       run_id metrics params tags db = (not_found, db)
  /\ error_code (not_found_run_error run_id) = RESOURCE_DOES_NOT_EXIST.
Proof.
  intros Hr Vm Vt V1 V2 V3 not_found. unfold not_found.
  repeat split.
  - unfold log_metric. rewrite Vm. unfold check.
    rewrite (bind_ok _ _ _ _ _ (eq_refl : ret tt db = (Ok tt, db))).
    destruct (stored_value (Metric.value metric)) as [v n].
    apply missing_run_fails. exact Hr.
  - unfold log_param. apply missing_run_fails. exact Hr.
  - unfold set_tag. rewrite Vt.
    apply (managed_raise_mlflow _ db _ (SessionMaker db)).
    unfold check.
    rewrite (bind_ok _ _ _ _ _
               (eq_refl : ret tt (SessionMaker db)
                          = (Ok tt, SessionMaker db))).
    apply bind_raise. unfold _get_run.
    rewrite (bind_ok _ _ _ _ _ (query_clean _ (SessionMaker db) eq_refl)).
    unfold run_rows in Hr. simpl. rewrite Hr. reflexivity.
  - unfold delete_tag. apply missing_run_fails. exact Hr.
  - unfold update_run_info. apply missing_run_fails. exact Hr.
  - unfold delete_run. apply missing_run_fails. exact Hr.
  - unfold restore_run. apply missing_run_fails. exact Hr.
  - unfold log_batch. rewrite V1, V2, V3. unfold check.
    rewrite !(bind_ok _ _ _ _ _ (eq_refl : ret tt db = (Ok tt, db))).
    apply bind_raise. apply missing_run_fails. exact Hr.
Qed.
End MissingRun.

Lemma unknown_run_is_not_found_witness :
  log_param "r9" (Param.mk "lr" "0.1") example_db
  = (Raise (Mlflow (not_found_run_error "r9")), example_db)
  /\ log_batch accept_metric accept_tag accept_run_id accept_batch
       accept_batch "r9" [acc half 1 1] [] [] example_db
     = (Raise (Mlflow (not_found_run_error "r9")), example_db).
Proof.
  pose proof (unknown_run_is_not_found accept_metric accept_tag accept_run_id
                accept_batch accept_batch example_db "r9"
                (acc half 1 1) (Param.mk "lr" "0.1") (RunTag.mk "a" "b")
                "a" FAILED None [acc half 1 1] [] []
                eq_refl eq_refl eq_refl eq_refl eq_refl eq_refl) as H.
  split; apply H.
Defined.

(** ** Experiments: lookups and lifecycle edges *)

Lemma get_experiment_missing id view s :
  pending s = [] -> _list_experiments [id] [] view (txn s) = [] ->
  forall A (k : SqlExperiment.t -> M A),
    (experiment <- _get_experiment id view ;; k experiment) s
    = (Raise (Mlflow (not_found_error id)), s).
Proof.
  intros Hp Hl A k. apply bind_raise. unfold _get_experiment.
  rewrite default_id.
  rewrite (bind_ok _ _ _ _ _ (query_clean _ s Hp)). rewrite Hl. reflexivity.
Qed.

Lemma list_experiments_none id view db :
  experiment_rows id db = [] -> _list_experiments [id] [] view db = [].
Proof.
  intros H. destruct view.
  - rewrite (list_experiments_stage id ACTIVE ACTIVE_ONLY db eq_refl), H.
    reflexivity.
  - rewrite (list_experiments_stage id DELETED DELETED_ONLY db eq_refl), H.
    reflexivity.
  - rewrite list_experiments_all. exact H.
Qed.

(** X11 -- the lifecycle calls look an experiment up in the view of the
    stage they start from, so the wrong stage reads as a missing id:
    delete_experiment on a deleted experiment and restore_experiment on an
    active one raise RESOURCE_DOES_NOT_EXIST and change nothing, while
    get_experiment still returns the experiment. *)
Theorem wrong_stage_reads_as_missing
  (db : DB) (experiment_id : Z) (e : SqlExperiment.t) :
  experiment_rows experiment_id db = [e] ->
  get_experiment experiment_id db = (Ok e, db)
  /\ (SqlExperiment.lifecycle_stage e = DELETED ->
      delete_experiment experiment_id db
      = (Raise (Mlflow (not_found_error experiment_id)), db))
  /\ (SqlExperiment.lifecycle_stage e = ACTIVE ->
      restore_experiment experiment_id db
      = (Raise (Mlflow (not_found_error experiment_id)), db))
  /\ error_code (not_found_error experiment_id) = RESOURCE_DOES_NOT_EXIST.
Proof.
  intros He. split; [rewrite get_experiment_cases, He; reflexivity|].
  split; [|split; [|reflexivity]].
  - intros Hs. unfold delete_experiment.
    apply (managed_raise_mlflow _ db _ (SessionMaker db)).
    apply get_experiment_missing; [reflexivity|]. simpl.
    rewrite (list_experiments_stage experiment_id ACTIVE ACTIVE_ONLY db
               eq_refl), He.
    simpl. rewrite Hs. reflexivity.
  - intros Hs. unfold restore_experiment.
    apply (managed_raise_mlflow _ db _ (SessionMaker db)).
    apply get_experiment_missing; [reflexivity|]. simpl.
    rewrite (list_experiments_stage experiment_id DELETED DELETED_ONLY db
               eq_refl), He.
    simpl. rewrite Hs. reflexivity.
Qed.

Lemma wrong_stage_reads_as_missing_witness :
  delete_experiment 1 example_db
  = (Raise (Mlflow (not_found_error 1)), example_db)
  /\ restore_experiment 0 example_db
     = (Raise (Mlflow (not_found_error 0)), example_db).
Proof.
  destruct (wrong_stage_reads_as_missing example_db 1 experiment_old eq_refl)
    as [_ [D _]].
  destruct (wrong_stage_reads_as_missing example_db 0 experiment_default
              eq_refl) as [_ [_ [R _]]].
  split; [apply D | apply R]; reflexivity.
Defined.

Section UnknownExperiment.
Variable _validate_experiment_tag : string -> string -> option Exn.

(** X12 -- on an experiment id the store does not hold, get_experiment,
    delete_experiment, restore_experiment, rename_experiment and
    set_experiment_tag (with a valid tag) raise RESOURCE_DOES_NOT_EXIST and
    change nothing. *)
Theorem unknown_experiment_is_not_found
  (db : DB) (experiment_id : Z) (new_name : string) (tag : RunTag.t) :
  experiment_rows experiment_id db = [] ->
  _validate_experiment_tag (RunTag.key tag) (RunTag.value tag) = None ->
  let not_found := Raise (Mlflow (not_found_error experiment_id)) in
  get_experiment experiment_id db
  = (Raise (Mlflow (not_found_error experiment_id)), db)
  /\ delete_experiment experiment_id db = (not_found, db)
  /\ restore_experiment experiment_id db = (not_found, db)
  /\ rename_experiment experiment_id new_name db = (not_found, db)
  /\ set_experiment_tag _validate_experiment_tag experiment_id tag db
     = (not_found, db).
Proof.
  intros He Hv not_found. unfold not_found.
  split; [rewrite get_experiment_cases, He; reflexivity|].
  repeat split.
  - unfold delete_experiment.
    apply (managed_raise_mlflow _ db _ (SessionMaker db)).
    apply get_experiment_missing; [reflexivity|].
    apply list_experiments_none. exact He.
  - unfold restore_experiment.
    apply (managed_raise_mlflow _ db _ (SessionMaker db)).
    apply get_experiment_missing; [reflexivity|].
    apply list_experiments_none. exact He.
  - unfold rename_experiment.
    apply (managed_raise_mlflow _ db _ (SessionMaker db)).
    apply get_experiment_missing; [reflexivity|].
    apply list_experiments_none. exact He.
  - unfold set_experiment_tag. rewrite Hv. unfold check.
    rewrite (bind_ok _ _ _ _ _ (eq_refl : ret tt db = (Ok tt, db))).
    apply (managed_raise_mlflow _ db _ (SessionMaker db)).
    apply get_experiment_missing; [reflexivity|].
    apply list_experiments_none. exact He.
Qed.
End UnknownExperiment.

Lemma unknown_experiment_is_not_found_witness :
  rename_experiment 7 "x" example_db
  = (Raise (Mlflow (not_found_error 7)), example_db).
Proof.
  apply (unknown_experiment_is_not_found accept_tag example_db 7 "x"
           (RunTag.mk "a" "b") eq_refl eq_refl).
Defined.

(** ** Experiments by name *)

Lemma list_experiments_by_name name db :
  _list_experiments [] [name] ALL db = named name db.
Proof.
  unfold _list_experiments, named. apply filter_ext. intros e.
  unfold mem_string, mem_stage. simpl.
  destruct (SqlExperiment.lifecycle_stage e); simpl;
    rewrite orb_false_r; reflexivity.
Qed.

Lemma get_experiment_by_name_cases name db :
  get_experiment_by_name name db =
  match named name db with
  | [] => (Ok None, db)
  | [e] => (Ok (Some e), db)
  | rows =>
      (Raise (Mlflow (mkMlflowException
         (Text ("Expected only 1 experiment with name=" +++ name
                +++ ". Found " +++ str (Z.of_nat (List.length rows)) +++ "."))
         INVALID_STATE)), db)
  end.
Proof.
  unfold get_experiment_by_name. run_store.
  cbn -[_list_experiments str String.append].
  rewrite list_experiments_by_name.
  destruct (named name db) as [|e [|e' rows]]; reflexivity.
Qed.

Lemma named_single name db e :
  NoDup (experiment_names db) -> In e (experiments db) ->
  SqlExperiment.name e = name -> named name db = [e].
Proof.
  intros Hnd Hin Hn. unfold named.
  apply (filter_key_single SqlExperiment.name _ name); auto.
  intros x. apply String.eqb_eq.
Qed.

(** X13 -- get_experiment_by_name, with experiment names unique: a name no
    experiment has gives None and no error; a name an experiment has gives
    that experiment, deleted ones too; the store is never changed.  What
    create_experiment has just created is found under its name. *)
Theorem get_experiment_by_name_finds
  (root : string) (db : DB) (name : string) (location : option string) :
  NoDup (experiment_names db) ->
  (forall e, In e (experiments db) -> SqlExperiment.name e = name ->
             get_experiment_by_name name db = (Ok (Some e), db))
  /\ (~ In name (experiment_names db) ->
      get_experiment_by_name name db = (Ok None, db))
  /\ (name <> ""%string -> ~ In name (experiment_names db) ->
      exists id db' row,
        create_experiment root (Some name) location db = (Ok id, db')
        /\ SqlExperiment.name row = name
        /\ get_experiment_by_name name db' = (Ok (Some row), db')).
Proof.
  intros Hnd. split; [|split].
  - intros e Hin Hn. rewrite get_experiment_by_name_cases.
    rewrite (named_single name db e); auto.
  - intros Hn. rewrite get_experiment_by_name_cases. unfold named.
    rewrite (filter_key_none SqlExperiment.name _ name); auto.
    intros x. apply String.eqb_eq.
  - intros Hne Hn.
    assert (forall e, In e (experiments db) -> SqlExperiment.name e <> name)
      as Hfree.
    { intros e He E. apply Hn. unfold experiment_names. rewrite <- E.
      apply in_map. exact He. }
    destruct (name_not_taken _ _ Hfree) as [Hex Hfil].
    assert (forall row db',
              experiments db' = experiments db ++ [row] ->
              SqlExperiment.name row = name ->
              get_experiment_by_name name db' = (Ok (Some row), db')) as G.
    { intros row db' Hrows Hrow. rewrite get_experiment_by_name_cases.
      unfold named. rewrite Hrows, filter_app, Hfil. simpl.
      rewrite Hrow, String.eqb_refl. reflexivity. }
    destruct (falsy location) eqn:Hloc.
    + eexists. eexists.
      exists (SqlExperiment.mk (next_experiment_id (experiments db)) name
                (Some (posixpath_join root
                         (str (next_experiment_id (experiments db)))))
                ACTIVE).
      split; [apply create_experiment_fresh; assumption|].
      split; [|apply G]; reflexivity.
    + eexists. eexists.
      exists (SqlExperiment.mk (next_experiment_id (experiments db)) name
                location ACTIVE).
      split; [apply create_experiment_explicit; assumption|].
      split; [|apply G]; reflexivity.
Qed.

Lemma get_experiment_by_name_finds_witness :
  get_experiment_by_name "old" example_db
  = (Ok (Some experiment_old), example_db)
  /\ get_experiment_by_name "none" example_db = (Ok None, example_db).
Proof.
  assert (NoDup (experiment_names example_db)) as Hnd
    by apply keys_ok_example.
  destruct (get_experiment_by_name_finds "/mlruns" example_db "old" None Hnd)
    as [F _].
  destruct (get_experiment_by_name_finds "/mlruns" example_db "none" None Hnd)
    as [_ [N _]].
  split.
  - apply F; [right; left; reflexivity | reflexivity].
  - apply N. simpl. intuition discriminate.
Defined.

(** ** Renaming an experiment *)

Lemma filter_update_where_other {A} (p q : A -> bool) (f : A -> A)
  (l : list A) :
  (forall x, p x = true -> q x = false) ->
  (forall x, q (f x) = q x) ->
  filter q (update_where p f l) = filter q l.
Proof.
  intros Hpq Hf. unfold update_where.
  induction l as [|x l IH]; simpl; [reflexivity|].
  destruct (p x) eqn:P.
  - rewrite Hf, (Hpq x P). exact IH.
  - destruct (q x); [f_equal|]; exact IH.
Qed.

Lemma rename_experiment_active id new_name db e :
  experiment_rows id db = [e] -> SqlExperiment.lifecycle_stage e = ACTIVE ->
  rename_experiment id new_name db =
  if existsb (fun x => (SqlExperiment.name x =? new_name)%string
                       && negb (SqlExperiment.experiment_id x =? id))
             (experiments db)
  then (Raise (Mlflow name_conflict_error), db)
  else (Ok tt,
        with_experiments
          (update_where (fun x => SqlExperiment.experiment_id x =? id)
                        (set_experiment_name new_name)) db).
Proof.
  intros He Hs.
  assert (SqlExperiment.experiment_id e = id) as Hid.
  { apply filter_single_in in He. destruct He as [_ He].
    apply Z.eqb_eq in He. exact He. }
  assert ((experiment <- _get_experiment id ALL ;;
           (if negb (LifecycleStage_eqb
                       (SqlExperiment.lifecycle_stage experiment) ACTIVE)
            then raise_mlflow "Cannot rename a non-active experiment."
                              INVALID_STATE
            else
              register (SetExperimentName
                          (SqlExperiment.experiment_id experiment) new_name) ;;
              _save_to_db (Single Loaded))) (SessionMaker db)
          = (Ok tt, mkSession db db [SetExperimentName id new_name] None []))
    as Hbody.
  { rewrite (bind_ok _ _ _ _ _
               (get_experiment_found id (SessionMaker db) e eq_refl He)).
    rewrite Hs, Hid. reflexivity. }
  unfold rename_experiment.
  destruct (existsb _ (experiments db)) eqn:E.
  - unfold ManagedSessionMaker, make_managed_session.
    rewrite (bind_ok _ _ _ _ _ Hbody).
    unfold commit, bind, record_call, flush. simpl. rewrite E. reflexivity.
  - eapply managed_ok; [exact Hbody|]. simpl. rewrite E. reflexivity.
Qed.

(** X14 -- rename_experiment on an active experiment.  When no other
    experiment has the new name the call returns, the experiment carries
    the new name and is otherwise as it was, and nothing else in the store
    has changed; the experiment may be renamed to the name it has.  When
    another experiment, active or deleted, has the new name, the call
    raises INTERNAL_ERROR wrapping the integrity error and changes
    nothing. *)
Theorem rename_experiment_changes_the_name
  (db : DB) (experiment_id : Z) (new_name : string) (e : SqlExperiment.t) :
  experiment_rows experiment_id db = [e] ->
  SqlExperiment.lifecycle_stage e = ACTIVE ->
  ((forall x, In x (experiments db) ->
              SqlExperiment.experiment_id x <> experiment_id ->
              SqlExperiment.name x <> new_name) ->
   exists db',
     rename_experiment experiment_id new_name db = (Ok tt, db')
     /\ experiment_rows experiment_id db' = [set_experiment_name new_name e]
     /\ (forall id', id' <> experiment_id ->
                     experiment_rows id' db' = experiment_rows id' db)
     /\ with_experiments (fun _ => experiments db) db' = db)
  /\ (forall x, In x (experiments db) ->
                SqlExperiment.experiment_id x <> experiment_id ->
                SqlExperiment.name x = new_name ->
                rename_experiment experiment_id new_name db
                = (Raise (Mlflow name_conflict_error), db)
                /\ error_code name_conflict_error = INTERNAL_ERROR).
Proof.
  intros He Hs. split.
  - intros Hfree.
    exists (with_experiments
              (update_where
                 (fun x => SqlExperiment.experiment_id x =? experiment_id)
                 (set_experiment_name new_name)) db).
    split.
    { rewrite (rename_experiment_active _ _ _ _ He Hs).
      destruct (existsb _ (experiments db)) eqn:E; [|reflexivity].
      exfalso. apply existsb_exists in E. destruct E as [x [Hx Q]].
      apply andb_true_iff in Q. destruct Q as [Q1 Q2].
      apply String.eqb_eq in Q1. apply negb_true_iff in Q2.
      apply Z.eqb_neq in Q2. exact (Hfree x Hx Q2 Q1). }
    split.
    { unfold experiment_rows. simpl.
      rewrite filter_update_where; [|reflexivity].
      unfold experiment_rows in He. rewrite He. reflexivity. }
    split; [|destruct db; reflexivity].
    intros id' Hne. unfold experiment_rows. simpl.
    apply filter_update_where_other; [|reflexivity].
    intros x P. apply Z.eqb_eq in P. apply Z.eqb_neq. congruence.
  - intros x Hx Hid Hname. split; [|reflexivity].
    rewrite (rename_experiment_active _ _ _ _ He Hs).
    assert (existsb (fun x => (SqlExperiment.name x =? new_name)%string
                              && negb (SqlExperiment.experiment_id x
                                       =? experiment_id))
                    (experiments db) = true) as ->; [|reflexivity].
    apply existsb_exists. exists x. split; [exact Hx|].
    apply andb_true_iff. split; [apply String.eqb_eq; exact Hname|].
    apply negb_true_iff. apply Z.eqb_neq. exact Hid.
Qed.

Lemma rename_experiment_changes_the_name_witness :
  (exists db',
     rename_experiment 0 "Default" example_db = (Ok tt, db')
     /\ experiment_rows 0 db' = [experiment_default])
  /\ rename_experiment 0 "old" example_db
     = (Raise (Mlflow name_conflict_error), example_db).
Proof.
  destruct (rename_experiment_changes_the_name example_db 0 "Default"
              experiment_default eq_refl eq_refl) as [S _].
  destruct (rename_experiment_changes_the_name example_db 0 "old"
              experiment_default eq_refl eq_refl) as [_ C].
  split.
  - destruct S as [db' [E [R _]]].
    + simpl. intros x [<-|[<-|[]]] H;
        [exfalso; apply H; reflexivity | simpl; discriminate].
    + exists db'. split; [exact E | exact R].
  - apply (C experiment_old); [right; left; reflexivity | discriminate
                               | reflexivity].
Defined.

(** ** Listing experiments *)

Lemma list_experiments_cases view db :
  list_experiments view db = (Ok (filter (in_view view) (experiments db)), db).
Proof.
  unfold list_experiments. run_store.
  cbn -[_list_experiments].
  rewrite map_id. f_equal. f_equal.
  unfold _list_experiments, in_view. apply filter_ext. intros e.
  rewrite !andb_true_r. reflexivity.
Qed.

Lemma filter_all {A} (p : A -> bool) (l : list A) :
  (forall x, p x = true) -> filter p l = l.
Proof.
  intros H. induction l as [|x l IH]; simpl; [reflexivity|].
  rewrite H, IH. reflexivity.
Qed.

Lemma filter_split_length {A} (p q : A -> bool) (l : list A) :
  (forall x, q x = negb (p x)) ->
  (List.length (filter p l) + List.length (filter q l))%nat = List.length l.
Proof.
  intros H. induction l as [|x l IH]; simpl; [reflexivity|].
  rewrite H. destruct (p x); simpl; lia.
Qed.

(** X15 -- list_experiments never raises and never changes the store.  The
    view of all stages is the whole table in its order; the active and the
    deleted view hold the active and the deleted experiments, each
    experiment in exactly one of them; and delete_experiment moves its
    experiment from the first to the second, the active view losing that
    experiment and nothing else. *)
Theorem list_experiments_by_view
  (db : DB) (experiment_id : Z) (e : SqlExperiment.t) :
  list_experiments ALL db = (Ok (experiments db), db)
  /\ (exists rows_a rows_d,
        list_experiments ACTIVE_ONLY db = (Ok rows_a, db)
        /\ list_experiments DELETED_ONLY db = (Ok rows_d, db)
        /\ (forall x,
              (In x rows_a <-> In x (experiments db)
                               /\ SqlExperiment.lifecycle_stage x = ACTIVE)
              /\ (In x rows_d <-> In x (experiments db)
                                  /\ SqlExperiment.lifecycle_stage x
                                     = DELETED))
        /\ (List.length rows_a + List.length rows_d)%nat
           = List.length (experiments db))
  /\ (experiment_rows experiment_id db = [e] ->
      SqlExperiment.lifecycle_stage e = ACTIVE ->
      exists db1 rows_a rows_a1 rows_d1,
        delete_experiment experiment_id db = (Ok tt, db1)
        /\ list_experiments ACTIVE_ONLY db = (Ok rows_a, db)
        /\ list_experiments ACTIVE_ONLY db1 = (Ok rows_a1, db1)
        /\ list_experiments DELETED_ONLY db1 = (Ok rows_d1, db1)
        /\ rows_a1
           = filter (fun x => negb (SqlExperiment.experiment_id x
                                    =? experiment_id)) rows_a
        /\ In (set_experiment_stage DELETED e) rows_d1).
Proof.
  split; [|split].
  - rewrite list_experiments_cases. rewrite filter_all; [reflexivity|].
    intros x. unfold in_view. simpl.
    destruct (SqlExperiment.lifecycle_stage x); reflexivity.
  - exists (filter (in_view ACTIVE_ONLY) (experiments db)),
           (filter (in_view DELETED_ONLY) (experiments db)).
    split; [apply list_experiments_cases|].
    split; [apply list_experiments_cases|]. split.
    + intros x. rewrite !filter_In. unfold in_view. simpl.
      destruct (SqlExperiment.lifecycle_stage x); simpl;
        intuition discriminate.
    + apply filter_split_length. intros x. unfold in_view. simpl.
      destruct (SqlExperiment.lifecycle_stage x); reflexivity.
  - intros He Hs.
    pose proof (set_stage_in_view experiment_id ACTIVE_ONLY ACTIVE DELETED
                  db e eq_refl He Hs) as D.
    assert (experiment_rows experiment_id
              (with_experiments
                 (update_where
                    (fun x => SqlExperiment.experiment_id x =? experiment_id)
                    (set_experiment_stage DELETED)) db)
            = [set_experiment_stage DELETED e]) as He1.
    { unfold experiment_rows. simpl.
      rewrite filter_update_where; [|reflexivity].
      unfold experiment_rows in He. rewrite He. reflexivity. }
    eexists. eexists. eexists. eexists.
    split; [exact D|].
    split; [apply list_experiments_cases|].
    split; [apply list_experiments_cases|].
    split; [apply list_experiments_cases|]. split.
    + simpl. unfold update_where.
      rewrite filter_filter_and.
      induction (experiments db) as [|x l IH]; simpl; [reflexivity|].
      destruct (Z.eqb_spec (SqlExperiment.experiment_id x) experiment_id);
        simpl.
      * rewrite andb_false_r. exact IH.
      * rewrite andb_true_r.
        destruct (in_view ACTIVE_ONLY x); [f_equal|]; exact IH.
    + apply filter_In. split; [|reflexivity].
      apply (filter_single_in _ _ _ He1).
Qed.

Lemma list_experiments_by_view_witness :
  list_experiments ACTIVE_ONLY (snd (delete_experiment 0 example_db))
  = (Ok [], snd (delete_experiment 0 example_db)).
Proof.
  destruct (list_experiments_by_view example_db 0 experiment_default)
    as [_ [_ H]].
  destruct (H eq_refl eq_refl)
    as (db1 & rows_a & rows_a1 & rows_d1 & D & A & A1 & _ & E & _).
  rewrite D. simpl snd. rewrite A1, E. f_equal. f_equal.
  vm_compute in A. inversion A. reflexivity.
Defined.

(** ** Creating an experiment at a given location *)

(** X16 -- create_experiment.  Without a name, or with the empty name, the
    call raises INVALID_PARAMETER_VALUE before any session is opened.  With
    a name that is free and an explicit artifact location, the call returns
    the decimal string of a new id greater than every id of the table, the
    new row is active and carries the location as given, the rest of the
    store is as before, and get_experiment returns the row. *)
Theorem create_experiment_at_location
  (root : string) (db : DB) (name location : string) :
  (forall artifact_location,
     create_experiment root None artifact_location db
     = (Raise (Mlflow invalid_name_error), db)
     /\ create_experiment root (Some ""%string) artifact_location db
        = (Raise (Mlflow invalid_name_error), db))
  /\ (name <> ""%string -> location <> ""%string ->
      ~ In name (experiment_names db) ->
      let eid := next_experiment_id (experiments db) in
      let row := SqlExperiment.mk eid name (Some location) ACTIVE in
      exists db',
        create_experiment root (Some name) (Some location) db
        = (Ok (str eid), db')
        /\ (forall e, In e (experiments db) ->
                      SqlExperiment.experiment_id e < eid)
        /\ experiments db' = experiments db ++ [row]
        /\ with_experiments (fun _ => experiments db) db' = db
        /\ get_experiment eid db' = (Ok row, db')).
Proof.
  split; [intros; split; reflexivity|].
  intros Hn Hl Hfree eid row.
  assert (existsb (fun e => (SqlExperiment.name e =? name)%string)
                  (experiments db) = false) as Hex.
  { apply not_true_is_false. intro T. apply existsb_exists in T.
    destruct T as [e [He E]]. apply String.eqb_eq in E. apply Hfree.
    unfold experiment_names. rewrite <- E. apply in_map. exact He. }
  exists (with_experiments (fun rows => rows ++ [row]) db).
  split.
  { apply create_experiment_explicit; auto. simpl.
    destruct (String.eqb_spec location ""); congruence. }
  split; [intros e He; apply next_experiment_id_above; exact He|].
  split; [reflexivity|].
  split; [destruct db; reflexivity|].
  rewrite get_experiment_cases. unfold experiment_rows. simpl.
  rewrite filter_app. simpl. rewrite Z.eqb_refl.
  rewrite (filter_key_none SqlExperiment.experiment_id _ eid).
  - reflexivity.
  - intros x. apply Z.eqb_eq.
  - apply next_experiment_id_fresh.
Qed.

Lemma create_experiment_at_location_witness :
  exists db',
    create_experiment "/mlruns" (Some "exp1"%string)
      (Some "s3://bucket/exp1"%string) example_db = (Ok "2"%string, db')
    /\ get_experiment 2 db'
       = (Ok (SqlExperiment.mk 2 "exp1" (Some "s3://bucket/exp1"%string)
                               ACTIVE), db').
Proof.
  destruct (proj2 (create_experiment_at_location "/mlruns" example_db
                     "exp1" "s3://bucket/exp1")
              ltac:(discriminate) ltac:(discriminate)
              ltac:(simpl; intuition discriminate))
    as [db' [E [_ [_ [_ G]]]]].
  exists db'. split; [exact E | exact G].
Defined.

(** ** The order of facts *)

(** X17 -- on facts whose values are not NaN, as every stored value is,
    _compare_metrics is a strict total order of (step, timestamp, value):
    no fact is more recent than itself, of two facts at most one is more
    recent than the other, more recent is transitive, and two facts neither
    of which is more recent agree on step and timestamp and have equal
    values. *)
Theorem compare_metrics_is_a_strict_order (a b c : SqlMetric.t) :
  isnan (SqlMetric.value a) = false ->
  isnan (SqlMetric.value b) = false ->
  isnan (SqlMetric.value c) = false ->
  _compare_metrics a (latest_of a) = false
  /\ (_compare_metrics a (latest_of b) = true ->
      _compare_metrics b (latest_of a) = false)
  /\ (_compare_metrics a (latest_of b) = true ->
      _compare_metrics b (latest_of c) = true ->
      _compare_metrics a (latest_of c) = true)
  /\ (_compare_metrics a (latest_of b) = false ->
      _compare_metrics b (latest_of a) = false ->
      SqlMetric.step a = SqlMetric.step b
      /\ SqlMetric.timestamp a = SqlMetric.timestamp b
      /\ float_eq (SqlMetric.value a) (SqlMetric.value b) = true).
Proof.
  intros Na Nb Nc. rewrite !compare_with_row_of.
  split; [apply tuple_gt_irrefl|].
  pose proof (tuple_gt_spec (SqlMetric.step a) (SqlMetric.timestamp a)
                (SqlMetric.value a) (SqlMetric.step b) (SqlMetric.timestamp b)
                (SqlMetric.value b) Na Nb) as Sab.
  pose proof (tuple_gt_spec (SqlMetric.step b) (SqlMetric.timestamp b)
                (SqlMetric.value b) (SqlMetric.step a) (SqlMetric.timestamp a)
                (SqlMetric.value a) Nb Na) as Sba.
  pose proof (tuple_gt_spec (SqlMetric.step b) (SqlMetric.timestamp b)
                (SqlMetric.value b) (SqlMetric.step c) (SqlMetric.timestamp c)
                (SqlMetric.value c) Nb Nc) as Sbc.
  pose proof (tuple_gt_spec (SqlMetric.step a) (SqlMetric.timestamp a)
                (SqlMetric.value a) (SqlMetric.step c) (SqlMetric.timestamp c)
                (SqlMetric.value c) Na Nc) as Sac.
  pose proof (float_eq_rank (SqlMetric.value a) (SqlMetric.value b) Na Nb)
    as Eab.
  unfold tuple_lt_spec, rank_lt in *.
  destruct (rank (SqlMetric.value a)) as [[x1 y1] z1],
           (rank (SqlMetric.value b)) as [[x2 y2] z2],
           (rank (SqlMetric.value c)) as [[x3 y3] z3].
  split; [|split].
  - intros H. apply not_true_is_false. intro Q.
    apply Sab in H. apply Sba in Q. lia.
  - intros H Q. apply Sac. apply Sab in H. apply Sbc in Q. lia.
  - intros H Q.
    assert (~ (SqlMetric.step b < SqlMetric.step a \/
               SqlMetric.step b = SqlMetric.step a /\
               (SqlMetric.timestamp b < SqlMetric.timestamp a \/
                SqlMetric.timestamp b = SqlMetric.timestamp a /\
                (x2 < x1 \/ x2 = x1 /\ (y2 < y1 \/ y2 = y1 /\ z2 < z1)))))
      as H' by (intro T; apply Sab in T; congruence).
    assert (~ (SqlMetric.step a < SqlMetric.step b \/
               SqlMetric.step a = SqlMetric.step b /\
               (SqlMetric.timestamp a < SqlMetric.timestamp b \/
                SqlMetric.timestamp a = SqlMetric.timestamp b /\
                (x1 < x2 \/ x1 = x2 /\ (y1 < y2 \/ y1 = y2 /\ z1 < z2)))))
      as Q' by (intro T; apply Sba in T; congruence).
    split; [lia|]. split; [lia|].
    apply Eab. f_equal; [f_equal|]; lia.
Qed.

Lemma compare_metrics_is_a_strict_order_witness :
  _compare_metrics (SqlMetric.mk "r1" "acc" three_quarters 200 1 false)
                   (latest_of (SqlMetric.mk "r1" "acc" half 100 0 false))
  = true
  /\ _compare_metrics (SqlMetric.mk "r1" "acc" half 100 0 false)
       (latest_of (SqlMetric.mk "r1" "acc" three_quarters 200 1 false))
     = false.
Proof.
  split; [reflexivity|].
  apply (proj1 (proj2 (compare_metrics_is_a_strict_order
                         (SqlMetric.mk "r1" "acc" three_quarters 200 1 false)
                         (SqlMetric.mk "r1" "acc" half 100 0 false)
                         (SqlMetric.mk "r1" "acc" half 100 0 false)
                         eq_refl eq_refl eq_refl))).
  reflexivity.
Defined.

(** ** Batches that apply nothing *)

Section BatchEdges.
Variable _validate_metric : string -> float -> Z -> Z -> option Exn.
Variable _validate_tag : string -> string -> option Exn.
Variable _validate_run_id : string -> option Exn.
Variable _validate_batch_log_data :
  list Metric.t -> list Param.t -> list RunTag.t -> option Exn.
Variable _validate_batch_log_limits :
  list Metric.t -> list Param.t -> list RunTag.t -> option Exn.

(** X18 -- log_batch before its first item.  An exception of one of the
    three up-front validators is raised as it is, not wrapped, and no item
    is applied; on a run that is not active the batch raises the guard's
    INVALID_PARAMETER_VALUE and applies no item, however valid the items
    are; and the empty batch on an active run returns and changes
    nothing. *)
Theorem log_batch_checks_before_applying
  (db : DB) (run_id : string) (r : SqlRun.t)
  (metrics : list Metric.t) (params : list Param.t) (tags : list RunTag.t) :
  let batch :=
    log_batch _validate_metric _validate_tag _validate_run_id
      _validate_batch_log_data _validate_batch_log_limits run_id in
  (forall e, _validate_run_id run_id = Some e ->
             batch metrics params tags db = (Raise e, db))
  /\ (forall e, _validate_run_id run_id = None ->
                _validate_batch_log_data metrics params tags = Some e ->
                batch metrics params tags db = (Raise e, db))
  /\ (forall e, _validate_run_id run_id = None ->
                _validate_batch_log_data metrics params tags = None ->
                _validate_batch_log_limits metrics params tags = Some e ->
                batch metrics params tags db = (Raise e, db))
  /\ (_validate_run_id run_id = None ->
      _validate_batch_log_data metrics params tags = None ->
      _validate_batch_log_limits metrics params tags = None ->
      run_rows run_id db = [r] ->
      SqlRun.lifecycle_stage r <> ACTIVE ->
      batch metrics params tags db
      = (Raise (Mlflow (run_guard_error r)), db))
  /\ (_validate_run_id run_id = None ->
      _validate_batch_log_data [] [] [] = None ->
      _validate_batch_log_limits [] [] [] = None ->
      run_rows run_id db = [r] ->
      SqlRun.lifecycle_stage r = ACTIVE ->
      batch [] [] [] db = (Ok tt, db)).
Proof.
  intros batch. unfold batch, log_batch. repeat split.
  - intros e V1. rewrite V1. reflexivity.
  - intros e V1 V2. rewrite V1, V2. reflexivity.
  - intros e V1 V2 V3. rewrite V1, V2, V3. reflexivity.
  - intros V1 V2 V3 Hr Hs. rewrite V1, V2, V3. unfold check.
    rewrite !(bind_ok _ _ _ _ _ (eq_refl : ret tt db = (Ok tt, db))).
    apply bind_raise.
    apply (managed_raise_mlflow _ db _ (SessionMaker db)).
    rewrite (bind_ok _ _ _ _ _
               (get_run_found run_id (SessionMaker db) r eq_refl Hr)).
    unfold _check_run_is_active. rewrite (stage_not_active _ Hs).
    reflexivity.
  - intros V1 V2 V3 Hr Hs. rewrite V1, V2, V3. unfold check.
    rewrite !(bind_ok _ _ _ _ _ (eq_refl : ret tt db = (Ok tt, db))).
    assert (ManagedSessionMaker
              (run <- _get_run run_id ;; _check_run_is_active run) db
            = (Ok tt, db)) as G.
    { eapply managed_ok.
      - rewrite (bind_ok _ _ _ _ _
                   (get_run_found run_id (SessionMaker db) r eq_refl Hr)).
        unfold _check_run_is_active. rewrite Hs. reflexivity.
      - reflexivity. }
    rewrite (bind_ok _ _ _ _ _ G). reflexivity.
Qed.
End BatchEdges.

Lemma log_batch_checks_before_applying_witness :
  log_batch accept_metric accept_tag accept_run_id accept_batch accept_batch
    "r2" [acc half 1 1] [Param.mk "a" "b"] [] example_db
  = (Raise (Mlflow (run_guard_error run_r2)), example_db)
  /\ log_batch accept_metric accept_tag accept_run_id accept_batch
       accept_batch "r1" [] [] [] example_db = (Ok tt, example_db).
Proof.
  pose proof (log_batch_checks_before_applying accept_metric accept_tag
                accept_run_id accept_batch accept_batch example_db "r2"
                run_r2 [acc half 1 1] [Param.mk "a" "b"] [])
    as [_ [_ [_ [G _]]]].
  pose proof (log_batch_checks_before_applying accept_metric accept_tag
                accept_run_id accept_batch accept_batch example_db "r1"
                run_r1 [] [] [])
    as [_ [_ [_ [_ E]]]].
  split.
  - apply G; try reflexivity. discriminate.
  - apply E; reflexivity.
Defined.

(** ** The history of a metric *)

Lemma get_metric_history_cases
  (unordered : list SqlMetric.t -> list SqlMetric.t) run_id key db :
  get_metric_history unordered run_id key db
  = (Ok (unordered (history run_id key db)), db).
Proof.
  unfold get_metric_history, history. run_store. simpl.
  rewrite map_id. reflexivity.
Qed.

Lemma history_key run_id key (m : SqlMetric.t) :
  (SqlMetric.run_uuid m =? run_id)%string
  && (SqlMetric.key m =? key)%string = true
  <-> metric_key m = (run_id, key).
Proof. apply string_pair_eqb. Qed.

Lemma insert_by_timestamp_same_rows (m : SqlMetric.t) rows :
  Permutation (insert_by_timestamp m rows) (m :: rows).
Proof.
  induction rows as [|x rows IH]; simpl; [apply Permutation_refl|].
  destruct (SqlMetric.timestamp m <=? SqlMetric.timestamp x);
    [apply Permutation_refl|].
  apply (perm_trans (perm_skip x IH)). apply perm_swap.
Qed.

Lemma by_timestamp_same_rows rows : Permutation (by_timestamp rows) rows.
Proof.
  unfold by_timestamp. induction rows as [|m rows IH]; simpl;
    [apply perm_nil|].
  apply (perm_trans (insert_by_timestamp_same_rows m _)).
  apply perm_skip. exact IH.
Qed.

Section History.
Variable _validate_metric : string -> float -> Z -> Z -> option Exn.

Lemma log_metric_history
  (db : DB) (run_id : string) (r : SqlRun.t) (metric : Metric.t) :
  run_rows run_id db = [r] ->
  SqlRun.lifecycle_stage r = ACTIVE ->
  _validate_metric (Metric.key metric) (Metric.value metric)
    (Metric.timestamp metric) (Metric.step metric) = None ->
  (List.length (latest_rows run_id (Metric.key metric) db) <= 1)%nat ->
  let f := fact_of run_id metric in
  exists db',
    log_metric _validate_metric run_id metric db = (Ok tt, db')
    /\ history run_id (Metric.key metric) db'
       = history run_id (Metric.key metric) db
         ++ match filter (filter_by f) (metrics db) with
            | [] => [f]
            | _ => []
            end
    /\ (forall run_id' key',
          (run_id', key') <> (run_id, Metric.key metric) ->
          history run_id' key' db' = history run_id' key' db).
Proof.
  intros Hr Hs Hv Hlen f.
  pose proof (log_metric_active _validate_metric run_id metric db r
                Hr Hs Hv) as E.
  cbv zeta in E. fold f in E.
  assert (forall db1,
            metrics db1 = metrics db ++ [f] ->
            history run_id (Metric.key metric) db1
            = history run_id (Metric.key metric) db ++ [f]
            /\ (forall run_id' key',
                  (run_id', key') <> (run_id, Metric.key metric) ->
                  history run_id' key' db1 = history run_id' key' db)) as A.
  { intros db1 Hm. unfold history. rewrite Hm. split.
    - rewrite filter_app. simpl. rewrite !String.eqb_refl. reflexivity.
    - intros run_id' key' Hne. rewrite filter_app. simpl.
      assert ((run_id =? run_id')%string
              && (Metric.key metric =? key')%string = false) as ->.
      { apply not_true_is_false. intro T.
        apply (history_key run_id' key' f) in T. apply Hne.
        unfold metric_key, f, fact_of in T. simpl in T. congruence. }
      apply app_nil_r. }
  destruct (filter (filter_by f) (metrics db)) as [|x xs].
  - destruct (latest_rows run_id (Metric.key metric) db) as [|l [|l' ls]].
    + exists (replace_latest f (add_fact f db)). split; [exact E|].
      apply A. reflexivity.
    + destruct (_compare_metrics f l).
      * exists (replace_latest f (add_fact f db)). split; [exact E|].
        apply A. reflexivity.
      * exists (add_fact f db). split; [exact E|]. apply A. reflexivity.
    + simpl in Hlen. lia.
  - exists db. split; [exact E|]. split; [rewrite app_nil_r|]; reflexivity.
Qed.

(** X19 -- get_metric_history, whose query has no ORDER BY, with the rows
    in whatever order the database returns them.  For any run id, known or
    not, it returns the rows of the metrics table of that run and key, each
    as often as the table holds it: it looks no run up, never raises and
    never changes the store.  After a log_metric call on an active run the
    history of the call's run and key is the history of before with the new
    fact added, or the history of before when the identical fact was
    stored already, in some order; every other history has the rows it
    had. *)
Theorem metric_history_gains_the_logged_fact
  (unordered : list SqlMetric.t -> list SqlMetric.t)
  (db : DB) (run_id : string) (r : SqlRun.t) (metric : Metric.t) :
  (forall rows, Permutation (unordered rows) rows) ->
  (forall run_id' key',
     exists rows,
       get_metric_history unordered run_id' key' db = (Ok rows, db)
       /\ Permutation rows (history run_id' key' db))
  /\ (run_rows run_id db = [r] ->
      SqlRun.lifecycle_stage r = ACTIVE ->
      _validate_metric (Metric.key metric) (Metric.value metric)
        (Metric.timestamp metric) (Metric.step metric) = None ->
      (List.length (latest_rows run_id (Metric.key metric) db) <= 1)%nat ->
      let f := fact_of run_id metric in
      exists db',
        log_metric _validate_metric run_id metric db = (Ok tt, db')
        /\ (exists before after,
              get_metric_history unordered run_id (Metric.key metric) db
              = (Ok before, db)
              /\ get_metric_history unordered run_id (Metric.key metric) db'
                 = (Ok after, db')
              /\ Permutation after
                   match filter (filter_by f) (metrics db) with
                   | [] => f :: before
                   | _ => before
                   end)
        /\ (forall run_id' key',
              (run_id', key') <> (run_id, Metric.key metric) ->
              exists before after,
                get_metric_history unordered run_id' key' db
                = (Ok before, db)
                /\ get_metric_history unordered run_id' key' db'
                   = (Ok after, db')
                /\ Permutation after before)).
Proof.
  intros Hsame. split.
  - intros run_id' key'. eexists. split;
      [apply get_metric_history_cases | apply Hsame].
  - intros Hr Hs Hv Hlen f.
    destruct (log_metric_history db run_id r metric Hr Hs Hv Hlen)
      as [db' [E [Hkey Hother]]].
    fold f in Hkey. exists db'. split; [exact E|]. split.
    + exists (unordered (history run_id (Metric.key metric) db)),
             (unordered (history run_id (Metric.key metric) db')).
      split; [apply get_metric_history_cases|].
      split; [apply get_metric_history_cases|].
      rewrite Hkey. apply (perm_trans (Hsame _)).
      destruct (filter (filter_by f) (metrics db)).
      * apply Permutation_sym. apply (perm_trans (perm_skip f (Hsame _))).
        apply Permutation_cons_append.
      * rewrite app_nil_r. apply Permutation_sym. apply Hsame.
    + intros run_id' key' Hne.
      exists (unordered (history run_id' key' db)),
             (unordered (history run_id' key' db')).
      split; [apply get_metric_history_cases|].
      split; [apply get_metric_history_cases|].
      rewrite (Hother run_id' key' Hne). apply Permutation_refl.
Qed.
End History.

Lemma metric_history_gains_the_logged_fact_witness :
  (exists rows,
     get_metric_history by_timestamp "r1" "acc"
       (log_metrics accept_metric example_calls example_db)
     = (Ok rows, log_metrics accept_metric example_calls example_db)
     /\ Permutation rows
          [SqlMetric.mk "r1" "acc" half 100 0 false;
           SqlMetric.mk "r1" "acc" three_quarters 200 1 false;
           SqlMetric.mk "r1" "acc" half 150 1 false])
  /\ exists db' after,
       log_metric accept_metric "r1" (acc half 100 0) example_db
       = (Ok tt, db')
       /\ get_metric_history by_timestamp "r1" "acc" db' = (Ok after, db')
       /\ Permutation after [SqlMetric.mk "r1" "acc" half 100 0 false].
Proof.
  split.
  - apply (proj1 (metric_history_gains_the_logged_fact accept_metric
                    by_timestamp
                    (log_metrics accept_metric example_calls example_db)
                    "r1" run_r1 (acc half 100 0) by_timestamp_same_rows)).
  - destruct (proj2 (metric_history_gains_the_logged_fact accept_metric
                       by_timestamp example_db "r1" run_r1 (acc half 100 0)
                       by_timestamp_same_rows)
                eq_refl eq_refl eq_refl ltac:(simpl; lia))
      as [db' [E [[before [after [B [A P]]]] _]]].
    exists db', after. split; [exact E|]. split; [exact A|].
    simpl in B. injection B as <-. exact P.
Defined.

(** ** Seeding the default experiment *)

Section Seeding.
Variable artifact_root_uri : string.
Variable db_type : string.
Variable MYSQL : string.
Variable DEFAULT_EXPERIMENT_NAME : string.

Lemma create_default_experiment_runs (s : Session) :
  _create_default_experiment artifact_root_uri db_type MYSQL
    DEFAULT_EXPERIMENT_NAME s
  = execute_insert_experiment
      (default_experiment artifact_root_uri DEFAULT_EXPERIMENT_NAME) s.
Proof.
  unfold _create_default_experiment, try_finally,
    _set_no_auto_for_zero_values, _unset_no_auto_for_zero_values,
    execute_set_mode, bind, ret.
  destruct (db_type =? MYSQL)%string;
    destruct (execute_insert_experiment _ s) as [[u|e] s1];
    try destruct u; reflexivity.
Qed.

(** X20 -- the seeding step of the constructor, for an artifact root and
    a default name that are plain literals.  On a store without experiments
    it commits the default experiment: id 0, the default name, active,
    located at the artifact root joined with 0, and get_experiment 0
    returns it.  On a store with an active experiment it does nothing.  On
    a store that has experiments, none of them active, among them one of
    id 0, it raises INTERNAL_ERROR wrapping the integrity error of the
    INSERT and commits nothing: the check counts active experiments
    only. *)
Theorem seeding_the_default_experiment (db : DB)
  (Hroot : plain_literal artifact_root_uri = true)
  (Hname : plain_literal DEFAULT_EXPERIMENT_NAME = true) :
  let seed := seed_default_experiment artifact_root_uri db_type MYSQL
                DEFAULT_EXPERIMENT_NAME in
  let row := SqlExperiment.mk 0 DEFAULT_EXPERIMENT_NAME
               (Some (posixpath_join artifact_root_uri (str 0))) ACTIVE in
  (experiments db = [] ->
   seed db = (Ok tt, with_experiments (fun _ => [row]) db)
   /\ get_experiment 0 (with_experiments (fun _ => [row]) db)
      = (Ok row, with_experiments (fun _ => [row]) db))
  /\ (forall e, In e (experiments db) ->
                SqlExperiment.lifecycle_stage e = ACTIVE ->
                seed db = (Ok tt, db))
  /\ (forall e, (forall x, In x (experiments db) ->
                           SqlExperiment.lifecycle_stage x = DELETED) ->
                In e (experiments db) ->
                SqlExperiment.experiment_id e = 0 ->
                exists detail,
                  seed db
                  = (Raise (Mlflow (internal_error (IntegrityError detail))),
                     db)
                  /\ error_code (internal_error (IntegrityError detail))
                     = INTERNAL_ERROR).
Proof.
  intros seed row. unfold seed, seed_default_experiment.
  split; [|split].
  - intros Hnone.
    assert (with_experiments (fun rows => rows ++ [row]) db
            = with_experiments (fun _ => [row]) db) as Hdb.
    { unfold with_experiments. rewrite Hnone. reflexivity. }
    split.
    + rewrite (bind_ok _ _ _ _ _ (list_experiments_cases ACTIVE_ONLY db)).
      rewrite Hnone. simpl filter. cbv iota.
      rewrite <- Hdb. eapply managed_ok.
      * rewrite create_default_experiment_runs.
        unfold execute_insert_experiment. simpl. rewrite Hnone. reflexivity.
      * reflexivity.
    + rewrite get_experiment_cases. unfold experiment_rows. reflexivity.
  - intros e He Hs.
    rewrite (bind_ok _ _ _ _ _ (list_experiments_cases ACTIVE_ONLY db)).
    assert (In e (filter (in_view ACTIVE_ONLY) (experiments db))) as Hin.
    { apply filter_In. split; [exact He|]. unfold in_view. rewrite Hs.
      reflexivity. }
    destruct (filter (in_view ACTIVE_ONLY) (experiments db));
      [contradiction | reflexivity].
  - intros e Hall He Hid. eexists. split; [|reflexivity].
    rewrite (bind_ok _ _ _ _ _ (list_experiments_cases ACTIVE_ONLY db)).
    assert (filter (in_view ACTIVE_ONLY) (experiments db) = []) as ->.
    { clear He. induction (experiments db) as [|x l IH]; [reflexivity|].
      simpl. unfold in_view at 1. rewrite (Hall x (or_introl eq_refl)).
      simpl. apply IH. intros y Hy. apply Hall. right. exact Hy. }
    apply (managed_raise_other _ db _ (SessionMaker db)).
    rewrite create_default_experiment_runs.
    unfold execute_insert_experiment, default_experiment,
      DEFAULT_EXPERIMENT_ID.
    cbn [SqlExperiment.experiment_id txn SessionMaker].
    assert (existsb (fun x => SqlExperiment.experiment_id x =? 0)
                    (experiments db) = true) as ->; [|reflexivity].
    apply existsb_exists. exists e. split; [exact He|].
    apply Z.eqb_eq. exact Hid.
Qed.
End Seeding.

Lemma seeding_the_default_experiment_witness :
  fst (seed_default_experiment "/mlruns" "sqlite" "mysql" "Default" empty_db)
  = Ok tt
  /\ seed_default_experiment "/mlruns" "sqlite" "mysql" "Default" example_db
     = (Ok tt, example_db)
  /\ exists detail,
       seed_default_experiment "/mlruns" "sqlite" "mysql" "Default"
         all_deleted_db
       = (Raise (Mlflow (internal_error (IntegrityError detail))),
          all_deleted_db).
Proof.
  destruct (seeding_the_default_experiment "/mlruns" "sqlite" "mysql"
              "Default" empty_db eq_refl eq_refl) as [A _].
  destruct (seeding_the_default_experiment "/mlruns" "sqlite" "mysql"
              "Default" example_db eq_refl eq_refl) as [_ [B _]].
  destruct (seeding_the_default_experiment "/mlruns" "sqlite" "mysql"
              "Default" all_deleted_db eq_refl eq_refl) as [_ [_ C]].
  split; [rewrite (proj1 (A eq_refl)); reflexivity|]. split.
  - apply (B experiment_default); [left; reflexivity | reflexivity].
  - destruct (C (SqlExperiment.mk 0 "Default" (Some "/mlruns/0"%string)
                                 DELETED)) as [detail [E _]].
    + intros x [<-|[]]. reflexivity.
    + left. reflexivity.
    + reflexivity.
    + exists detail. exact E.
Defined.
